(** * InterUSS DSS storage core: a shallow embedding and its properties

    The development follows the Go sources of the Discovery and
    Synchronization Service:

    - [bits], [strconv], [ptypes] and the time functions: the parts of
      the Go libraries the store relies on (FormatUint, FormatInt,
      ParseUint, UnixNano, protobuf timestamps);
    - [Versions]: timestampToVersionString / versionStringToTimestamp;
    - [s2] and [geo]: cell levels, maxLoopArea and Covering, over
      IEEE-754 binary64 numbers;
    - [models]: IdentificationServiceArea, Subscription and Apply;
    - [Sql] and [Schema]: tables as lists of rows, three-valued
      predicates, LEFT JOIN, UPSERT, the checks of the tables and
      transactions with an explicit status;
    - [dspb]: the wire messages;
    - [RowStore]: the row based store (subscriptionsRow,
      identificationServiceAreaRow, insertSubscription, updateSubscription,
      insertIdentificationServiceAreaUnchecked,
      DeleteIdentificationServiceArea, SearchSubscriptions);
    - [SubscriptionStore]: the models based subscription store
      (pushSubscription, InsertSubscription, UpdateSubscription,
      DeleteSubscription, SearchSubscriptions);
    - [Scenario]: the concrete tables and entities of the examples.

    The backend is deterministic: a statement fails when it violates a
    check, a key or the state of its transaction, and on nothing else. *)

From Stdlib Require Import ZArith List String Ascii Bool Lia Permutation.
From Stdlib Require Import Floats.
Import ListNotations.

Local Open Scope string_scope.
Local Open Scope list_scope.
Local Open Scope Z_scope.

(** ** Machine integers *)

Definition two64 : Z := 2 ^ 64.
Definition maxUint64 : Z := two64 - 1.
Definition minInt64 : Z := - 2 ^ 63.
Definition maxInt64 : Z := 2 ^ 63 - 1.

(** Conversion [uint64(x)] of a signed 64-bit integer. *)
Definition uint64 (x : Z) : Z := x mod two64.

(** Conversion [int64(x)] of an unsigned 64-bit integer. *)
Definition int64 (x : Z) : Z :=
  let y := x mod two64 in
  if y <? 2 ^ 63 then y else y - two64.

(** ** Errors of the store and of the libraries it calls *)

Inductive Err : Type :=
| ErrSyntax                (* strconv.ErrSyntax *)
| ErrRange                 (* strconv.ErrRange *)
| ErrNoRows                (* sql.ErrNoRows *)
| ErrTxDone                (* sql.ErrTxDone *)
| ErrScanNull              (* converting NULL to string is unsupported *)
| ErrConstraint            (* a CHECK or PRIMARY KEY violation *)
| ErrTimestamp             (* ptypes: nil or invalid timestamp *)
| ErrManyRows (n : nat)    (* query returned n subscriptions *)
| ErrorString (msg : string) (* errors.New and fmt.Errorf *)
| AlreadyExists (id : string)
| NotFound (msg : string)
| VersionMismatch (msg : string)
| BadRequest (msg : string)
| Combined (e1 e2 : Err).  (* multierr.Combine of two non-nil errors *)

(** [multierr.Combine(err, rollbackErr)] where the first error is not nil. *)
Definition multierr_Combine (e : Err) (r : option Err) : Err :=
  match r with
  | None => e
  | Some e' => Combined e e'
  end.

(** ** math/bits *)

Module bits.

(** [bits.TrailingZeros64(x)]: the number of trailing zero bits, 64 for
    zero. *)
Definition TrailingZeros64 (x : Z) : Z :=
  match x with
  | Zpos p => (fix tz (q : positive) : Z :=
                 match q with
                 | xO q' => 1 + tz q'
                 | _ => 0
                 end) p
  | _ => 64
  end.

End bits.

(** ** strconv *)

Module strconv.

Definition digits : string := "0123456789abcdefghijklmnopqrstuvwxyz".

Definition digit_at (d : Z) : ascii :=
  match String.get (Z.to_nat d) digits with
  | Some c => c
  | None => "0"%char
  end.

Definition isPowerOfTwo (x : Z) : bool := Z.land x (x - 1) =? 0.

(** The digit loop of [formatBits]: the most significant digit is
    written last, in front of what has been produced so far.  A 64-bit
    value has at most 64 digits in any base, hence the bound on the
    number of iterations.  For base 10 the Go code writes two digits per
    iteration and has a table for the numbers below 100; the digits are
    those of the general case. *)
Fixpoint formatBits_loop (n : nat) (u b : Z) (pow2 : bool) (a : string)
  : string :=
  match n with
  | O => a
  | S n' =>
      if u >=? b then
        if pow2 then
          let shift := Z.land (bits.TrailingZeros64 b) 7 in
          let m := b - 1 in
          formatBits_loop n' (Z.shiftr u shift) b pow2
                          (String (digit_at (Z.land u m)) a)
        else
          let q := u / b in
          formatBits_loop n' q b pow2 (String (digit_at (u - q * b)) a)
      else String (digit_at u) a
  end.

Definition formatBits (u : Z) (base : Z) (neg : bool) : string :=
  let a := formatBits_loop 65 u base (isPowerOfTwo base) "" in
  if neg then String "-"%char a else a.

(** [strconv.FormatUint(i, base)] for [2 <= base <= 36]. *)
Definition FormatUint (i : Z) (base : Z) : string :=
  formatBits i base false.

(** [strconv.FormatInt(i, base)]: the magnitude is formatted as an
    unsigned number and the sign is put in front. *)
Definition FormatInt (i : Z) (base : Z) : string :=
  if i <? 0 then formatBits (uint64 (- i)) base true
  else formatBits (uint64 i) base false.

Definition code (c : ascii) : Z := Z.of_N (N_of_ascii c).

(** [lower(c)] is [c | ('x' - 'X')]. *)
Definition lower (c : ascii) : Z := Z.lor (code c) 32.

(** The value of one digit character, before the comparison with the
    base. *)
Definition digit_val (c : ascii) : option Z :=
  let k := code c in
  if (48 <=? k) && (k <=? 57) then Some (k - 48)
  else if (97 <=? lower c) && (lower c <=? 122) then Some (lower c - 97 + 10)
  else None.

Fixpoint ParseUint_loop (s : string) (base cutoff maxVal n : Z)
  : Err + Z :=
  match s with
  | EmptyString => inr n
  | String c s' =>
      match digit_val c with
      | None => inl ErrSyntax
      | Some d =>
          if d >=? base then inl ErrSyntax
          else if n >=? cutoff then inl ErrRange
          else
            let n0 := uint64 (n * base) in
            let n1 := uint64 (n0 + d) in
            if (n1 <? n0) || (n1 >? maxVal) then inl ErrRange
            else ParseUint_loop s' base cutoff maxVal n1
      end
  end.

(** [strconv.ParseUint(s, base, bitSize)] for an explicit base
    [2 <= base <= 36] (no prefix, no underscores) and
    [0 < bitSize <= 64]. *)
Definition ParseUint (s : string) (base : Z) (bitSize : Z) : Err + Z :=
  match s with
  | EmptyString => inl ErrSyntax
  | _ =>
      let cutoff := maxUint64 / base + 1 in
      let maxVal := 2 ^ bitSize - 1 in
      ParseUint_loop s base cutoff maxVal 0
  end.

End strconv.

(** ** time *)

(** A [time.Time] is represented by the number of nanoseconds since the
    Unix epoch, as an unbounded integer: Go's type covers the years 1 to
    9999 and more, which does not fit 64 bits. *)
Definition time_Time : Type := Z.

(** [t.UnixNano()]: the value wraps around when it is not representable. *)
Definition UnixNano (t : time_Time) : Z := int64 t.

(** [time.Unix(0, nsec)]. *)
Definition time_Unix0 (nsec : Z) : time_Time := nsec.

Definition representable (t : time_Time) : Prop :=
  minInt64 <= t <= maxInt64.

(** ** Version strings *)

Module Versions.

(** Convert updatedAt to a string, why not make it smaller.
    32 is the highest value allowed by strconv. *)
Definition versionBase : Z := 32.

Definition versionStringToTimestamp (s : string) : Err + time_Time :=
  match strconv.ParseUint s versionBase 64 with
  | inl err => inl err
  | inr nanos => inr (time_Unix0 (int64 nanos))
  end.

Definition timestampToVersionString (t : time_Time) : string :=
  strconv.FormatUint (uint64 (UnixNano t)) versionBase.

End Versions.

(** ** ptypes: protobuf timestamps *)

Module ptypes.

(** The wire message [google.protobuf.Timestamp]. *)
Record Timestamp : Type := mkTimestamp { Seconds : Z; Nanos : Z }.

(** Seconds field of the earliest valid Timestamp: 0001-01-01. *)
Definition minValidSeconds : Z := -62135596800.
(** Seconds field just after the latest valid Timestamp: 10000-01-01. *)
Definition maxValidSeconds : Z := 253402300800.

Definition validateTimestamp (ts : Timestamp) : option Err :=
  if Seconds ts <? minValidSeconds then Some ErrTimestamp
  else if Seconds ts >=? maxValidSeconds then Some ErrTimestamp
  else if (Nanos ts <? 0) || (Nanos ts >=? 1000000000) then Some ErrTimestamp
  else None.

(** [ptypes.Timestamp(ts)] for a non-nil message. *)
Definition Timestamp_ (ts : Timestamp) : Err + time_Time :=
  match validateTimestamp ts with
  | Some e => inl e
  | None => inr (Seconds ts * 1000000000 + Nanos ts)
  end.

(** [ptypes.TimestampProto(t)]. *)
Definition TimestampProto (t : time_Time) : Err + Timestamp :=
  let ts := {| Seconds := t / 1000000000; Nanos := t mod 1000000000 |} in
  match validateTimestamp ts with
  | Some e => inl e
  | None => inr ts
  end.

End ptypes.

(** ** s2 cells *)

Module s2.

(** A [s2.CellID] is an unsigned 64-bit integer. *)
Definition CellID : Type := Z.
Definition CellUnion : Type := list CellID.

Definition maxLevel : Z := 30.

(** [findLSBSetNonZero64(x)]: the index of the least significant set
    bit; passing zero returns zero. *)
Definition findLSBSetNonZero64 (x : Z) : Z :=
  if x =? 0 then 0 else bits.TrailingZeros64 x.

(** [ci.Level()]: [maxLevel - findLSBSetNonZero64(uint64(ci))>>1]. *)
Definition Level (ci : CellID) : Z :=
  maxLevel - Z.shiftr (findLSBSetNonZero64 ci) 1.

End s2.

(** ** geo: area policy of the coverer *)

Module geo.

Local Open Scope float_scope.

Definition maxAllowedSqMi : float := 1000.

(** [math.Pi] as a float64. *)
Definition math_Pi : float := 0x1.921fb54442d18p+1.

Definition errBadCoordSet : Err :=
  BadRequest "coordinates did not create a well formed area".
Definition errAreaTooLarge : Err := BadRequest "area is too large".

Definition maxLoopArea : float :=
  let sqMiEarth := 197000000 in
  let scalingFactor := sqMiEarth / 4 * math_Pi in
  maxAllowedSqMi / scalingFactor.

(** The bound as the specification words it:
    [maxAllowedSqMi / (sqMiEarth / (4 pi))]. *)
Definition maxLoopArea_spec : float :=
  let sqMiEarth := 197000000 in
  maxAllowedSqMi / (sqMiEarth / (4 * math_Pi)).

Section Covering.
(** The s2 library is outside the repository: loops, their area and
    the region coverer are taken as given. *)
Variable Loop : Type.
Variable Area : Loop -> float.
Variable RegionCoverer_Covering : Loop -> s2.CellUnion.

Definition Covering (loop : Loop) : Err + s2.CellUnion :=
  let loopArea := Area loop in
  if loopArea <=? 0 then inl errBadCoordSet
  else if maxLoopArea <? loopArea then inl errAreaTooLarge
  else inr (RegionCoverer_Covering loop).

(** The policy of the specification, with its own bound. *)
Definition Covering_spec (loop : Loop) : Err + s2.CellUnion :=
  let loopArea := Area loop in
  if loopArea <=? 0 then inl errBadCoordSet
  else if maxLoopArea_spec <? loopArea then inl errAreaTooLarge
  else inr (RegionCoverer_Covering loop).
End Covering.

(** *** Area strings *)

Definition errOddNumberOfCoordinatesInAreaString : Err :=
  BadRequest "odd number of coordinates in area string".
Definition errNotEnoughPointsInPolygon : Err :=
  BadRequest "not enough points in polygon".

(** [strings.Count(s, ",")]. *)
Fixpoint Count_comma (s : string) : Z :=
  match s with
  | EmptyString => 0%Z
  | String c s' =>
      ((if Ascii.eqb c ","%char then 1 else 0) + Count_comma s')%Z
  end.

(** [bytes.IndexByte(data, ',')]: the index of the first comma. *)
Fixpoint IndexByte_comma (data : string) : option nat :=
  match data with
  | EmptyString => None
  | String c data' =>
      if Ascii.eqb c ","%char then Some O
      else option_map S (IndexByte_comma data')
  end.

(** The slices [data[:n]] and [data[n:]]. *)
Fixpoint slice_to (n : nat) (data : string) : string :=
  match n, data with
  | S n', String c data' => String c (slice_to n' data')
  | _, _ => EmptyString
  end.

Fixpoint slice_from (n : nat) (data : string) : string :=
  match n, data with
  | S n', String _ data' => slice_from n' data'
  | _, _ => data
  end.

(** The split function of the scanner: how far to advance, and the token
    if there is one. *)
Definition splitAtComma (data : string) (atEOF : bool)
  : nat * option string :=
  if atEOF && (String.length data =? 0)%nat then (O, None)
  else match IndexByte_comma data with
       | Some i => (S i, Some (slice_to i data))
       | None =>
           if atEOF then (String.length data, Some data) else (O, None)
       end.

(** [bufio.MaxScanTokenSize]: the size to which the buffer of a scanner
    grows. *)
Definition MaxScanTokenSize : Z := 65536.

(** The tokens that [scanner.Scan()] yields on the unread part [data] of
    the string.  The split function finds in the buffer the comma that it
    finds in the whole of [data], or gets the rest at the end of the input,
    unless the buffer is full before: [Scan] then sets ErrTooLong and
    returns false, which ends the loop of AreaToCellIDs as the end of the
    input does.  Every token takes at least one byte, so the number of
    rounds is bounded by the length. *)
Fixpoint scan_tokens_loop (rounds : nat) (data : string) : list string :=
  match rounds with
  | O => []
  | S rounds' =>
      match splitAtComma data true with
      | (advance, Some token) =>
          if (MaxScanTokenSize <=? Z.of_nat (String.length token))%Z then []
          else token :: scan_tokens_loop rounds' (slice_from advance data)
      | (_, None) => []
      end
  end.

Definition scan_tokens (area : string) : list string :=
  scan_tokens_loop (S (String.length area)) area.

(** The area does not end with a comma and is not empty: its last
    coordinate is open. *)
Fixpoint open_tail (s : string) : bool :=
  match s with
  | EmptyString => false
  | String c s' =>
      match s' with
      | EmptyString => negb (Ascii.eqb c ","%char)
      | String _ _ => open_tail s'
      end
  end.

Section AreaToCellIDs.
(** The s2 library and the parser of floats are outside the repository. *)
Variable Point : Type.
Variable Loop : Type.
Variable ParseFloat : string -> Err + float.
Variable TrimSpace : string -> string.
Variable PointFromDegrees : float -> float -> Point.
Variable LoopFromPoints : list Point -> Loop.
Variable Area : Loop -> float.
Variable RegionCoverer_Covering : Loop -> s2.CellUnion.

(** The body of [for scanner.Scan() { ... counter++ }]. *)
Fixpoint scan_points (tokens : list string) (counter : Z) (lat lng : float)
         (points : list Point) : Err + list Point :=
  match tokens with
  | [] => inr points
  | token :: rest =>
      let trimmed := TrimSpace token in
      if (counter mod 2 =? 0)%Z then
        match ParseFloat trimmed with
        | inl err => inl err
        | inr f => scan_points rest (counter + 1)%Z f lng points
        end
      else
        match ParseFloat trimmed with
        | inl err => inl err
        | inr f =>
            scan_points rest (counter + 1)%Z lat f
                        (points ++ [PointFromDegrees lat f])
        end
  end.

(** AreaToCellIDs parses "area" in the format 'lat0,lon0,lat1,lon1,...'
    and returns the resulting s2.CellUnion. *)
Definition AreaToCellIDs (area : string) : Err + s2.CellUnion :=
  let numCoords := (Count_comma area + 1)%Z in
  if (numCoords mod 2 =? 1)%Z then inl errOddNumberOfCoordinatesInAreaString
  else if (numCoords / 2 <? 3)%Z then inl errNotEnoughPointsInPolygon
  else
    match scan_points (scan_tokens area) 0%Z 0%float 0%float [] with
    | inl err => inl err
    | inr points =>
        Covering Loop Area RegionCoverer_Covering (LoopFromPoints points)
    end.
End AreaToCellIDs.

End geo.

(** ** models *)

Module models.

Definition ID : Type := string.
Definition Owner : Type := string.
Definition Version : Type := string.

(** Modelled from the spec: models.VersionFromTimestamp is not part of
    the sources at hand.  The version is derived from [updated_at] with
    the base-32 encoding and is empty when [updated_at] is absent. *)
Definition VersionFromTimestamp (t : option time_Time) : Version :=
  match t with
  | None => ""
  | Some t => Versions.timestampToVersionString t
  end.

Module IdentificationServiceArea.

(** A nil slice and nil pointers are [None]. *)
Record t : Type := mk {
  ID : models.ID;
  Url : string;
  Owner : models.Owner;
  Cells : option s2.CellUnion;
  StartTime : option time_Time;
  EndTime : option time_Time;
  UpdatedAt : option time_Time;
  AltitudeHi : option float;
  AltitudeLo : option float
}.

Definition Version (i : t) : models.Version :=
  VersionFromTimestamp (UpdatedAt i).

Definition overlay {A : Type} (new old : option A) : option A :=
  match new with
  | Some _ => new
  | None => old
  end.

(** Apply fields from i2 onto s, preferring any fields set in i2
    except for ID and Owner. *)
Definition Apply (s i2 : t) : t :=
  {| ID := ID s;
     Url := if String.eqb (Url i2) "" then Url s else Url i2;
     Owner := Owner s;
     Cells := overlay (Cells i2) (Cells s);
     StartTime := overlay (StartTime i2) (StartTime s);
     EndTime := overlay (EndTime i2) (EndTime s);
     UpdatedAt := overlay (UpdatedAt i2) (UpdatedAt s);
     AltitudeHi := overlay (AltitudeHi i2) (AltitudeHi s);
     AltitudeLo := overlay (AltitudeLo i2) (AltitudeLo s) |}.

End IdentificationServiceArea.

Module Subscription.

(** Modelled from the spec: the struct is not part of the sources at
    hand; its fields are those the store scans and writes, and the cells
    that pushSubscription reattaches. *)
Record t : Type := mk {
  ID : models.ID;
  Url : string;
  NotificationIndex : Z;
  Owner : models.Owner;
  Cells : option s2.CellUnion;
  StartTime : option time_Time;
  EndTime : option time_Time;
  UpdatedAt : option time_Time
}.

(** Modelled from the spec: Subscription.Version is not part of the
    sources at hand; it is the version of [updated_at], as for the
    service area. *)
Definition Version (s : t) : models.Version :=
  VersionFromTimestamp (UpdatedAt s).

(** Modelled from the spec: Subscription.Apply is not part of the
    sources at hand.  It returns a copy with every non-empty field of
    the overlay overwriting the receiver, except id and owner, field
    by field as IdentificationServiceArea.Apply does; the
    notification index is moved by service area mutations only and is
    kept. *)
Definition Apply (s s2 : t) : t :=
  {| ID := ID s;
     Url := if String.eqb (Url s2) "" then Url s else Url s2;
     NotificationIndex := NotificationIndex s;
     Owner := Owner s;
     Cells := IdentificationServiceArea.overlay (Cells s2) (Cells s);
     StartTime :=
       IdentificationServiceArea.overlay (StartTime s2) (StartTime s);
     EndTime := IdentificationServiceArea.overlay (EndTime s2) (EndTime s);
     UpdatedAt :=
       IdentificationServiceArea.overlay (UpdatedAt s2) (UpdatedAt s) |}.

End Subscription.

End models.

(** ** The SQL backend: tables, predicates, joins and transactions *)

Module Sql.

(** *** Three-valued logic: [None] is NULL *)

Definition tri : Type := option bool.

Definition tand (a b : tri) : tri :=
  match a, b with
  | Some false, _ | _, Some false => Some false
  | Some true, Some true => Some true
  | _, _ => None
  end.

Definition tor (a b : tri) : tri :=
  match a, b with
  | Some true, _ | _, Some true => Some true
  | Some false, Some false => Some false
  | _, _ => None
  end.

(** A row is selected by WHERE when the condition is TRUE. *)
Definition holds (a : tri) : bool :=
  match a with
  | Some true => true
  | _ => false
  end.

Definition is_null {A : Type} (x : option A) : tri :=
  match x with
  | None => Some true
  | Some _ => Some false
  end.

(** [a >= x] and [a <= x] for a column [x] that may be NULL. *)
Definition ge_col (a : Z) (x : option Z) : tri :=
  option_map (fun v => a >=? v) x.
Definition le_col (a : Z) (x : option Z) : tri :=
  option_map (fun v => a <=? v) x.

(** *** Tables are lists of rows *)

(** [x = ANY(xs)] and [x != ALL(xs)] on non-NULL values. *)
Definition any_eq {A : Type} (eqb : A -> A -> bool) (x : A) (xs : list A)
  : bool := existsb (eqb x) xs.
Definition all_neq {A : Type} (eqb : A -> A -> bool) (x : A) (xs : list A)
  : bool := forallb (fun y => negb (eqb x y)) xs.

(** SELECT DISTINCT on one column. *)
Fixpoint distinct {A : Type} (eqb : A -> A -> bool) (l : list A) : list A :=
  match l with
  | [] => []
  | x :: l' =>
      if existsb (eqb x) l' then distinct eqb l' else x :: distinct eqb l'
  end.

(** [l LEFT JOIN r ON on]: every row of [l] is kept; it is paired with
    each matching row of [r], or with NULLs when there is none. *)
Definition left_join {A B : Type} (on : A -> B -> bool)
           (l : list A) (r : list B) : list (A * option B) :=
  flat_map (fun a =>
              match filter (on a) r with
              | [] => [(a, None)]
              | ms => map (fun b => (a, Some b)) ms
              end) l.

(** [l JOIN r ON on]: only the matching pairs. *)
Definition inner_join {A B : Type} (on : A -> B -> bool)
           (l : list A) (r : list B) : list (A * B) :=
  flat_map (fun a => map (fun b => (a, b)) (filter (on a) r)) l.

(** UPSERT: the row with the same primary key is replaced, otherwise the
    row is added. *)
Definition upsert {R : Type} (same_key : R -> R -> bool) (r : R)
           (t : list R) : list R :=
  if existsb (same_key r) t
  then map (fun x => if same_key r x then r else x) t
  else t ++ [r].

(** DELETE ... WHERE p. *)
Definition delete_where {R : Type} (p : R -> bool) (t : list R) : list R :=
  filter (fun x => negb (p x)) t.

(** *** Transactions *)

(** [TxNotBegun]: the operation returned before [Begin]. *)
Inductive TxStatus : Type :=
  TxNotBegun | TxOpen | TxCommitted | TxRolledBack.

Section Transactions.
Variable DB : Type.

(** [persisted] is what other transactions and later operations see;
    [working] is the view of the transaction itself. *)
Record Tx : Type := mkTx {
  persisted : DB;
  working : DB;
  status : TxStatus
}.

Definition Begin (db : DB) : Tx := mkTx db db TxOpen.

Definition Commit (tx : Tx) : Tx * option Err :=
  match status tx with
  | TxOpen => (mkTx (working tx) (working tx) TxCommitted, None)
  | _ => (tx, Some ErrTxDone)
  end.

Definition Rollback (tx : Tx) : Tx * option Err :=
  match status tx with
  | TxOpen => (mkTx (persisted tx) (persisted tx) TxRolledBack, None)
  | _ => (tx, Some ErrTxDone)
  end.

(** A read in the transaction. *)
Definition Query {A : Type} (tx : Tx) (q : DB -> A) : Err + A :=
  match status tx with
  | TxOpen => inr (q (working tx))
  | _ => inl ErrTxDone
  end.

(** A statement that changes the working state, or fails and leaves it
    as it was. *)
Definition Exec {A : Type} (tx : Tx) (q : DB -> Err + (DB * A))
  : Tx * (Err + A) :=
  match status tx with
  | TxOpen =>
      match q (working tx) with
      | inl e => (tx, inl e)
      | inr (db', a) => (mkTx (persisted tx) db' TxOpen, inr a)
      end
  | _ => (tx, inl ErrTxDone)
  end.

(** [return nil, multierr.Combine(err, tx.Rollback())]. *)
Definition fail_rollback {A : Type} (tx : Tx) (err : Err)
  : (Err + A) * Tx :=
  let '(tx', r) := Rollback tx in
  (inl (multierr_Combine err r), tx').

(** [if err := tx.Commit(); err != nil { return nil, err }; return a, nil]. *)
Definition commit_return {A : Type} (tx : Tx) (a : A) : (Err + A) * Tx :=
  match Commit tx with
  | (tx', Some err) => (inl err, tx')
  | (tx', None) => (inr a, tx')
  end.
End Transactions.

Arguments mkTx {DB}.
Arguments persisted {DB}.
Arguments working {DB}.
Arguments status {DB}.
Arguments Begin {DB}.
Arguments Commit {DB}.
Arguments Rollback {DB}.
Arguments Query {DB A}.
Arguments Exec {DB A}.
Arguments fail_rollback {DB A}.
Arguments commit_return {DB A}.

End Sql.

(** ** dspb: the wire messages *)

Module dspb.

Module SubscriptionCallbacks.
Record t : Type := mk { IdentificationServiceAreaUrl : string }.
(** The nil-safe getter. *)
Definition GetIdentificationServiceAreaUrl (c : option t) : string :=
  match c with
  | Some c => IdentificationServiceAreaUrl c
  | None => ""
  end.
End SubscriptionCallbacks.

Module Subscription.
Record t : Type := mk {
  Id : string;
  Owner : string;
  Callbacks : option SubscriptionCallbacks.t;
  NotificationIndex : Z;
  Version : string;
  Begins : option ptypes.Timestamp;
  Expires : option ptypes.Timestamp
}.
End Subscription.

(** Of the spatial messages, the fields that the sources read. *)
Module LatLngPoint.
Record t : Type := mk { Lat : float; Lng : float }.
End LatLngPoint.

Module GeoPolygon.
Record t : Type := mk { Vertices : list LatLngPoint.t }.
End GeoPolygon.

Module Volume3D.
Record t : Type := mk { Footprint : option GeoPolygon.t }.
End Volume3D.

Module Volume4D.
Record t : Type := mk {
  SpatialVolume : option Volume3D.t;
  TimeStart : option ptypes.Timestamp;
  TimeEnd : option ptypes.Timestamp
}.
End Volume4D.

Module IdentificationServiceArea.
Record t : Type := mk {
  Id : string;
  Owner : string;
  FlightsUrl : string;
  Version : string;
  Extents : option Volume4D.t
}.
End IdentificationServiceArea.

Module SubscriptionState.
Record t : Type := mk { NotificationIndex : Z; Subscription : string }.
End SubscriptionState.

Module SubscriberToNotify.
Record t : Type := mk {
  Url : string;
  Subscriptions : list SubscriptionState.t
}.
End SubscriberToNotify.

End dspb.

(** ** The schema shared by the stores (Bootstrap) *)

Module Schema.

(** A row of [cells_subscriptions] or of
    [cells_identification_service_areas]; the primary key is
    [(cell_id, entity_id)]. *)
Record CellRow : Type := mkCellRow {
  cell_id : Z;
  cell_level : Z;
  entity_id : string;
  cell_updated_at : time_Time
}.

Definition same_cell_key (a b : CellRow) : bool :=
  (cell_id a =? cell_id b) && String.eqb (entity_id a) (entity_id b).

(** CHECK (cell_level BETWEEN 0 and 30). *)
Definition check_cell_level (c : CellRow) : bool :=
  (0 <=? cell_level c) && (cell_level c <=? 30).

(** CHECK (begins_at IS NULL OR expires_at IS NULL OR
    begins_at < expires_at): violated when the condition is FALSE. *)
Definition check_time_order (b e : option time_Time) : bool :=
  match b, e with
  | Some b, Some e => b <? e
  | _, _ => true
  end.

(** database/sql's default conversion of a value of kind uint64.  The
    store passes these values as the first argument of its statements,
    and database/sql reports the failure for that argument. *)
Definition driver_ConvertValue (u : Z) : Err + Z :=
  if u >=? 2 ^ 63
  then inl (ErrorString
              ("sql: converting argument $1 type: "
                 ++ "uint64 values with high bit set are not supported"))
  else inr u.

Fixpoint driver_ConvertArray (us : list Z) : Err + list Z :=
  match us with
  | [] => inr []
  | u :: us' =>
      match driver_ConvertValue u with
      | inl e => inl e
      | inr v =>
          match driver_ConvertArray us' with
          | inl e => inl e
          | inr vs => inr (v :: vs)
          end
      end
  end.

(** UPSERT INTO cells_... VALUES (cell, level, entity, now), under the
    level check and the foreign key to the entity table. *)
Definition upsert_cell (entity_ids : list string) (c : CellRow)
           (t : list CellRow) : Err + list CellRow :=
  if check_cell_level c && existsb (String.eqb (entity_id c)) entity_ids
  then inr (Sql.upsert same_cell_key c t)
  else inl ErrConstraint.

End Schema.

(** ** The row based store *)

Module RowStore.

Import Sql Schema.

(** [time.Time{}]: January 1, year 1, 00:00:00 UTC. *)
Definition time_zero : time_Time := -62135596800000000000.

Module subscriberRow.
Record t : Type := mk {
  id : string;
  url : string;
  notificationIndex : Z
}.

Definition toProtobuf (sr : t) : Err + dspb.SubscriberToNotify.t :=
  inr {| dspb.SubscriberToNotify.Url := url sr;
         dspb.SubscriberToNotify.Subscriptions :=
           [ {| dspb.SubscriptionState.NotificationIndex :=
                  notificationIndex sr;
                dspb.SubscriptionState.Subscription := id sr |} ] |}.
End subscriberRow.

Module identificationServiceAreaRow.
Record t : Type := mk {
  id : string;
  owner : string;
  url : string;
  startsAt : time_Time;
  endsAt : time_Time;
  updatedAt : time_Time
}.

(** [&identificationServiceAreaRow{}]. *)
Definition zero : t := mk "" "" "" time_zero time_zero time_zero.

Definition toProtobuf (isar : t) : Err + dspb.IdentificationServiceArea.t :=
  match ptypes.TimestampProto (startsAt isar) with
  | inl err => inl err
  | inr ts =>
      match ptypes.TimestampProto (endsAt isar) with
      | inl err => inl err
      | inr te =>
          inr {| dspb.IdentificationServiceArea.Id := id isar;
                 dspb.IdentificationServiceArea.Owner := owner isar;
                 dspb.IdentificationServiceArea.FlightsUrl := url isar;
                 dspb.IdentificationServiceArea.Version :=
                   strconv.FormatInt (UnixNano (updatedAt isar)) 10;
                 dspb.IdentificationServiceArea.Extents :=
                   Some {| dspb.Volume4D.SpatialVolume := None;
                           dspb.Volume4D.TimeStart := Some ts;
                           dspb.Volume4D.TimeEnd := Some te |} |}
      end
  end.
End identificationServiceAreaRow.

Module subscriptionsRow.
(** A [sql.NullString] or [pq.NullTime] that is not valid is [None]. *)
Record t : Type := mk {
  id : string;
  owner : string;
  url : string;
  typesFilter : option string;
  notificationIndex : Z;
  lastUsedAt : option time_Time;
  beginsAt : option time_Time;
  expiresAt : option time_Time;
  updatedAt : time_Time
}.

(** [&subscriptionsRow{}]. *)
Definition zero : t := mk "" "" "" None 0 None None None time_zero.

Definition set_id (sr : t) (v : string) : t :=
  mk v (owner sr) (url sr) (typesFilter sr) (notificationIndex sr)
     (lastUsedAt sr) (beginsAt sr) (expiresAt sr) (updatedAt sr).
Definition set_owner (sr : t) (v : string) : t :=
  mk (id sr) v (url sr) (typesFilter sr) (notificationIndex sr)
     (lastUsedAt sr) (beginsAt sr) (expiresAt sr) (updatedAt sr).
Definition set_url (sr : t) (v : string) : t :=
  mk (id sr) (owner sr) v (typesFilter sr) (notificationIndex sr)
     (lastUsedAt sr) (beginsAt sr) (expiresAt sr) (updatedAt sr).
Definition set_beginsAt (sr : t) (v : option time_Time) : t :=
  mk (id sr) (owner sr) (url sr) (typesFilter sr) (notificationIndex sr)
     (lastUsedAt sr) v (expiresAt sr) (updatedAt sr).
Definition set_expiresAt (sr : t) (v : option time_Time) : t :=
  mk (id sr) (owner sr) (url sr) (typesFilter sr) (notificationIndex sr)
     (lastUsedAt sr) (beginsAt sr) v (updatedAt sr).
Definition set_updatedAt (sr : t) (v : time_Time) : t :=
  mk (id sr) (owner sr) (url sr) (typesFilter sr) (notificationIndex sr)
     (lastUsedAt sr) (beginsAt sr) (expiresAt sr) v.

(** The optional timestamps of [toProtobuf]. *)
Definition timestamp_field (x : option time_Time)
  : Err + option ptypes.Timestamp :=
  match x with
  | None => inr None
  | Some t =>
      match ptypes.TimestampProto t with
      | inl err => inl err
      | inr ts => inr (Some ts)
      end
  end.

Definition toProtobuf (sr : t) : Err + dspb.Subscription.t :=
  match timestamp_field (beginsAt sr) with
  | inl err => inl err
  | inr begins =>
      match timestamp_field (expiresAt sr) with
      | inl err => inl err
      | inr expires =>
          inr {| dspb.Subscription.Id := id sr;
                 dspb.Subscription.Owner := owner sr;
                 dspb.Subscription.Callbacks :=
                   Some (dspb.SubscriptionCallbacks.mk (url sr));
                 dspb.Subscription.NotificationIndex :=
                   notificationIndex sr;
                 dspb.Subscription.Version :=
                   Versions.timestampToVersionString (updatedAt sr);
                 dspb.Subscription.Begins := begins;
                 dspb.Subscription.Expires := expires |}
      end
  end.

Definition versionOK (sr : t) (version : string) : bool :=
  String.eqb version ""
  || String.eqb version (Versions.timestampToVersionString (updatedAt sr)).

(** from or apply: the row after the call, and the error if any. *)
Definition applyProtobuf (sr : t) (subscription : dspb.Subscription.t)
  : t * option Err :=
  let sr :=
    if negb (String.eqb (dspb.Subscription.Id subscription) "")
    then set_id sr (dspb.Subscription.Id subscription) else sr in
  let sr :=
    if negb (String.eqb (dspb.Subscription.Owner subscription) "")
    then set_owner sr (dspb.Subscription.Owner subscription) else sr in
  let u := dspb.SubscriptionCallbacks.GetIdentificationServiceAreaUrl
             (dspb.Subscription.Callbacks subscription) in
  let sr := if negb (String.eqb u "") then set_url sr u else sr in
  let begins_step :=
    match dspb.Subscription.Begins subscription with
    | None => inr sr
    | Some ts =>
        match ptypes.Timestamp_ ts with
        | inl err => inl err
        | inr begins => inr (set_beginsAt sr (Some begins))
        end
    end in
  match begins_step with
  | inl err => (sr, Some err)
  | inr sr =>
      match dspb.Subscription.Expires subscription with
      | None => (sr, None)
      | Some ts =>
          match ptypes.Timestamp_ ts with
          | inl err => (sr, Some err)
          | inr expires => (set_expiresAt sr (Some expires), None)
          end
      end
  end.
End subscriptionsRow.

(** *** The four tables *)

Record DB : Type := mkDB {
  subscriptions : list subscriptionsRow.t;
  cells_subscriptions : list CellRow;
  identification_service_areas : list identificationServiceAreaRow.t;
  cells_identification_service_areas : list CellRow
}.

Definition same_subscription (a b : subscriptionsRow.t) : bool :=
  String.eqb (subscriptionsRow.id a) (subscriptionsRow.id b).

(** [QueryRowContext(...).Scan]: the first row, or [sql.ErrNoRows]. *)
Definition scan_row {R : Type} (rows : list R) : Err + R :=
  match rows with
  | [] => inl ErrNoRows
  | r :: _ => inr r
  end.

(** SELECT * FROM subscriptions WHERE id = $1 *)
Definition getQuery (id : string) (db : DB) : list subscriptionsRow.t :=
  filter (fun r => String.eqb (subscriptionsRow.id r) id) (subscriptions db).

(** UPSERT INTO subscriptions VALUES ($1, ..., $8,
    transaction_timestamp()) RETURNING * *)
Definition updateQuery (sr : subscriptionsRow.t) (now : time_Time) (db : DB)
  : Err + (DB * list subscriptionsRow.t) :=
  let r := subscriptionsRow.set_updatedAt sr now in
  if check_time_order (subscriptionsRow.beginsAt r)
                      (subscriptionsRow.expiresAt r)
  then inr (mkDB (upsert same_subscription r (subscriptions db))
                 (cells_subscriptions db)
                 (identification_service_areas db)
                 (cells_identification_service_areas db), [r])
  else inl ErrConstraint.

(** UPSERT INTO cells_subscriptions VALUES ($1, $2, $3,
    transaction_timestamp()) *)
Definition subscriptionCellQuery (cell level : Z) (sid : string)
           (now : time_Time) (db : DB) : Err + (DB * unit) :=
  match upsert_cell (map subscriptionsRow.id (subscriptions db))
                    (mkCellRow cell level sid now)
                    (cells_subscriptions db) with
  | inl e => inl e
  | inr t => inr (mkDB (subscriptions db) t
                       (identification_service_areas db)
                       (cells_identification_service_areas db), tt)
  end.

(** [for _, cell := range cells { tx.ExecContext(subscriptionCellQuery,
    cell, cell.Level(), id) }], up to the first error. *)
Fixpoint upsert_cells (tx : Tx DB) (cells : s2.CellUnion) (sid : string)
         (now : time_Time) : Tx DB * option Err :=
  match cells with
  | [] => (tx, None)
  | cell :: rest =>
      match driver_ConvertValue cell with
      | inl e => (tx, Some e)
      | inr v =>
          match Exec tx (subscriptionCellQuery v (s2.Level cell) sid now) with
          | (tx', inl e) => (tx', Some e)
          | (tx', inr _) => upsert_cells tx' rest sid now
          end
      end
  end.

(** updatesSubscription updates the subscription and returns the
    resulting subscription including its ID. *)
Definition updateSubscription (db : DB) (now : time_Time)
           (subscription : dspb.Subscription.t) (cells : s2.CellUnion)
  : (Err + dspb.Subscription.t) * Tx DB :=
  let tx := Begin db in
  match Query tx (getQuery (dspb.Subscription.Id subscription)) with
  | inl err => fail_rollback tx err
  | inr rows =>
      match scan_row rows with
      | inl err => fail_rollback tx err
      | inr sr =>
          if negb (subscriptionsRow.versionOK
                     sr (dspb.Subscription.Version subscription))
          then fail_rollback tx
                 (ErrorString ("version mismatch for subscription "
                                 ++ dspb.Subscription.Id subscription))
          else
            let sr := fst (subscriptionsRow.applyProtobuf sr subscription) in
            match Exec tx (updateQuery sr now) with
            | (tx, inl err) => fail_rollback tx err
            | (tx, inr rows) =>
                match scan_row rows with
                | inl err => fail_rollback tx err
                | inr sr =>
                    (* TODO(steeling) we also need to delete any leftover
                       cells. *)
                    match upsert_cells tx cells (subscriptionsRow.id sr)
                                       now with
                    | (tx, Some err) => fail_rollback tx err
                    | (tx, None) =>
                        match subscriptionsRow.toProtobuf sr with
                        | inl err => (inl err, tx)
                        | inr result => commit_return tx result
                        end
                    end
                end
            end
      end
  end.

(** SELECT subscriptions.* FROM subscriptions LEFT JOIN
    (SELECT DISTINCT subscription_id FROM cells_subscriptions
     WHERE cell_id = ANY($1)) AS unique_subscription_ids
    ON subscriptions.id = unique_subscription_ids.subscription_id
    WHERE subscriptions.owner = $2 *)
Definition subscriptionsInCellsQuery (cells : list Z) (owner : string)
           (db : DB) : list subscriptionsRow.t :=
  let unique_subscription_ids :=
    distinct String.eqb
             (map entity_id
                  (filter (fun c => any_eq Z.eqb (cell_id c) cells)
                          (cells_subscriptions db))) in
  map fst
      (filter (fun p => String.eqb (subscriptionsRow.owner (fst p)) owner)
              (left_join (fun s u => String.eqb (subscriptionsRow.id s) u)
                         (subscriptions db) unique_subscription_ids)).

Fixpoint rows_toProtobuf (rows : list subscriptionsRow.t)
  : Err + list dspb.Subscription.t :=
  match rows with
  | [] => inr []
  | row :: rest =>
      match subscriptionsRow.toProtobuf row with
      | inl err => inl err
      | inr pb =>
          match rows_toProtobuf rest with
          | inl err => inl err
          | inr pbs => inr (pb :: pbs)
          end
      end
  end.

(** SearchSubscriptions returns all subscriptions in "cells". *)
Definition SearchSubscriptions (db : DB) (cells : s2.CellUnion)
           (owner : string) : (Err + list dspb.Subscription.t) * Tx DB :=
  match cells with
  | [] => (inl (ErrorString "missing cell IDs for query"),
           mkTx db db TxNotBegun)
  | _ =>
      let tx := Begin db in
      match driver_ConvertArray cells with
      | inl err => fail_rollback tx err
      | inr cs =>
          match Query tx (subscriptionsInCellsQuery cs owner) with
          | inl err => fail_rollback tx err
          | inr rows =>
              match rows_toProtobuf rows with
              | inl err => fail_rollback tx err
              | inr result => commit_return tx result
              end
          end
      end
  end.

(** SELECT cells_identification_service_areas.cell_id,
           affected_subscriptions.subscription_id
    FROM cells_identification_service_areas
    LEFT JOIN (SELECT DISTINCT cell_id, subscription_id
               FROM cells_subscriptions) AS affected_subscriptions
    ON affected_subscriptions.cell_id =
       cells_identification_service_areas.cell_id
    WHERE cells_identification_service_areas
            .identification_service_area_id = $1 *)
Definition getAffectedCellsAndSubscriptions (id : string) (db : DB)
  : list (Z * option string) :=
  let affected_subscriptions :=
    distinct (fun a b => (fst a =? fst b) && String.eqb (snd a) (snd b))
             (map (fun c => (cell_id c, entity_id c))
                  (cells_subscriptions db)) in
  map (fun p => (cell_id (fst p), option_map snd (snd p)))
      (filter (fun p => String.eqb (entity_id (fst p)) id)
              (left_join (fun c a => fst a =? cell_id c)
                         (cells_identification_service_areas db)
                         affected_subscriptions)).

(** [for rows.Next() { rows.Scan(&cell, &subscription); ... }] with
    [subscription] a Go string: a NULL cannot be scanned into it. *)
Fixpoint scan_affected (rows : list (Z * option string))
         (cells : list Z) (subscriptions : list string)
  : Err + (list Z * list string) :=
  match rows with
  | [] => inr (cells, subscriptions)
  | (_, None) :: _ => inl ErrScanNull
  | (cell, Some subscription) :: rest =>
      scan_affected rest (cells ++ [cell]) (subscriptions ++ [subscription])
  end.

(** SELECT id, url, notification_index FROM subscriptions
    WHERE id = ANY($1) AND owner != $2
      AND begins_at IS NULL OR transaction_timestamp() >= begins_at
      AND expires_at IS NULL OR transaction_timestamp() <= expires_at

    AND binds tighter than OR, so the condition is a disjunction of
    three conjunctions.  A nil Go slice is sent as NULL. *)
Definition subscriptionDetailsCondition (ids : list string) (owner : string)
           (now : time_Time) (r : subscriptionsRow.t) : tri :=
  let in_ids : tri :=
    match ids with
    | [] => None
    | _ => Some (any_eq String.eqb (subscriptionsRow.id r) ids)
    end in
  let other_owner : tri :=
    Some (negb (String.eqb (subscriptionsRow.owner r) owner)) in
  tor (tor (tand (tand in_ids other_owner)
                 (is_null (subscriptionsRow.beginsAt r)))
           (tand (ge_col now (subscriptionsRow.beginsAt r))
                 (is_null (subscriptionsRow.expiresAt r))))
      (le_col now (subscriptionsRow.expiresAt r)).

Definition getSubscriptionDetailsForAffectedCells
           (ids : list string) (owner : string) (now : time_Time) (db : DB)
  : list subscriberRow.t :=
  map (fun r => subscriberRow.mk (subscriptionsRow.id r)
                                 (subscriptionsRow.url r)
                                 (subscriptionsRow.notificationIndex r))
      (filter (fun r => holds (subscriptionDetailsCondition ids owner now r))
              (subscriptions db)).

(** DELETE FROM identification_service_areas
    WHERE id = $1 AND owner = $2 RETURNING *
    with the cascade to the cell rows of the deleted areas. *)
Definition deleteIdentificationServiceAreaQuery (id owner : string)
           (db : DB) : Err + (DB * list identificationServiceAreaRow.t) :=
  let hit r :=
    String.eqb (identificationServiceAreaRow.id r) id
    && String.eqb (identificationServiceAreaRow.owner r) owner in
  let deleted := filter hit (identification_service_areas db) in
  inr (mkDB (subscriptions db)
            (cells_subscriptions db)
            (delete_where hit (identification_service_areas db))
            (delete_where
               (fun c =>
                  existsb (fun r =>
                             String.eqb (identificationServiceAreaRow.id r)
                                        (entity_id c)) deleted)
               (cells_identification_service_areas db)),
       deleted).

Fixpoint subscribers_toProtobuf (subscribers : list subscriberRow.t)
  : Err + list dspb.SubscriberToNotify.t :=
  match subscribers with
  | [] => inr []
  | subscriber :: rest =>
      match subscriberRow.toProtobuf subscriber with
      | inl err => inl err
      | inr pb =>
          match subscribers_toProtobuf rest with
          | inl err => inl err
          | inr pbs => inr (pb :: pbs)
          end
      end
  end.

(** DeleteIdentificationServiceArea deletes the
    IdentificationServiceArea identified by "id" and owned by "owner".
    Returns the delete IdentificationServiceArea and all Subscriptions
    affected by the delete. *)
Definition DeleteIdentificationServiceArea (db : DB) (now : time_Time)
           (id owner : string)
  : (Err + (dspb.IdentificationServiceArea.t
            * list dspb.SubscriberToNotify.t)) * Tx DB :=
  let tx := Begin db in
  match Query tx (getAffectedCellsAndSubscriptions id) with
  | inl err => fail_rollback tx err
  | inr rows =>
      match scan_affected rows [] [] with
      | inl err => fail_rollback tx err
      | inr (cells, subscriptions) =>
          let '(tx, isar) :=
            match Exec tx (deleteIdentificationServiceAreaQuery id owner) with
            | (tx', inl err) =>
                (fst (Rollback tx'), identificationServiceAreaRow.zero)
            | (tx', inr deleted) =>
                match scan_row deleted with
                | inl err =>
                    (* This error condition will be triggered if the
                       owner does not match; the combined error is
                       dropped and the function goes on. *)
                    (fst (Rollback tx'), identificationServiceAreaRow.zero)
                | inr isar => (tx', isar)
                end
            end in
          match Query tx (getSubscriptionDetailsForAffectedCells
                            subscriptions owner now) with
          | inl err => fail_rollback tx err
          | inr subscribers =>
              match identificationServiceAreaRow.toProtobuf isar with
              | inl err => fail_rollback tx err
              | inr isa =>
                  match subscribers_toProtobuf subscribers with
                  | inl err => fail_rollback tx err
                  | inr subscribersToNotify =>
                      commit_return tx (isa, subscribersToNotify)
                  end
              end
          end
      end
  end.

(** *** Insert, get and delete of subscriptions *)

(** INSERT INTO subscriptions VALUES ($1, ..., $8,
    transaction_timestamp()) RETURNING *: the id is the primary key. *)
Definition insertQuery (sr : subscriptionsRow.t) (now : time_Time) (db : DB)
  : Err + (DB * list subscriptionsRow.t) :=
  let r := subscriptionsRow.set_updatedAt sr now in
  if existsb (same_subscription r) (subscriptions db) then inl ErrConstraint
  else if check_time_order (subscriptionsRow.beginsAt r)
                           (subscriptionsRow.expiresAt r)
       then inr (mkDB (subscriptions db ++ [r])
                      (cells_subscriptions db)
                      (identification_service_areas db)
                      (cells_identification_service_areas db), [r])
       else inl ErrConstraint.

(** INSERT INTO cells_subscriptions VALUES ($1, $2, $3,
    transaction_timestamp()): the primary key is (cell_id,
    subscription_id). *)
Definition insertCellQuery (cell level : Z) (sid : string) (now : time_Time)
           (db : DB) : Err + (DB * unit) :=
  let c := mkCellRow cell level sid now in
  if check_cell_level c
     && existsb (String.eqb sid) (map subscriptionsRow.id (subscriptions db))
     && negb (existsb (same_cell_key c) (cells_subscriptions db))
  then inr (mkDB (subscriptions db) (cells_subscriptions db ++ [c])
                 (identification_service_areas db)
                 (cells_identification_service_areas db), tt)
  else inl ErrConstraint.

(** [for _, cell := range cells { tx.ExecContext(subscriptionCellQuery,
    cell, cell.Level(), sr.id) }] of insertSubscription. *)
Fixpoint insert_cells (tx : Tx DB) (cells : s2.CellUnion) (sid : string)
         (now : time_Time) : Tx DB * option Err :=
  match cells with
  | [] => (tx, None)
  | cell :: rest =>
      match driver_ConvertValue cell with
      | inl e => (tx, Some e)
      | inr v =>
          match Exec tx (insertCellQuery v (s2.Level cell) sid now) with
          | (tx', inl e) => (tx', Some e)
          | (tx', inr _) => insert_cells tx' rest sid now
          end
      end
  end.

(** insertSubscription inserts subscription into the store and returns
    the resulting subscription including its ID. *)
Definition insertSubscription (db : DB) (now : time_Time)
           (subscription : dspb.Subscription.t) (cells : s2.CellUnion)
  : (Err + dspb.Subscription.t) * Tx DB :=
  let tx := Begin db in
  let sr := fst (subscriptionsRow.applyProtobuf subscriptionsRow.zero
                                                subscription) in
  match Exec tx (insertQuery sr now) with
  | (tx, inl err) => fail_rollback tx err
  | (tx, inr rows) =>
      match scan_row rows with
      | inl err => fail_rollback tx err
      | inr sr =>
          match insert_cells tx cells (subscriptionsRow.id sr) now with
          | (tx, Some err) => fail_rollback tx err
          | (tx, None) =>
              match subscriptionsRow.toProtobuf sr with
              | inl err => (inl err, tx)
              | inr result => commit_return tx result
              end
          end
      end
  end.

(** GetSubscription returns the subscription identified by "id". *)
Definition GetSubscription (db : DB) (id : string)
  : (Err + dspb.Subscription.t) * Tx DB :=
  let tx := Begin db in
  match Query tx (getQuery id) with
  | inl err => fail_rollback tx err
  | inr rows =>
      match scan_row rows with
      | inl err => fail_rollback tx err
      | inr sr =>
          match subscriptionsRow.toProtobuf sr with
          | inl err => fail_rollback tx err
          | inr result => commit_return tx result
          end
      end
  end.

(** DELETE FROM subscriptions WHERE [hit] RETURNING *, with the cascade
    to the cell rows of the deleted subscriptions. *)
Definition deleteSubscriptionsWhere (hit : subscriptionsRow.t -> bool)
           (db : DB) : Err + (DB * list subscriptionsRow.t) :=
  let deleted := filter hit (subscriptions db) in
  inr (mkDB (delete_where hit (subscriptions db))
            (delete_where
               (fun c => existsb (fun r => String.eqb (subscriptionsRow.id r)
                                                      (entity_id c)) deleted)
               (cells_subscriptions db))
            (identification_service_areas db)
            (cells_identification_service_areas db),
       deleted).

(** DELETE FROM subscriptions WHERE id = $1 RETURNING * *)
Definition blindQuery (id : string)
  : DB -> Err + (DB * list subscriptionsRow.t) :=
  deleteSubscriptionsWhere (fun r => String.eqb (subscriptionsRow.id r) id).

(** DELETE FROM subscriptions WHERE id = $1 AND updated_at = $2
    RETURNING * *)
Definition idempotentQuery (id : string) (updatedAt : time_Time)
  : DB -> Err + (DB * list subscriptionsRow.t) :=
  deleteSubscriptionsWhere
    (fun r => String.eqb (subscriptionsRow.id r) id
              && (subscriptionsRow.updatedAt r =? updatedAt)).

(** DeleteSubscription deletes the subscription identified by "id" and
    returns the deleted subscription. *)
Definition DeleteSubscription (db : DB) (id version : string)
  : (Err + dspb.Subscription.t) * Tx DB :=
  let tx := Begin db in
  let deleted :=
    if String.eqb version "" then Exec tx (blindQuery id)
    else match Versions.versionStringToTimestamp version with
         | inl err => (tx, inl err)
         | inr updatedAt => Exec tx (idempotentQuery id updatedAt)
         end in
  match deleted with
  | (tx, inl err) => fail_rollback tx err
  | (tx, inr rows) =>
      match scan_row rows with
      | inl err => fail_rollback tx err
      | inr sr =>
          match subscriptionsRow.toProtobuf sr with
          | inl err => fail_rollback tx err
          | inr result => commit_return tx result
          end
      end
  end.

(** *** Insert of a service area *)







(** *** nullTime *)

(** A [driver.Value]: nil, a time, or a value of another type, of which
    the name of the type is kept. *)
Inductive driver_Value : Type :=
| VNil
| VTime (t : time_Time)
| VOther (type_name : string).

Module nullTime.
(** nullTime models a timestamp that could be NULL in the database. *)
Record t : Type := mk { Time_ : time_Time; Valid : bool }.

(** The receiver after the call, and the error if any. *)
Definition Scan (nt : t) (value : driver_Value) : t * option Err :=
  match value with
  | VNil => (mk time_zero false, None)
  | VTime v => (mk v true, None)
  | VOther n =>
      (nt, Some (ErrorString
                   ("failed to cast database value, expected time.Time, got "
                      ++ n)))
  end.

Definition Value (nt : t) : driver_Value :=
  if negb (Valid nt) then VNil else VTime (Time_ nt).
End nullTime.

End RowStore.

(** ** The models based subscription store *)

Module SubscriptionStore.

Import Sql Schema.

(** A row of [subscriptions] with the columns of [subscriptionFields]. *)
Record subscriptions_row : Type := mkRow {
  id : string;
  owner : string;
  url : string;
  notification_index : Z;
  starts_at : option time_Time;
  ends_at : option time_Time;
  updated_at : time_Time
}.

Record DB : Type := mkDB {
  subscriptions : list subscriptions_row;
  cells_subscriptions : list CellRow
}.

Definition same_subscription (a b : subscriptions_row) : bool :=
  String.eqb (id a) (id b).

(** [rows.Scan(&s.ID, &s.Owner, &s.Url, &s.NotificationIndex,
    &s.StartTime, &s.EndTime, &s.UpdatedAt)] into a new subscription. *)
Definition scan (r : subscriptions_row) : models.Subscription.t :=
  {| models.Subscription.ID := id r;
     models.Subscription.Url := url r;
     models.Subscription.NotificationIndex := notification_index r;
     models.Subscription.Owner := owner r;
     models.Subscription.Cells := None;
     models.Subscription.StartTime := starts_at r;
     models.Subscription.EndTime := ends_at r;
     models.Subscription.UpdatedAt := Some (updated_at r) |}.

(** A statement that returns subscription rows and may change the
    tables. *)
Definition statement : Type := DB -> Err + (DB * list subscriptions_row).

Definition select (q : DB -> list subscriptions_row) : statement :=
  fun db => inr (db, q db).

Definition fetchSubscriptions (q : Tx DB) (query : statement)
  : Tx DB * (Err + list models.Subscription.t) :=
  match Exec q query with
  | (q', inl err) => (q', inl err)
  | (q', inr rows) => (q', inr (map scan rows))
  end.

Definition fetchSubscription (q : Tx DB) (query : statement)
  : Tx DB * (Err + models.Subscription.t) :=
  match fetchSubscriptions q query with
  | (q', inl err) => (q', inl err)
  | (q', inr subs) =>
      if (1 <? List.length subs)%nat
      then (q', inl (ErrManyRows (List.length subs)))
      else match subs with
           | [] => (q', inl ErrNoRows)
           | s :: _ => (q', inr s)
           end
  end.

(** SELECT ... FROM subscriptions WHERE id = $1 *)
Definition fetchSubscriptionByID (q : Tx DB) (i : models.ID)
  : Tx DB * (Err + models.Subscription.t) :=
  fetchSubscription
    q (select (fun db => filter (fun r => String.eqb (id r) i)
                                (subscriptions db))).

(** SELECT ... FROM subscriptions WHERE id = $1 AND owner = $2 *)
Definition fetchSubscriptionByIDAndOwner (q : Tx DB) (i : models.ID)
           (o : models.Owner) : Tx DB * (Err + models.Subscription.t) :=
  fetchSubscription
    q (select (fun db =>
                 filter (fun r => String.eqb (id r) i
                                  && String.eqb (owner r) o)
                        (subscriptions db))).

(** SELECT DISTINCT subscription_id FROM cells_subscriptions
    WHERE cell_id = ANY($1) *)
Definition unique_subscription_ids (cells : list Z) (db : DB)
  : list string :=
  distinct String.eqb
           (map entity_id
                (filter (fun c => any_eq Z.eqb (cell_id c) cells)
                        (cells_subscriptions db))).


(** UPSERT INTO subscriptions (id, owner, url, notification_index,
    starts_at, ends_at, updated_at)
    VALUES ($1, ..., $6, transaction_timestamp()) RETURNING ... *)
Definition upsertQuery (s : models.Subscription.t) (now : time_Time)
  : statement :=
  fun db =>
    let r := mkRow (models.Subscription.ID s)
                   (models.Subscription.Owner s)
                   (models.Subscription.Url s)
                   (models.Subscription.NotificationIndex s)
                   (models.Subscription.StartTime s)
                   (models.Subscription.EndTime s)
                   now in
    if check_time_order (starts_at r) (ends_at r)
    then inr (mkDB (upsert same_subscription r (subscriptions db))
                   (cells_subscriptions db), [r])
    else inl ErrConstraint.

(** UPSERT INTO cells_subscriptions (cell_id, cell_level,
    subscription_id) VALUES ($1, $2, $3); the row is stamped with the
    time of the transaction. *)
Definition subscriptionCellQuery (cid clevel : Z) (sid : string)
           (now : time_Time) (db : DB) : Err + (DB * unit) :=
  match upsert_cell (map id (subscriptions db))
                    (mkCellRow cid clevel sid now)
                    (cells_subscriptions db) with
  | inl e => inl e
  | inr t => inr (mkDB (subscriptions db) t, tt)
  end.

(** DELETE FROM cells_subscriptions
    WHERE cell_id != ALL($1) AND subscription_id = $2 *)
Definition deleteLeftOverCellsForSubscriptionQuery (cids : list Z)
           (sid : string) (db : DB) : Err + (DB * unit) :=
  inr (mkDB (subscriptions db)
            (delete_where (fun c => all_neq Z.eqb (cell_id c) cids
                                    && String.eqb (entity_id c) sid)
                          (cells_subscriptions db)), tt).

(** [for i := range cids { q.ExecContext(subscriptionCellQuery, cids[i],
    clevels[i], s.ID) }], up to the first error. *)
Fixpoint upsert_cells (q : Tx DB) (cids clevels : list Z) (sid : string)
         (now : time_Time) : Tx DB * option Err :=
  match cids, clevels with
  | cid :: cids', clevel :: clevels' =>
      match Exec q (subscriptionCellQuery cid clevel sid now) with
      | (q', inl e) => (q', Some e)
      | (q', inr _) => upsert_cells q' cids' clevels' sid now
      end
  | _, _ => (q, None)
  end.

(** The cells of a possibly nil cell union. *)
Definition cells_of (c : option s2.CellUnion) : s2.CellUnion :=
  match c with
  | Some l => l
  | None => []
  end.

Definition set_Cells (s : models.Subscription.t) (c : option s2.CellUnion)
  : models.Subscription.t :=
  {| models.Subscription.ID := models.Subscription.ID s;
     models.Subscription.Url := models.Subscription.Url s;
     models.Subscription.NotificationIndex :=
       models.Subscription.NotificationIndex s;
     models.Subscription.Owner := models.Subscription.Owner s;
     models.Subscription.Cells := c;
     models.Subscription.StartTime := models.Subscription.StartTime s;
     models.Subscription.EndTime := models.Subscription.EndTime s;
     models.Subscription.UpdatedAt := models.Subscription.UpdatedAt s |}.

Definition pushSubscription (q : Tx DB) (now : time_Time)
           (s : models.Subscription.t)
  : Tx DB * (Err + models.Subscription.t) :=
  let cids := map int64 (cells_of (models.Subscription.Cells s)) in
  let clevels := map s2.Level (cells_of (models.Subscription.Cells s)) in
  let cells := models.Subscription.Cells s in
  match fetchSubscription q (upsertQuery s now) with
  | (q, inl err) => (q, inl err)
  | (q, inr s) =>
      let s := set_Cells s cells in
      match upsert_cells q cids clevels (models.Subscription.ID s) now with
      | (q, Some err) => (q, inl err)
      | (q, None) =>
          match Exec q (deleteLeftOverCellsForSubscriptionQuery
                          cids (models.Subscription.ID s)) with
          | (q, inl err) => (q, inl err)
          | (q, inr _) => (q, inr s)
          end
      end
  end.

(** Insert inserts subscription into the store and returns the
    resulting subscription including its ID. *)
Definition InsertSubscription (db : DB) (now : time_Time)
           (s : models.Subscription.t)
  : (Err + models.Subscription.t) * Tx DB :=
  let tx := Begin db in
  let push (tx : Tx DB) :=
    match pushSubscription tx now s with
    | (tx, inl err) => (inl err, tx)
    | (tx, inr s) => commit_return tx s
    end in
  match fetchSubscriptionByID tx (models.Subscription.ID s) with
  | (tx, inl ErrNoRows) => push tx
  | (tx, inl err) => fail_rollback tx err
  | (tx, inr _) =>
      fail_rollback tx (AlreadyExists (models.Subscription.ID s))
  end.

(** updatesSubscription updates the subscription and returns the
    resulting subscription including its ID. *)
Definition UpdateSubscription (db : DB) (now : time_Time)
           (s : models.Subscription.t)
  : (Err + models.Subscription.t) * Tx DB :=
  let tx := Begin db in
  match fetchSubscriptionByIDAndOwner tx (models.Subscription.ID s)
                                      (models.Subscription.Owner s) with
  | (tx, inl ErrNoRows) => fail_rollback tx (NotFound "not found")
  | (tx, inl err) => fail_rollback tx err
  | (tx, inr old) =>
      if negb (String.eqb (models.Subscription.Version s)
                          (models.Subscription.Version old))
      then fail_rollback tx (VersionMismatch "old version")
      else
        match pushSubscription tx now (models.Subscription.Apply old s) with
        | (tx, inl err) => (inl err, tx)
        | (tx, inr s) => commit_return tx s
        end
  end.

(** DELETE FROM subscriptions WHERE id = $1 AND owner = $2, with the
    cascade to the cell rows. *)
Definition deleteQuery (i : models.ID) (o : models.Owner) (db : DB)
  : Err + (DB * unit) :=
  let hit r := String.eqb (id r) i && String.eqb (owner r) o in
  let deleted := filter hit (subscriptions db) in
  inr (mkDB (delete_where hit (subscriptions db))
            (delete_where
               (fun c => existsb (fun r => String.eqb (id r) (entity_id c))
                                 deleted)
               (cells_subscriptions db)), tt).

(** DeleteSubscription deletes the subscription identified by "id" and
    returns the deleted subscription. *)
Definition DeleteSubscription (db : DB) (i : models.ID) (o : models.Owner)
           (version : models.Version)
  : (Err + models.Subscription.t) * Tx DB :=
  let tx := Begin db in
  (* We fetch to know whether to return a concurrency error, or a not
     found error *)
  match fetchSubscriptionByIDAndOwner tx i o with
  | (tx, inl err) => fail_rollback tx err
  | (tx, inr old) =>
      if negb (String.eqb version (models.Subscription.Version old))
      then fail_rollback
             tx (ErrorString ("version mismatch for subscription " ++ i))
      else
        match Exec tx (deleteQuery i o) with
        | (tx, inl err) => fail_rollback tx err
        | (tx, inr _) => commit_return tx old
        end
  end.

(** SELECT ... FROM subscriptions LEFT JOIN
    (SELECT DISTINCT cells_subscriptions.subscription_id
     FROM cells_subscriptions
     WHERE cells_subscriptions.cell_id = ANY($1))
    AS unique_subscription_ids
    ON subscriptions.id = unique_subscription_ids.subscription_id
    WHERE subscriptions.owner = $2 *)
Definition searchQuery (cells : list Z) (o : models.Owner) (db : DB)
  : list subscriptions_row :=
  map fst
      (filter (fun p => String.eqb (owner (fst p)) o)
              (left_join (fun s u => String.eqb (id s) u)
                         (subscriptions db)
                         (unique_subscription_ids cells db))).

(** The query as the specification words it:
    SELECT s.* FROM subscriptions s JOIN (SELECT DISTINCT
    subscription_id FROM cells_subscriptions WHERE cell_id = ANY($cells))
    u ON s.id = u.subscription_id WHERE s.owner = $owner *)
Definition searchQuery_spec (cells : list Z) (o : models.Owner) (db : DB)
  : list subscriptions_row :=
  map fst
      (filter (fun p => String.eqb (owner (fst p)) o)
              (inner_join (fun s u => String.eqb (id s) u)
                          (subscriptions db)
                          (unique_subscription_ids cells db))).

(** SearchSubscriptions returns all subscriptions in "cells". *)
Definition SearchSubscriptions (db : DB) (cells : s2.CellUnion)
           (o : models.Owner)
  : (Err + list models.Subscription.t) * Tx DB :=
  match cells with
  | [] => (inl (BadRequest "no location provided"), mkTx db db TxNotBegun)
  | _ =>
      let tx := Begin db in
      match driver_ConvertArray cells with
      | inl err => fail_rollback tx err
      | inr cs =>
          match fetchSubscriptions tx (select (searchQuery cs o)) with
          | (tx, inl err) => fail_rollback tx err
          | (tx, inr subscriptions) => commit_return tx subscriptions
          end
      end
  end.

(** Get returns the subscription identified by "id".  The query runs on
    the database handle, not in a transaction of the store: it reads
    what is persisted. *)
Definition GetSubscription (db : DB) (i : models.ID)
  : Err + models.Subscription.t :=
  snd (fetchSubscriptionByID (Begin db) i).

End SubscriptionStore.

(** The cells that the index relates to an entity. *)
Definition indexed_cells (sid : string) (t : list Schema.CellRow) : list Z :=
  map Schema.cell_id
      (filter (fun c => String.eqb (Schema.entity_id c) sid) t).

(** The ids of the subscriptions named in a list of subscribers. *)
Definition notified_ids (l : list dspb.SubscriberToNotify.t) : list string :=
  flat_map (fun n => map dspb.SubscriptionState.Subscription
                         (dspb.SubscriberToNotify.Subscriptions n)) l.

(** The index [t] relates the cell [c] to the entity [e]. *)
Definition indexed (t : list Schema.CellRow) (c : Z) (e : string) : Prop :=
  exists row, In row t /\ Schema.cell_id row = c /\ Schema.entity_id row = e.


(** The row that pushSubscription writes. *)
Definition pushed_row (s : models.Subscription.t) (now : time_Time)
  : SubscriptionStore.subscriptions_row :=
  SubscriptionStore.mkRow
    (models.Subscription.ID s) (models.Subscription.Owner s)
    (models.Subscription.Url s) (models.Subscription.NotificationIndex s)
    (models.Subscription.StartTime s) (models.Subscription.EndTime s) now.

(** ** Concrete data used by the examples *)

(** Owners are "A", "B" and "X".  Identifiers are UUIDs: those of the
    subscriptions of A and B start with a and b, the identifier of the
    service area of A ends with ff. *)

Module Scenario.

Definition id_S_A : string := "a0000000-0000-4000-8000-000000000001".
Definition id_S_B : string := "b0000000-0000-4000-8000-000000000001".
Definition id_S_X : string := "c0000000-0000-4000-8000-000000000001".
Definition id_I_A : string := "a0000000-0000-4000-8000-0000000000ff".

(** A service area row last written at 1560000000 s after the epoch. *)
Definition isa_row : RowStore.identificationServiceAreaRow.t :=
  RowStore.identificationServiceAreaRow.mk
    id_I_A "A" "https://a/flights"
    1559999940000000000 1560000060000000000 1560000000000000000.

(** A loop is represented by its area, in steradians; 2^-16 steradians
    are about 239 square miles. *)
Definition loop_239_sq_mi : float := 0x1p-16%float.
Definition cover_of_any_loop (_ : float) : s2.CellUnion := [42].

(** A persisted subscription row and a patch that names another id and
    another owner. *)
Definition stored_row : RowStore.subscriptionsRow.t :=
  RowStore.subscriptionsRow.mk
    id_S_B "B" "https://b/isa" None 0 None None None 1560000000000000000.
Definition foreign_patch : dspb.Subscription.t :=
  dspb.Subscription.mk id_S_X "X" None 0 "" None None.

(** The row after the patch has been applied. *)
Definition patched_row : RowStore.subscriptionsRow.t :=
  fst (RowStore.subscriptionsRow.applyProtobuf stored_row foreign_patch).

(** The instant 1560000000 s after the epoch, and one minute. *)
Definition T0 : time_Time := 1560000000000000000.
Definition minute : Z := 60000000000.

(** *** Row based store: a service area of owner A on cell 42 *)

Definition I_A : RowStore.identificationServiceAreaRow.t :=
  RowStore.identificationServiceAreaRow.mk
    id_I_A "A" "https://a/flights" T0 (T0 + 60 * minute) (T0 - minute).

(** A subscription of owner B on cell 42, without time bounds. *)
Definition S_B : RowStore.subscriptionsRow.t :=
  RowStore.subscriptionsRow.mk
    id_S_B "B" "https://b/isa" None 0 None None None (T0 - 2 * minute).

(** A subscription of owner A on cell 42 that expires in an hour. *)
Definition S_A : RowStore.subscriptionsRow.t :=
  RowStore.subscriptionsRow.mk
    id_S_A "A" "https://a/isa" None 0 None None (Some (T0 + 60 * minute))
    (T0 - 2 * minute).

Definition db_cross_owner : RowStore.DB :=
  RowStore.mkDB [S_B]
                [Schema.mkCellRow 42 30 id_S_B (T0 - 2 * minute)]
                [I_A]
                [Schema.mkCellRow 42 30 id_I_A (T0 - minute)].

Definition db_same_owner : RowStore.DB :=
  RowStore.mkDB [S_A]
                [Schema.mkCellRow 42 30 id_S_A (T0 - 2 * minute)]
                [I_A]
                [Schema.mkCellRow 42 30 id_I_A (T0 - minute)].

(** *** Row based store: a subscription on cells 42 and 84 is moved to
    cells 84 and 126 *)

Definition db_two_cells : RowStore.DB :=
  RowStore.mkDB [S_B]
                [Schema.mkCellRow 42 30 id_S_B (T0 - 2 * minute);
                 Schema.mkCellRow 84 29 id_S_B (T0 - 2 * minute)]
                [] [].

Definition move_cells_patch : dspb.Subscription.t :=
  dspb.Subscription.mk
    id_S_B "B" None 0 (Versions.timestampToVersionString (T0 - 2 * minute))
    None None.

(** *** Models based store *)

Definition empty_db : SubscriptionStore.DB := SubscriptionStore.mkDB [] [].

(** A subscription whose start time is after its end time. *)
Definition inverted_subscription : models.Subscription.t :=
  models.Subscription.mk id_S_B "https://b/isa" 0 "B" (Some [42])
                         (Some (T0 + minute)) (Some T0) None.

(** A subscription of owner B on cells 42 and 84. *)
Definition sub_B : models.Subscription.t :=
  models.Subscription.mk id_S_B "https://b/isa" 0 "B" (Some [42; 84])
                         None None None.

(** The store after [sub_B] has been inserted at [T0]. *)
Definition db_sub_B : SubscriptionStore.DB :=
  Sql.persisted (snd (SubscriptionStore.InsertSubscription empty_db T0 sub_B)).

(** The patch that moves [sub_B] to cells 84 and 126, carrying the
    version of the instant [t]. *)
Definition move_sub_B (t : time_Time) : models.Subscription.t :=
  models.Subscription.mk id_S_B "" 0 "B" (Some [84; 126]) None None (Some t).

(** *** Row based store: a new subscription *)

Definition row_empty_db : RowStore.DB := RowStore.mkDB [] [] [] [].

(** The message of a subscription of owner B; it claims a notification
    index of 7. *)
Definition msg_B : dspb.Subscription.t :=
  dspb.Subscription.mk
    id_S_B "B" (Some (dspb.SubscriptionCallbacks.mk "https://b/isa")) 7 ""
    None None.

(** The same message with a begin time before the year 1 and an end
    time one hour after [T0]. *)
Definition msg_B_bad_begin : dspb.Subscription.t :=
  dspb.Subscription.mk
    id_S_B "B" (Some (dspb.SubscriptionCallbacks.mk "https://b/isa")) 7 ""
    (Some (ptypes.mkTimestamp (-62135596801) 0))
    (Some (ptypes.mkTimestamp 1560003600 0)).

(** A patch of the subscription of B that names owner X and carries no
    version. *)
Definition takeover_patch : dspb.Subscription.t :=
  dspb.Subscription.mk id_S_B "X" None 0 "" None None.

(** The service area of A on cells 42 and 84, where only cell 42 carries
    a subscription. *)
Definition db_unsubscribed_cell : RowStore.DB :=
  RowStore.mkDB [S_B]
                [Schema.mkCellRow 42 30 id_S_B (T0 - 2 * minute)]
                [I_A]
                [Schema.mkCellRow 42 30 id_I_A (T0 - minute);
                 Schema.mkCellRow 84 29 id_I_A (T0 - minute)].

(** *** An area string with an open latitude

    Seven coordinates and a comma at the end; a parser of one digit; the
    points as pairs of degrees, the loop as the list of its points, with
    an area of 2^-18 steradians, about 60 square miles. *)

Definition area_open_latitude : string := "1,2,3,4,5,6,7,".

Definition digit_ParseFloat (s : string) : Err + float :=
  match s with
  | String c EmptyString =>
      if (48 <=? nat_of_ascii c)%nat then
        match nth_error [0; 1; 2; 3; 4; 5; 6; 7; 8; 9]%float
                        (nat_of_ascii c - 48) with
        | Some f => inr f
        | None => inl ErrSyntax
        end
      else inl ErrSyntax
  | _ => inl ErrSyntax
  end.

Definition points_Area (_ : list (float * float)) : float := 0x1p-18%float.
Definition points_cover (_ : list (float * float)) : s2.CellUnion := [42].

(** *** Row based store: the message of a new service area of A *)

Definition msg_I_A : dspb.IdentificationServiceArea.t :=
  dspb.IdentificationServiceArea.mk
    id_I_A "A" "https://a/flights" ""
    (Some (dspb.Volume4D.mk None
                            (Some (ptypes.mkTimestamp 1560000000 0))
                            (Some (ptypes.mkTimestamp 1560003600 0)))).

(** The store with the subscription of B on cell 42 and no service
    area. *)
Definition db_only_S_B : RowStore.DB :=
  RowStore.mkDB [S_B]
                [Schema.mkCellRow 42 30 id_S_B (T0 - 2 * minute)]
                [] [].

End Scenario.

(** ** Vocabulary of the statements *)

(** [result] is the field [old] overlaid with [new]: a field that is set
    in the overlay replaces the old one, an unset one leaves it. *)
Definition overlaid {A : Type} (new old result : option A) : Prop :=
  match new with
  | Some v => result = Some v
  | None => result = old
  end.

(** The same for strings, where the empty string is the unset value. *)
Definition overlaid_string (new old result : string) : Prop :=
  if String.eqb new "" then result = old else result = new.

(** ** Vocabulary of the further properties *)

Fixpoint string_forall (p : ascii -> bool) (s : string) : bool :=
  match s with
  | EmptyString => true
  | String c s' => p c && string_forall p s'
  end.

(** One of the characters 0-9 and a-v. *)
Definition lower_base32 (c : ascii) : bool :=
  let k := strconv.code c in
  ((48 <=? k) && (k <=? 57)) || ((97 <=? k) && (k <=? 118)).

(** A character that strconv reads as a digit below 32. *)
Definition base32_digit (c : ascii) : bool :=
  match strconv.digit_val c with
  | Some d => d <? 32
  | None => false
  end.

(** The number that the digits of [s] write in base 32, after the
    digits that gave [n]. *)
Fixpoint base32_value (s : string) (n : Z) : Z :=
  match s with
  | EmptyString => n
  | String c s' =>
      base32_value s' (32 * n + match strconv.digit_val c with
                                | Some d => d
                                | None => 0
                                end)
  end.

(** The fields of a service area that are set, in the order url, cells,
    start time, end time, updated_at, upper and lower altitude. *)
Definition is_set {A : Type} (x : option A) : bool :=
  match x with
  | Some _ => true
  | None => false
  end.

Definition set_fields (i : models.IdentificationServiceArea.t) : list bool :=
  [ negb (String.eqb (models.IdentificationServiceArea.Url i) "");
    is_set (models.IdentificationServiceArea.Cells i);
    is_set (models.IdentificationServiceArea.StartTime i);
    is_set (models.IdentificationServiceArea.EndTime i);
    is_set (models.IdentificationServiceArea.UpdatedAt i);
    is_set (models.IdentificationServiceArea.AltitudeHi i);
    is_set (models.IdentificationServiceArea.AltitudeLo i) ].

(** Pointwise implication of two lists of booleans of the same length. *)
Fixpoint all_implied (l1 l2 : list bool) : bool :=
  match l1, l2 with
  | [], [] => true
  | b1 :: l1', b2 :: l2' => implb b1 b2 && all_implied l1' l2'
  | _, _ => false
  end.

(** The cell row that the row based store writes for a cell. *)
Definition cell_row (sid : string) (now : time_Time) (cell : s2.CellID)
  : Schema.CellRow :=
  Schema.mkCellRow cell (s2.Level cell) sid now.

(** The row that insertSubscription writes for a message. *)
Definition inserted_row (subscription : dspb.Subscription.t)
           (now : time_Time) : RowStore.subscriptionsRow.t :=
  RowStore.subscriptionsRow.set_updatedAt
    (fst (RowStore.subscriptionsRow.applyProtobuf
            RowStore.subscriptionsRow.zero subscription)) now.

(** The message without its time bounds. *)
Definition without_times (subscription : dspb.Subscription.t)
  : dspb.Subscription.t :=
  dspb.Subscription.mk
    (dspb.Subscription.Id subscription)
    (dspb.Subscription.Owner subscription)
    (dspb.Subscription.Callbacks subscription)
    (dspb.Subscription.NotificationIndex subscription)
    (dspb.Subscription.Version subscription)
    None None.

(** Every token followed by a comma. *)
Fixpoint comma_terminated (tokens : list string) : string :=
  match tokens with
  | [] => ""
  | token :: rest => token ++ "," ++ comma_terminated rest
  end.

(** The outcome of an operation on the store [db] is all or nothing: an
    error leaves what is persisted as it was and the transaction is not
    committed; a result comes with a committed transaction. *)
Definition all_or_nothing {DB A : Type} (db : DB)
           (outcome : (Err + A) * Sql.Tx DB) : Prop :=
  match fst outcome with
  | inl _ => Sql.persisted (snd outcome) = db
             /\ Sql.status (snd outcome) <> Sql.TxCommitted
  | inr _ => Sql.status (snd outcome) = Sql.TxCommitted
  end.


(* ================================================================== *)
(** * Properties *)

(** ** Machine integers *)

Lemma uint64_range (x : Z) : 0 <= uint64 x < two64.
Proof. unfold uint64. apply Z.mod_pos_bound. reflexivity. Qed.

Lemma uint64_small (x : Z) : 0 <= x < two64 -> uint64 x = x.
Proof. intros H. unfold uint64. now apply Z.mod_small. Qed.

Lemma int64_small (x : Z) : minInt64 <= x <= maxInt64 -> int64 x = x.
Proof.
  unfold minInt64, maxInt64, int64, two64. intros H.
  destruct (Z_lt_le_dec x 0) as [Hneg | Hpos].
  - replace (x mod 2 ^ 64) with (x + 2 ^ 64).
    + destruct (Z.ltb_spec (x + 2 ^ 64) (2 ^ 63)); lia.
    + apply Z.mod_unique with (q := -1); lia.
  - rewrite Z.mod_small by lia.
    destruct (Z.ltb_spec x (2 ^ 63)); lia.
Qed.

Lemma int64_range (x : Z) : minInt64 <= int64 x <= maxInt64.
Proof.
  unfold int64, minInt64, maxInt64, two64.
  pose proof (Z.mod_pos_bound x (2 ^ 64) eq_refl).
  destruct (Z.ltb_spec (x mod 2 ^ 64) (2 ^ 63)); lia.
Qed.

Lemma int64_idem (x : Z) : int64 (int64 x) = int64 x.
Proof. apply int64_small, int64_range. Qed.

Lemma int64_uint64 (x : Z) : int64 (uint64 x) = int64 x.
Proof.
  unfold int64, uint64. rewrite Z.mod_mod; [reflexivity | discriminate].
Qed.

Lemma uint64_int64 (x : Z) : uint64 (int64 x) = uint64 x.
Proof.
  unfold int64, uint64, two64.
  destruct (Z.ltb_spec (x mod 2 ^ 64) (2 ^ 63)).
  - rewrite Z.mod_mod; [reflexivity | discriminate].
  - rewrite <- Zminus_mod_idemp_r, Z.mod_same, Z.sub_0_r by discriminate.
    rewrite Z.mod_mod; [reflexivity | discriminate].
Qed.

(** ** strconv: parsing what was formatted *)

Lemma digit_val_digit_at (d : Z) :
  0 <= d < 36 -> strconv.digit_val (strconv.digit_at d) = Some d.
Proof.
  intros H.
  assert (Hd : d = Z.of_nat (Z.to_nat d)) by lia.
  rewrite Hd. 
  assert (Hn : (Z.to_nat d < 36)%nat) by lia.
  generalize dependent (Z.to_nat d). intros n _ Hn.
  do 36 (destruct n as [| n]; [reflexivity |]).
  lia.
Qed.

Lemma land_31 (u : Z) : 0 <= u -> Z.land u 31 = u mod 32.
Proof. intros _. change 31 with (Z.ones 5). now rewrite Z.land_ones. Qed.

Lemma shiftr_5 (u : Z) : Z.shiftr u 5 = u / 32.
Proof. now rewrite Z.shiftr_div_pow2. Qed.

(** One step of the parser on a digit that does not overflow. *)
Lemma ParseUint_loop_step (c : ascii) (s : string) (n d : Z) :
  strconv.digit_val c = Some d ->
  0 <= d < 32 -> 0 <= n -> 32 * n + d < two64 ->
  strconv.ParseUint_loop (String c s) 32 (maxUint64 / 32 + 1) (2 ^ 64 - 1) n
  = strconv.ParseUint_loop s 32 (maxUint64 / 32 + 1) (2 ^ 64 - 1) (32 * n + d).
Proof.
  intros Hc Hd Hn Hlt. cbn [strconv.ParseUint_loop]. rewrite Hc.
  destruct (Z.geb_spec d 32); [lia |].
  change (maxUint64 / 32 + 1) with (2 ^ 59).
  unfold two64 in *.
  destruct (Z.geb_spec n (2 ^ 59)); [lia |].
  rewrite (uint64_small (n * 32)) by (unfold two64; lia).
  rewrite (uint64_small (n * 32 + d)) by (unfold two64; lia).
  destruct (Z.ltb_spec (n * 32 + d) (n * 32)); [lia |].
  destruct (Z.gtb_spec (n * 32 + d) (2 ^ 64 - 1)); [lia |].
  cbn [orb]. f_equal. lia.
Qed.

(** Reading back the digits written by the loop of [formatBits] in base
    32 continues the parse from the value that was written. *)
Lemma ParseUint_formatBits_loop (k : nat) :
  forall (u : Z) (a : string),
    0 <= u < two64 -> u < 32 ^ Z.of_nat k ->
    strconv.ParseUint_loop (strconv.formatBits_loop k u 32 true a)
                           32 (maxUint64 / 32 + 1) (2 ^ 64 - 1) 0
    = strconv.ParseUint_loop a 32 (maxUint64 / 32 + 1) (2 ^ 64 - 1) u.
Proof.
  induction k as [| k IH]; intros u a Hu Hk.
  - change (32 ^ Z.of_nat 0) with 1 in Hk.
    assert (u = 0) by lia. subst u. reflexivity.
  - cbn [strconv.formatBits_loop].
    destruct (Z.geb_spec u 32) as [Hge | Hlt].
    + change (Z.land (bits.TrailingZeros64 32) 7) with 5.
      change (32 - 1) with 31.
      rewrite shiftr_5, land_31 by lia.
      assert (Hdiv : 0 <= u / 32 < two64).
      { split; [apply Z.div_pos; lia |].
        apply Z.div_lt_upper_bound; [lia |]. unfold two64 in *. lia. }
      rewrite IH; [| exact Hdiv |].
      * rewrite ParseUint_loop_step with (d := u mod 32).
        -- f_equal. pose proof (Z.div_mod u 32). lia.
        -- apply digit_val_digit_at. pose proof (Z.mod_pos_bound u 32). lia.
        -- apply Z.mod_pos_bound. lia.
        -- lia.
        -- pose proof (Z.div_mod u 32). lia.
      * apply Z.div_lt_upper_bound; [lia |].
        rewrite Nat2Z.inj_succ, Z.pow_succ_r in Hk by lia. exact Hk.
    + rewrite ParseUint_loop_step with (d := u);
        [ reflexivity | apply digit_val_digit_at; lia | lia .. ].
Qed.

Lemma formatBits_loop_nonempty (k : nat) (u b : Z) (p : bool) (a : string) :
  (0 < k)%nat -> strconv.formatBits_loop k u b p a <> "".
Proof.
  revert u a. induction k as [| k IH]; intros u a Hk; [lia |].
  cbn [strconv.formatBits_loop].
  destruct (u >=? b); [| discriminate].
  destruct k as [| k'].
  - destruct p; discriminate.
  - destruct p; apply IH; lia.
Qed.

Lemma ParseUint_FormatUint (u : Z) :
  0 <= u < two64 ->
  strconv.ParseUint (strconv.FormatUint u 32) 32 64 = inr u.
Proof.
  intros Hu. unfold strconv.FormatUint, strconv.formatBits.
  change (strconv.isPowerOfTwo 32) with true.
  unfold strconv.ParseUint.
  pose proof (formatBits_loop_nonempty 65 u 32 true "") as Hne.
  destruct (strconv.formatBits_loop 65 u 32 true "") eqn:E.
  - exfalso. apply Hne; [lia | reflexivity].
  - rewrite <- E. rewrite ParseUint_formatBits_loop.
    + reflexivity.
    + exact Hu.
    + unfold two64 in Hu. 
      assert (2 ^ 64 < 32 ^ Z.of_nat 65) by (vm_compute; reflexivity). lia.
Qed.

(** ** Version strings *)

Example version_string_of_32 : Versions.timestampToVersionString 32 = "10".
Proof. reflexivity. Qed.

Example version_string_1560 :
  Versions.timestampToVersionString 1560000000000000000 = "1b9hrngcpo000".
Proof. vm_compute. reflexivity. Qed.

Example version_string_negative :
  Versions.timestampToVersionString (-1) = "fvvvvvvvvvvvv".
Proof. vm_compute. reflexivity. Qed.

Example version_string_upper_case_is_read :
  Versions.versionStringToTimestamp "1B9HRNGCPO000"
  = inr 1560000000000000000.
Proof. vm_compute. reflexivity. Qed.

(** Decoding an encoded timestamp always succeeds and gives the wrapped
    nanosecond count of the timestamp. *)
Lemma versionStringToTimestamp_of_version (t : time_Time) :
  Versions.versionStringToTimestamp (Versions.timestampToVersionString t)
  = inr (UnixNano t).
Proof.
  unfold Versions.versionStringToTimestamp, Versions.timestampToVersionString.
  unfold Versions.versionBase.
  rewrite ParseUint_FormatUint by apply uint64_range.
  unfold time_Unix0, UnixNano. now rewrite int64_uint64, int64_idem.
Qed.

(** The encoding is injective on representable timestamps. *)
Lemma timestampToVersionString_inj (t1 t2 : time_Time) :
  representable t1 -> representable t2 ->
  Versions.timestampToVersionString t1 = Versions.timestampToVersionString t2 ->
  t1 = t2.
Proof.
  intros H1 H2 E.
  pose proof (versionStringToTimestamp_of_version t1) as D1.
  pose proof (versionStringToTimestamp_of_version t2) as D2.
  rewrite E, D2 in D1. injection D1 as D1.
  unfold UnixNano in D1. rewrite !int64_small in D1 by assumption.
  congruence.
Qed.

Lemma timestampToVersionString_nonempty (t : time_Time) :
  Versions.timestampToVersionString t <> "".
Proof.
  unfold Versions.timestampToVersionString, strconv.FormatUint,
    strconv.formatBits.
  change (strconv.isPowerOfTwo Versions.versionBase) with true.
  apply formatBits_loop_nonempty. lia.
Qed.

(** C10: for every timestamp whose nanosecond Unix epoch is representable,
    decoding the encoded version string succeeds and recovers the
    timestamp exactly; whatever is decoded has the same UnixNano and
    encodes to the same string again. *)
Theorem version_string_roundtrip (t : time_Time) :
  representable t ->
  Versions.versionStringToTimestamp (Versions.timestampToVersionString t)
  = inr t
  /\ exists t',
      Versions.versionStringToTimestamp (Versions.timestampToVersionString t)
      = inr t'
      /\ UnixNano t' = UnixNano t
      /\ Versions.timestampToVersionString t'
         = Versions.timestampToVersionString t.
Proof.
  intros Ht.
  assert (E : Versions.versionStringToTimestamp
                (Versions.timestampToVersionString t) = inr t).
  { rewrite versionStringToTimestamp_of_version.
    unfold UnixNano. now rewrite int64_small. }
  split; [exact E |].
  exists t. repeat split. exact E.
Qed.

Lemma version_string_roundtrip_witness :
  Versions.versionStringToTimestamp
    (Versions.timestampToVersionString 1560000000000000000)
  = inr 1560000000000000000.
Proof.
  apply (version_string_roundtrip 1560000000000000000).
  unfold representable, minInt64, maxInt64. simpl. lia.
Defined.

(** The wire version of a subscription row is the base-32 encoding of the
    unsigned nanosecond epoch of [updated_at]. *)
Lemma subscriptionsRow_toProtobuf_version
      (sr : RowStore.subscriptionsRow.t) (pb : dspb.Subscription.t) :
  RowStore.subscriptionsRow.toProtobuf sr = inr pb ->
  dspb.Subscription.Version pb
  = strconv.FormatUint
      (uint64 (UnixNano (RowStore.subscriptionsRow.updatedAt sr))) 32.
Proof.
  unfold RowStore.subscriptionsRow.toProtobuf.
  destruct (RowStore.subscriptionsRow.timestamp_field _); [discriminate |].
  destruct (RowStore.subscriptionsRow.timestamp_field _); [discriminate |].
  intros E. injection E as <-. reflexivity.
Qed.

(** The version of a model entity is a function of [updated_at] alone. *)
Lemma Version_pure (i1 i2 : models.IdentificationServiceArea.t) :
  models.IdentificationServiceArea.UpdatedAt i1
  = models.IdentificationServiceArea.UpdatedAt i2 ->
  models.IdentificationServiceArea.Version i1
  = models.IdentificationServiceArea.Version i2.
Proof.
  unfold models.IdentificationServiceArea.Version. now intros ->.
Qed.

(** The wire version of a service area row is the signed decimal numeral
    of the nanosecond epoch. *)
Lemma identificationServiceAreaRow_toProtobuf_version
      (isar : RowStore.identificationServiceAreaRow.t)
      (pb : dspb.IdentificationServiceArea.t) :
  RowStore.identificationServiceAreaRow.toProtobuf isar = inr pb ->
  dspb.IdentificationServiceArea.Version pb
  = strconv.FormatInt
      (UnixNano (RowStore.identificationServiceAreaRow.updatedAt isar)) 10.
Proof.
  unfold RowStore.identificationServiceAreaRow.toProtobuf.
  destruct (ptypes.TimestampProto _); [discriminate |].
  destruct (ptypes.TimestampProto _); [discriminate |].
  intros E. injection E as <-. reflexivity.
Qed.

(** C6: the service area row written at 1560000000000000000 ns goes on
    the wire with the decimal version "1560000000000000000", whereas the
    base-32 encoding of that instant is "1b9hrngcpo000". *)
Theorem isa_row_version_is_decimal :
  exists pb,
    RowStore.identificationServiceAreaRow.toProtobuf Scenario.isa_row = inr pb
    /\ dspb.IdentificationServiceArea.Version pb = "1560000000000000000"
    /\ Versions.timestampToVersionString
         (RowStore.identificationServiceAreaRow.updatedAt Scenario.isa_row)
       = "1b9hrngcpo000"
    /\ dspb.IdentificationServiceArea.Version pb
       <> Versions.timestampToVersionString
            (RowStore.identificationServiceAreaRow.updatedAt Scenario.isa_row).
Proof.
  eexists. split; [vm_compute; reflexivity |].
  repeat split; try (vm_compute; reflexivity).
  vm_compute. discriminate.
Qed.

(** ** geo *)

Section CoveringFacts.
Variable Loop : Type.
Variable Area : Loop -> float.
Variable RegionCoverer_Covering : Loop -> s2.CellUnion.

Lemma Covering_degenerate (loop : Loop) :
  PrimFloat.leb (Area loop) 0 = true ->
  geo.Covering Loop Area RegionCoverer_Covering loop
  = inl (BadRequest "coordinates did not create a well formed area").
Proof. unfold geo.Covering. now intros ->. Qed.

Lemma Covering_too_large (loop : Loop) :
  PrimFloat.leb (Area loop) 0 = false ->
  PrimFloat.ltb geo.maxLoopArea (Area loop) = true ->
  geo.Covering Loop Area RegionCoverer_Covering loop
  = inl (BadRequest "area is too large").
Proof. unfold geo.Covering. now intros -> ->. Qed.

Lemma Covering_cover (loop : Loop) :
  PrimFloat.leb (Area loop) 0 = false ->
  PrimFloat.ltb geo.maxLoopArea (Area loop) = false ->
  geo.Covering Loop Area RegionCoverer_Covering loop
  = inr (RegionCoverer_Covering loop).
Proof. unfold geo.Covering. now intros -> ->. Qed.
End CoveringFacts.

(** The bound the code computes is about a tenth of the bound that
    corresponds to 1000 square miles. *)
Example maxLoopArea_value :
  geo.maxLoopArea = 0x1.b1bbfbdd979adp-18%float
  /\ geo.maxLoopArea_spec = 0x1.0b8c93c216d01p-14%float.
Proof. split; vm_compute; reflexivity. Qed.

(** C9: a loop of 2^-16 steradians (about 239 square miles) is below the
    bound maxAllowedSqMi / (sqMiEarth / (4 pi)), so that the policy of
    the specification returns its cover, and Covering rejects it as too
    large: the bound it compares with is
    maxAllowedSqMi / (sqMiEarth / 4 * pi). *)
Theorem Covering_rejects_area_below_1000_sq_mi :
  geo.Covering float (fun a => a) Scenario.cover_of_any_loop
               Scenario.loop_239_sq_mi
  = inl geo.errAreaTooLarge
  /\ geo.Covering_spec float (fun a => a) Scenario.cover_of_any_loop
                       Scenario.loop_239_sq_mi
     = inr [42]
  /\ PrimFloat.ltb geo.maxLoopArea geo.maxLoopArea_spec = true.
Proof. repeat split; vm_compute; reflexivity. Qed.

(** ** Apply *)

(** C8, as stated, fails on the row level merge: a patch that names
    another id and another owner moves the row to them. *)
Lemma applyProtobuf_overwrites_id_and_owner :
  RowStore.subscriptionsRow.id Scenario.patched_row = Scenario.id_S_X
  /\ RowStore.subscriptionsRow.owner Scenario.patched_row = "X"
  /\ RowStore.subscriptionsRow.id Scenario.patched_row
     <> RowStore.subscriptionsRow.id Scenario.stored_row
  /\ RowStore.subscriptionsRow.owner Scenario.patched_row
     <> RowStore.subscriptionsRow.owner Scenario.stored_row.
Proof. cbv. repeat split; discriminate. Qed.

Lemma applyProtobuf_id_owner_url
      (sr : RowStore.subscriptionsRow.t) (subscription : dspb.Subscription.t) :
  let sr' := fst (RowStore.subscriptionsRow.applyProtobuf sr subscription) in
  overlaid_string (dspb.Subscription.Id subscription)
                  (RowStore.subscriptionsRow.id sr)
                  (RowStore.subscriptionsRow.id sr')
  /\ overlaid_string (dspb.Subscription.Owner subscription)
                     (RowStore.subscriptionsRow.owner sr)
                     (RowStore.subscriptionsRow.owner sr')
  /\ overlaid_string
       (dspb.SubscriptionCallbacks.GetIdentificationServiceAreaUrl
          (dspb.Subscription.Callbacks subscription))
       (RowStore.subscriptionsRow.url sr)
       (RowStore.subscriptionsRow.url sr').
Proof.
  unfold RowStore.subscriptionsRow.applyProtobuf, overlaid_string.
  destruct (String.eqb (dspb.Subscription.Id subscription) "");
    destruct (String.eqb (dspb.Subscription.Owner subscription) "");
    destruct (String.eqb
                (dspb.SubscriptionCallbacks.GetIdentificationServiceAreaUrl
                   (dspb.Subscription.Callbacks subscription)) "");
    destruct (dspb.Subscription.Begins subscription) as [tb |];
    try destruct (ptypes.Timestamp_ tb) as [? | ?];
    destruct (dspb.Subscription.Expires subscription) as [te |];
    try destruct (ptypes.Timestamp_ te) as [? | ?];
    cbn; repeat split.
Qed.

(** C8, amended: IdentificationServiceArea.Apply returns a copy of the
    receiver in which every field that is set in the overlay (url, cells,
    start and end time, updated_at, altitude bounds) replaces the
    receiver's, and whose id and owner are always the receiver's;
    subscriptionsRow.applyProtobuf overlays the url in the same way, and
    it also replaces id and owner by those of the message when they are
    not empty. *)
Theorem Apply_overlays_all_but_id_and_owner :
  (forall e o : models.IdentificationServiceArea.t,
      let r := models.IdentificationServiceArea.Apply e o in
      models.IdentificationServiceArea.ID r
      = models.IdentificationServiceArea.ID e
      /\ models.IdentificationServiceArea.Owner r
         = models.IdentificationServiceArea.Owner e
      /\ overlaid_string (models.IdentificationServiceArea.Url o)
                         (models.IdentificationServiceArea.Url e)
                         (models.IdentificationServiceArea.Url r)
      /\ overlaid (models.IdentificationServiceArea.Cells o)
                  (models.IdentificationServiceArea.Cells e)
                  (models.IdentificationServiceArea.Cells r)
      /\ overlaid (models.IdentificationServiceArea.StartTime o)
                  (models.IdentificationServiceArea.StartTime e)
                  (models.IdentificationServiceArea.StartTime r)
      /\ overlaid (models.IdentificationServiceArea.EndTime o)
                  (models.IdentificationServiceArea.EndTime e)
                  (models.IdentificationServiceArea.EndTime r)
      /\ overlaid (models.IdentificationServiceArea.UpdatedAt o)
                  (models.IdentificationServiceArea.UpdatedAt e)
                  (models.IdentificationServiceArea.UpdatedAt r)
      /\ overlaid (models.IdentificationServiceArea.AltitudeHi o)
                  (models.IdentificationServiceArea.AltitudeHi e)
                  (models.IdentificationServiceArea.AltitudeHi r)
      /\ overlaid (models.IdentificationServiceArea.AltitudeLo o)
                  (models.IdentificationServiceArea.AltitudeLo e)
                  (models.IdentificationServiceArea.AltitudeLo r))
  /\ (forall (sr : RowStore.subscriptionsRow.t)
             (subscription : dspb.Subscription.t),
         let sr' :=
           fst (RowStore.subscriptionsRow.applyProtobuf sr subscription) in
         overlaid_string (dspb.Subscription.Id subscription)
                         (RowStore.subscriptionsRow.id sr)
                         (RowStore.subscriptionsRow.id sr')
         /\ overlaid_string (dspb.Subscription.Owner subscription)
                            (RowStore.subscriptionsRow.owner sr)
                            (RowStore.subscriptionsRow.owner sr')
         /\ overlaid_string
              (dspb.SubscriptionCallbacks.GetIdentificationServiceAreaUrl
                 (dspb.Subscription.Callbacks subscription))
              (RowStore.subscriptionsRow.url sr)
              (RowStore.subscriptionsRow.url sr')).
Proof.
  split.
  - intros e o r. subst r.
    unfold models.IdentificationServiceArea.Apply, overlaid, overlaid_string.
    cbn.
    destruct (String.eqb (models.IdentificationServiceArea.Url o) "");
      destruct (models.IdentificationServiceArea.Cells o);
      destruct (models.IdentificationServiceArea.StartTime o);
      destruct (models.IdentificationServiceArea.EndTime o);
      destruct (models.IdentificationServiceArea.UpdatedAt o);
      destruct (models.IdentificationServiceArea.AltitudeHi o);
      destruct (models.IdentificationServiceArea.AltitudeLo o);
      cbn; repeat split.
  - intros sr subscription. apply applyProtobuf_id_owner_url.
Qed.

(** ** Scenarios on the stores *)


(** C2: owner A deletes its service area on cell 42 while its own
    subscription on that cell has an expiry time in the future; the
    subscription is returned among the subscribers to notify. *)
Theorem delete_isa_notifies_own_subscription :
  exists isa tx,
    RowStore.DeleteIdentificationServiceArea
      Scenario.db_same_owner Scenario.T0 Scenario.id_I_A "A"
    = (inr (isa,
            [ dspb.SubscriberToNotify.mk
                "https://a/isa"
                [ dspb.SubscriptionState.mk 0 Scenario.id_S_A ] ]),
       tx)
    /\ RowStore.subscriptions Scenario.db_same_owner = [Scenario.S_A]
    /\ RowStore.subscriptionsRow.id Scenario.S_A = Scenario.id_S_A
    /\ RowStore.subscriptionsRow.owner Scenario.S_A = "A".
Proof. do 2 eexists. repeat split; vm_compute; reflexivity. Qed.

(** C3: a subscription indexed on cells 42 and 84 is updated to cells 84
    and 126 by updateSubscription; after the commit the index still holds
    the row of cell 42. *)
Theorem updateSubscription_leaves_old_cells :
  exists pb tx,
    RowStore.updateSubscription
      Scenario.db_two_cells Scenario.T0 Scenario.move_cells_patch [84; 126]
    = (inr pb, tx)
    /\ Sql.status tx = Sql.TxCommitted
    /\ indexed_cells Scenario.id_S_B
                     (RowStore.cells_subscriptions (Sql.persisted tx))
       = [42; 84; 126].
Proof. do 2 eexists. repeat split; vm_compute; reflexivity. Qed.

(** C4: inserting a subscription whose start time is after its end time
    fails in pushSubscription on the check of the table, and
    InsertSubscription returns that error while the transaction is still
    open: it has been neither rolled back nor committed. *)
Theorem InsertSubscription_error_without_rollback :
  SubscriptionStore.InsertSubscription
    Scenario.empty_db Scenario.T0 Scenario.inverted_subscription
  = (inl ErrConstraint,
     Sql.mkTx Scenario.empty_db Scenario.empty_db Sql.TxOpen).
Proof. vm_compute. reflexivity. Qed.

(** C7: the subscription of owner B is indexed on cells 42 and 84 only;
    a search of owner B on cell 210 returns it, where the inner join of
    the specification returns nothing. *)
Theorem SearchSubscriptions_returns_subscription_outside_cells :
  indexed_cells Scenario.id_S_B
                (SubscriptionStore.cells_subscriptions Scenario.db_sub_B)
  = [42; 84]
  /\ fst (SubscriptionStore.SearchSubscriptions Scenario.db_sub_B [210] "B")
     = inr [ models.Subscription.mk Scenario.id_S_B "https://b/isa" 0 "B" None
                                    None None (Some Scenario.T0) ]
  /\ SubscriptionStore.searchQuery_spec [210] "B" Scenario.db_sub_B = [].
Proof. repeat split; vm_compute; reflexivity. Qed.

(** The search of the row based store has the same query: owner B gets
    its subscription, indexed on cells 42 and 84, for cell 210. *)
Example row_search_outside_cells :
  exists pb,
    fst (RowStore.SearchSubscriptions Scenario.db_two_cells [210] "B")
    = inr [pb]
    /\ dspb.Subscription.Id pb = Scenario.id_S_B.
Proof. eexists. split; vm_compute; reflexivity. Qed.

(** ** The subscribers to notify as wire messages *)

Lemma subscribers_toProtobuf_map (l : list RowStore.subscriberRow.t) :
  RowStore.subscribers_toProtobuf l
  = inr (map (fun sr =>
                dspb.SubscriberToNotify.mk
                  (RowStore.subscriberRow.url sr)
                  [ dspb.SubscriptionState.mk
                      (RowStore.subscriberRow.notificationIndex sr)
                      (RowStore.subscriberRow.id sr) ]) l).
Proof.
  induction l as [| sr l IH]; [reflexivity |].
  cbn [RowStore.subscribers_toProtobuf RowStore.subscriberRow.toProtobuf].
  rewrite IH. reflexivity.
Qed.

(** ** Search: the left join keeps every subscription of the owner *)

Lemma distinct_incl (l : list string) (x : string) :
  In x (Sql.distinct String.eqb l) -> In x l.
Proof.
  induction l as [| y l IH]; cbn; [tauto |].
  destruct (existsb (String.eqb y) l); cbn; intuition.
Qed.

(** At most one of the distinct identifiers matches a given one. *)
Lemma filter_distinct (l : list string) (x : string) :
  filter (String.eqb x) (Sql.distinct String.eqb l) = []
  \/ filter (String.eqb x) (Sql.distinct String.eqb l) = [x].
Proof.
  induction l as [| y l IH]; cbn; [now left |].
  destruct (existsb (String.eqb y) l) eqn:Ex; [exact IH |].
  cbn. destruct (String.eqb_spec x y) as [-> | Hne]; [| exact IH].
  right. f_equal.
  destruct (filter (String.eqb y) (Sql.distinct String.eqb l))
    as [| z zs] eqn:F;
    [reflexivity |].
  exfalso.
  assert (Hz : In z (filter (String.eqb y) (Sql.distinct String.eqb l)))
    by (rewrite F; now left).
  apply filter_In in Hz. destruct Hz as [Hz Heq].
  apply String.eqb_eq in Heq. subst z.
  apply distinct_incl in Hz.
  assert (existsb (String.eqb y) l = true).
  { apply existsb_exists. exists y. split; [exact Hz | apply String.eqb_refl]. }
  congruence.
Qed.

(** The query of SearchSubscriptions selects by owner alone: the cells do
    not restrict the result. *)
Lemma searchQuery_all_of_owner
      (cells : list Z) (o : models.Owner) (db : SubscriptionStore.DB) :
  SubscriptionStore.searchQuery cells o db
  = filter (fun r => String.eqb (SubscriptionStore.owner r) o)
           (SubscriptionStore.subscriptions db).
Proof.
  unfold SubscriptionStore.searchQuery,
    SubscriptionStore.unique_subscription_ids.
  generalize (map Schema.entity_id
                  (filter (fun c => Sql.any_eq Z.eqb (Schema.cell_id c) cells)
                          (SubscriptionStore.cells_subscriptions db))).
  intros ids. unfold Sql.left_join.
  induction (SubscriptionStore.subscriptions db) as [| r rs IH];
    [reflexivity |].
  cbn [flat_map]. rewrite filter_app, map_app, IH. clear IH.
  change (filter (fun u => String.eqb (SubscriptionStore.id r) u)
                 (Sql.distinct String.eqb ids))
    with (filter (String.eqb (SubscriptionStore.id r))
                 (Sql.distinct String.eqb ids)).
  destruct (filter_distinct ids (SubscriptionStore.id r)) as [-> | ->]; cbn;
    destruct (String.eqb (SubscriptionStore.owner r) o); reflexivity.
Qed.

(** ** The cell index under UPSERT and DELETE *)

Lemma same_cell_key_spec (a b : Schema.CellRow) :
  Schema.same_cell_key a b = true
  <-> Schema.cell_id a = Schema.cell_id b
      /\ Schema.entity_id a = Schema.entity_id b.
Proof.
  unfold Schema.same_cell_key.
  rewrite andb_true_iff, Z.eqb_eq, String.eqb_eq. tauto.
Qed.

Lemma indexed_cells_spec (t : list Schema.CellRow) (c : Z) (e : string) :
  In c (indexed_cells e t) <-> indexed t c e.
Proof.
  unfold indexed_cells, indexed. rewrite in_map_iff. split.
  - intros [row [Hc Hin]]. apply filter_In in Hin. destruct Hin as [Hin He].
    apply String.eqb_eq in He. eauto.
  - intros [row [Hin [Hc He]]]. exists row. split; [exact Hc |].
    apply filter_In. split; [exact Hin |]. now apply String.eqb_eq.
Qed.

(** After an UPSERT the index relates what it related before, and the
    cell and entity of the row. *)
Lemma indexed_upsert (r : Schema.CellRow) (t : list Schema.CellRow)
      (c : Z) (e : string) :
  indexed (Sql.upsert Schema.same_cell_key r t) c e
  <-> indexed t c e \/ (c = Schema.cell_id r /\ e = Schema.entity_id r).
Proof.
  unfold Sql.upsert, indexed.
  destruct (existsb (Schema.same_cell_key r) t) eqn:Ex.
  - apply existsb_exists in Ex. destruct Ex as [x0 [Hx0 Hk0]].
    apply same_cell_key_spec in Hk0. destruct Hk0 as [Hc0 He0].
    split.
    + intros [row [Hin [Hc He]]]. apply in_map_iff in Hin.
      destruct Hin as [x [Hf Hx]].
      destruct (Schema.same_cell_key r x) eqn:K.
      * subst row. right. split; congruence.
      * subst row. left. eauto.
    + intros [[x [Hx [Hc He]]] | [Hc He]].
      * destruct (Schema.same_cell_key r x) eqn:K.
        -- apply same_cell_key_spec in K. destruct K as [Kc Ke].
           exists r. split; [| split; congruence].
           apply in_map_iff. exists x.
           rewrite (proj2 (same_cell_key_spec r x) (conj Kc Ke)). tauto.
        -- exists x. split; [| tauto].
           apply in_map_iff. exists x. rewrite K. tauto.
      * exists r. split; [| split; congruence].
        apply in_map_iff. exists x0.
        rewrite (proj2 (same_cell_key_spec r x0) (conj Hc0 He0)). tauto.
  - split.
    + intros [row [Hin [Hc He]]]. apply in_app_or in Hin.
      destruct Hin as [Hin | [<- | []]];
        [left; eauto | right; split; congruence].
    + intros [[x [Hx [Hc He]]] | [Hc He]].
      * exists x. split; [apply in_or_app; now left | tauto].
      * exists r. split; [apply in_or_app; right; now left | split; congruence].
Qed.

Lemma all_neq_false (c : Z) (cids : list Z) :
  Sql.all_neq Z.eqb c cids = false <-> In c cids.
Proof.
  unfold Sql.all_neq. induction cids as [| d cids IH]; cbn.
  - split; [discriminate | tauto].
  - rewrite andb_false_iff, IH, negb_false_iff, Z.eqb_eq.
    split; intros [H | H]; auto.
Qed.

(** After the sweep, the index relates the entity to those of its former
    cells that are among the given ones, and the other entities to the
    cells they had. *)
Lemma indexed_sweep (cids : list Z) (sid : string) (t : list Schema.CellRow)
      (c : Z) (e : string) :
  indexed (Sql.delete_where
             (fun row => Sql.all_neq Z.eqb (Schema.cell_id row) cids
                         && String.eqb (Schema.entity_id row) sid) t) c e
  <-> indexed t c e /\ (e = sid -> In c cids).
Proof.
  unfold Sql.delete_where, indexed. split.
  - intros [row [Hin [Hc He]]]. apply filter_In in Hin.
    destruct Hin as [Hin Hp]. split; [eauto |].
    intros ->. apply negb_true_iff, andb_false_iff in Hp.
    destruct Hp as [Hp | Hp].
    + apply all_neq_false in Hp. congruence.
    + rewrite He, String.eqb_refl in Hp. discriminate.
  - intros [[row [Hin [Hc He]]] Himp]. exists row. split; [| tauto].
    apply filter_In. split; [exact Hin |].
    apply negb_true_iff, andb_false_iff.
    destruct (String.eqb_spec (Schema.entity_id row) sid) as [Hs | Hs].
    + left. apply all_neq_false. rewrite Hc. apply Himp. congruence.
    + now right.
Qed.

(** ** pushSubscription *)

Lemma Exec_open {DB A : Type} (tx : Sql.Tx DB) (q : DB -> Err + (DB * A)) :
  Sql.status tx = Sql.TxOpen ->
  Sql.Exec tx q
  = match q (Sql.working tx) with
    | inl e => (tx, inl e)
    | inr (db', a) => (Sql.mkTx (Sql.persisted tx) db' Sql.TxOpen, inr a)
    end.
Proof. unfold Sql.Exec. now intros ->. Qed.

(** The loop over the cells: when it ends without error, the transaction
    is open on the same persisted state, the subscriptions are untouched
    and the index has gained the cells of the subscription. *)
Lemma upsert_cells_spec (sid : string) (now : time_Time) :
  forall (l : s2.CellUnion) (q q' : Sql.Tx SubscriptionStore.DB),
    Sql.status q = Sql.TxOpen ->
    SubscriptionStore.upsert_cells q (map int64 l) (map s2.Level l) sid now
    = (q', None) ->
    Sql.status q' = Sql.TxOpen
    /\ Sql.persisted q' = Sql.persisted q
    /\ SubscriptionStore.subscriptions (Sql.working q')
       = SubscriptionStore.subscriptions (Sql.working q)
    /\ forall c e,
        indexed (SubscriptionStore.cells_subscriptions (Sql.working q')) c e
        <-> indexed (SubscriptionStore.cells_subscriptions (Sql.working q)) c e
            \/ (e = sid /\ In c (map int64 l)).
Proof.
  induction l as [| cell l IH]; intros q q' Hopen Hrun.
  - cbn in Hrun. injection Hrun as <-. repeat split; auto.
    intros [H | [_ []]]. exact H.
  - cbn [map SubscriptionStore.upsert_cells] in Hrun.
    rewrite Exec_open in Hrun by exact Hopen.
    unfold SubscriptionStore.subscriptionCellQuery, Schema.upsert_cell in Hrun.
    destruct (Schema.check_cell_level _ && existsb _ _); [| discriminate].
    apply IH in Hrun; [| reflexivity].
    cbn [Sql.status Sql.persisted Sql.working
         SubscriptionStore.subscriptions
         SubscriptionStore.cells_subscriptions] in Hrun.
    destruct Hrun as [Hs [Hp [Hsub Hidx]]].
    repeat split; auto.
    + intros H. apply Hidx in H. destruct H as [H | [He Hc]].
      * apply indexed_upsert in H. cbn in H.
        destruct H as [H | [Hc He]]; [now left |].
        right. split; [exact He | now left].
      * right. split; [exact He | now right].
    + intros H. apply Hidx. destruct H as [H | [He [Hc | Hc]]].
      * left. apply indexed_upsert. now left.
      * left. apply indexed_upsert. right. cbn. split; congruence.
      * right. tauto.
Qed.


Lemma fetch_upsert (q : Sql.Tx SubscriptionStore.DB) (now : time_Time)
      (s : models.Subscription.t) :
  Sql.status q = Sql.TxOpen ->
  SubscriptionStore.fetchSubscription q (SubscriptionStore.upsertQuery s now)
  = if Schema.check_time_order (models.Subscription.StartTime s)
                               (models.Subscription.EndTime s)
    then (Sql.mkTx (Sql.persisted q)
                   (SubscriptionStore.mkDB
                      (Sql.upsert SubscriptionStore.same_subscription
                                  (pushed_row s now)
                                  (SubscriptionStore.subscriptions
                                     (Sql.working q)))
                      (SubscriptionStore.cells_subscriptions (Sql.working q)))
                   Sql.TxOpen,
          inr (SubscriptionStore.scan (pushed_row s now)))
    else (q, inl ErrConstraint).
Proof.
  intros Hopen.
  unfold SubscriptionStore.fetchSubscription,
    SubscriptionStore.fetchSubscriptions.
  rewrite Exec_open by exact Hopen.
  unfold SubscriptionStore.upsertQuery. cbn [SubscriptionStore.starts_at
    SubscriptionStore.ends_at].
  destruct (Schema.check_time_order _ _); reflexivity.
Qed.

Lemma upsert_subscription_In (r : SubscriptionStore.subscriptions_row)
      (t : list SubscriptionStore.subscriptions_row) :
  In r (Sql.upsert SubscriptionStore.same_subscription r t).
Proof.
  unfold Sql.upsert.
  destruct (existsb (SubscriptionStore.same_subscription r) t) eqn:Ex.
  - apply existsb_exists in Ex. destruct Ex as [x [Hx Hk]].
    apply in_map_iff. exists x. rewrite Hk. tauto.
  - apply in_or_app. right. now left.
Qed.

(** After the UPSERT the row is the only one with its id. *)
Lemma upsert_subscription_unique (r x : SubscriptionStore.subscriptions_row)
      (t : list SubscriptionStore.subscriptions_row) :
  In x (Sql.upsert SubscriptionStore.same_subscription r t) ->
  SubscriptionStore.id x = SubscriptionStore.id r -> x = r.
Proof.
  unfold Sql.upsert, SubscriptionStore.same_subscription.
  destruct (existsb _ t) eqn:Ex; intros Hin Hid.
  - apply in_map_iff in Hin. destruct Hin as [y [Hf Hy]].
    destruct (String.eqb_spec (SubscriptionStore.id r)
                              (SubscriptionStore.id y)); congruence.
  - apply in_app_or in Hin. destruct Hin as [Hin | [<- | []]]; [| reflexivity].
    exfalso.
    assert (existsb (fun b => String.eqb (SubscriptionStore.id r)
                                         (SubscriptionStore.id b)) t = true).
    { apply existsb_exists. exists x. split; [exact Hin |].
      now apply String.eqb_eq. }
    congruence.
Qed.


(** What a successful pushSubscription has done: the transaction is
    still open on the same persisted state, the row has been written
    with the time of the transaction, and the index relates the
    subscription to its declared cells exactly, the other entities to the
    cells they had. *)
Lemma pushSubscription_ok (q q' : Sql.Tx SubscriptionStore.DB)
      (now : time_Time) (s s' : models.Subscription.t) :
  Sql.status q = Sql.TxOpen ->
  SubscriptionStore.pushSubscription q now s = (q', inr s') ->
  Sql.status q' = Sql.TxOpen
  /\ Sql.persisted q' = Sql.persisted q
  /\ s' = SubscriptionStore.set_Cells
            (SubscriptionStore.scan (pushed_row s now))
            (models.Subscription.Cells s)
  /\ SubscriptionStore.subscriptions (Sql.working q')
     = Sql.upsert SubscriptionStore.same_subscription (pushed_row s now)
                  (SubscriptionStore.subscriptions (Sql.working q))
  /\ forall c e,
      indexed (SubscriptionStore.cells_subscriptions (Sql.working q')) c e
      <-> (e = models.Subscription.ID s
           /\ In c (map int64 (SubscriptionStore.cells_of
                                 (models.Subscription.Cells s))))
          \/ (e <> models.Subscription.ID s
              /\ indexed (SubscriptionStore.cells_subscriptions
                            (Sql.working q)) c e).
Proof.
  intros Hopen Hrun. unfold SubscriptionStore.pushSubscription in Hrun.
  rewrite fetch_upsert in Hrun by exact Hopen.
  destruct (Schema.check_time_order _ _); [| discriminate].
  change (models.Subscription.ID
            (SubscriptionStore.set_Cells
               (SubscriptionStore.scan (pushed_row s now))
               (models.Subscription.Cells s)))
    with (models.Subscription.ID s) in Hrun.
  destruct (SubscriptionStore.upsert_cells _ _ _ _ _) as [q2 [err |]] eqn:L;
    [discriminate |].
  apply upsert_cells_spec in L; [| reflexivity].
  cbn [Sql.status Sql.persisted Sql.working SubscriptionStore.subscriptions
       SubscriptionStore.cells_subscriptions] in L.
  destruct L as [Hs2 [Hp2 [Hsub2 Hidx2]]].
  rewrite Exec_open in Hrun by exact Hs2.
  unfold SubscriptionStore.deleteLeftOverCellsForSubscriptionQuery in Hrun.
  injection Hrun as <- <-.
  cbn [Sql.status Sql.persisted Sql.working SubscriptionStore.subscriptions
       SubscriptionStore.cells_subscriptions].
  repeat split; auto.
  - intros H. apply indexed_sweep in H. destruct H as [H Himp].
    apply Hidx2 in H.
    destruct (string_dec e (models.Subscription.ID s)) as [He | He].
    + left. auto.
    + right. destruct H as [H | [He' _]]; [auto | contradiction].
  - intros H. apply indexed_sweep. split.
    + apply Hidx2. destruct H as [[He Hc] | [He H]]; auto.
    + intros He. destruct H as [[_ Hc] | [He' _]]; [exact Hc | contradiction].
Qed.


(** ** The facade of the subscription store *)

Lemma commit_return_open {DB A : Type} (tx : Sql.Tx DB) (a : A) :
  Sql.status tx = Sql.TxOpen ->
  Sql.commit_return tx a
  = (inr a, Sql.mkTx (Sql.working tx) (Sql.working tx) Sql.TxCommitted).
Proof. unfold Sql.commit_return, Sql.Commit. now intros ->. Qed.

Lemma fail_rollback_Begin {DB A : Type} (db : DB) (err : Err) :
  @Sql.fail_rollback DB A (Sql.Begin db) err
  = (inl err, Sql.mkTx db db Sql.TxRolledBack).
Proof. reflexivity. Qed.

(** A SELECT on a fresh transaction leaves it as it is. *)
Lemma fetchSubscription_select
      (db : SubscriptionStore.DB)
      (f : SubscriptionStore.DB -> list SubscriptionStore.subscriptions_row) :
  fst (SubscriptionStore.fetchSubscription
         (Sql.Begin db) (SubscriptionStore.select f))
  = Sql.Begin db.
Proof.
  unfold SubscriptionStore.fetchSubscription,
    SubscriptionStore.fetchSubscriptions, SubscriptionStore.select.
  cbn [Sql.Exec Sql.Begin Sql.status Sql.working Sql.persisted].
  destruct (1 <? List.length (map SubscriptionStore.scan (f db)))%nat;
    [reflexivity |].
  destruct (map SubscriptionStore.scan (f db)); reflexivity.
Qed.

(** What a fetch returns has been scanned from a row it selected. *)
Lemma fetchSubscription_select_inr
      (db : SubscriptionStore.DB)
      (f : SubscriptionStore.DB -> list SubscriptionStore.subscriptions_row)
      (s : models.Subscription.t) :
  snd (SubscriptionStore.fetchSubscription
         (Sql.Begin db) (SubscriptionStore.select f)) = inr s ->
  exists r, In r (f db) /\ s = SubscriptionStore.scan r.
Proof.
  unfold SubscriptionStore.fetchSubscription,
    SubscriptionStore.fetchSubscriptions, SubscriptionStore.select.
  cbn [Sql.Exec Sql.Begin Sql.status Sql.working Sql.persisted].
  destruct (1 <? List.length (map SubscriptionStore.scan (f db)))%nat;
    [discriminate |].
  destruct (f db) as [| r rs]; [discriminate |].
  cbn. intros E. injection E as <-. exists r. split; [now left | reflexivity].
Qed.

(** The outcomes of InsertSubscription and UpdateSubscription, by the
    result of the fetch and of pushSubscription. *)
Lemma InsertSubscription_cases (db : SubscriptionStore.DB) (now : time_Time)
      (s : models.Subscription.t) :
  SubscriptionStore.InsertSubscription db now s
  = match snd (SubscriptionStore.fetchSubscriptionByID
                 (Sql.Begin db) (models.Subscription.ID s)) with
    | inl ErrNoRows =>
        match SubscriptionStore.pushSubscription (Sql.Begin db) now s with
        | (tx, inl err) => (inl err, tx)
        | (tx, inr s') => Sql.commit_return tx s'
        end
    | inl err => (inl err, Sql.mkTx db db Sql.TxRolledBack)
    | inr _ => (inl (AlreadyExists (models.Subscription.ID s)),
                Sql.mkTx db db Sql.TxRolledBack)
    end.
Proof.
  unfold SubscriptionStore.InsertSubscription.
  pose proof (fetchSubscription_select
                db (fun db => filter (fun r => String.eqb
                                                 (SubscriptionStore.id r)
                                                 (models.Subscription.ID s))
                                     (SubscriptionStore.subscriptions db)))
    as Hfst.
  fold (SubscriptionStore.fetchSubscriptionByID
          (Sql.Begin db) (models.Subscription.ID s)) in Hfst.
  destruct (SubscriptionStore.fetchSubscriptionByID _ _) as [tx r].
  cbn [fst snd] in *. subst tx.
  destruct r as [[] | old]; reflexivity.
Qed.

Lemma UpdateSubscription_cases (db : SubscriptionStore.DB) (now : time_Time)
      (s : models.Subscription.t) :
  SubscriptionStore.UpdateSubscription db now s
  = match snd (SubscriptionStore.fetchSubscriptionByIDAndOwner
                 (Sql.Begin db) (models.Subscription.ID s)
                 (models.Subscription.Owner s)) with
    | inl ErrNoRows => (inl (NotFound "not found"),
                        Sql.mkTx db db Sql.TxRolledBack)
    | inl err => (inl err, Sql.mkTx db db Sql.TxRolledBack)
    | inr old =>
        if negb (String.eqb (models.Subscription.Version s)
                            (models.Subscription.Version old))
        then (inl (VersionMismatch "old version"),
              Sql.mkTx db db Sql.TxRolledBack)
        else
          match SubscriptionStore.pushSubscription
                  (Sql.Begin db) now (models.Subscription.Apply old s) with
          | (tx, inl err) => (inl err, tx)
          | (tx, inr s') => Sql.commit_return tx s'
          end
    end.
Proof.
  unfold SubscriptionStore.UpdateSubscription.
  pose proof (fetchSubscription_select
                db (fun db =>
                      filter (fun r =>
                                String.eqb (SubscriptionStore.id r)
                                           (models.Subscription.ID s)
                                && String.eqb (SubscriptionStore.owner r)
                                              (models.Subscription.Owner s))
                             (SubscriptionStore.subscriptions db)))
    as Hfst.
  fold (SubscriptionStore.fetchSubscriptionByIDAndOwner
          (Sql.Begin db) (models.Subscription.ID s)
          (models.Subscription.Owner s)) in Hfst.
  destruct (SubscriptionStore.fetchSubscriptionByIDAndOwner _ _ _) as [tx r].
  cbn [fst snd] in *. subst tx.
  destruct r as [[] | old]; try reflexivity.
Qed.

(** The loop over the cells never ends the transaction and never touches
    the persisted state. *)
Lemma upsert_cells_frame (sid : string) (now : time_Time) :
  forall (cids clevels : list Z) (q : Sql.Tx SubscriptionStore.DB),
    Sql.status q = Sql.TxOpen ->
    Sql.status (fst (SubscriptionStore.upsert_cells q cids clevels sid now))
    = Sql.TxOpen
    /\ Sql.persisted
         (fst (SubscriptionStore.upsert_cells q cids clevels sid now))
       = Sql.persisted q.
Proof.
  induction cids as [| cid cids IH]; intros clevels q Hopen; [now cbn |].
  destruct clevels as [| clevel clevels]; [now cbn |].
  cbn [SubscriptionStore.upsert_cells].
  rewrite Exec_open by exact Hopen.
  destruct (SubscriptionStore.subscriptionCellQuery _ _ _ _ _)
    as [e | [db' u]]; [now cbn |].
  destruct (IH clevels (Sql.mkTx (Sql.persisted q) db' Sql.TxOpen) eq_refl)
    as [Hs Hp].
  split; [exact Hs | exact Hp].
Qed.

Lemma pushSubscription_frame (q : Sql.Tx SubscriptionStore.DB)
      (now : time_Time) (s : models.Subscription.t) :
  Sql.status q = Sql.TxOpen ->
  Sql.status (fst (SubscriptionStore.pushSubscription q now s)) = Sql.TxOpen
  /\ Sql.persisted (fst (SubscriptionStore.pushSubscription q now s))
     = Sql.persisted q.
Proof.
  intros Hopen. unfold SubscriptionStore.pushSubscription.
  rewrite fetch_upsert by exact Hopen.
  destruct (Schema.check_time_order _ _); [| now cbn].
  match goal with
  | |- context [SubscriptionStore.upsert_cells ?a ?b ?c ?d ?e] =>
      pose proof (upsert_cells_frame d e b c a eq_refl) as [Hs Hp];
      destruct (SubscriptionStore.upsert_cells a b c d e) as [q2 [err |]]
  end; cbn [fst snd Sql.persisted] in *; [now split |].
  rewrite Exec_open by exact Hs.
  unfold SubscriptionStore.deleteLeftOverCellsForSubscriptionQuery.
  cbn. now split.
Qed.

(** Whatever InsertSubscription and UpdateSubscription return as an
    error, the persisted state is the one they started from.  The
    transaction is then rolled back or, when the error comes from
    pushSubscription, still open. *)
Lemma InsertSubscription_error_state
      (db : SubscriptionStore.DB) (now : time_Time)
      (s : models.Subscription.t) (err : Err)
      (tx : Sql.Tx SubscriptionStore.DB) :
  SubscriptionStore.InsertSubscription db now s = (inl err, tx) ->
  Sql.persisted tx = db
  /\ (Sql.status tx = Sql.TxRolledBack \/ Sql.status tx = Sql.TxOpen).
Proof.
  rewrite InsertSubscription_cases.
  destruct (snd (SubscriptionStore.fetchSubscriptionByID _ _)) as [[] | old];
    try (intros E; injection E as <- <-; cbn; auto).
  pose proof (pushSubscription_frame (Sql.Begin db) now s eq_refl) as [Hs Hp].
  destruct (SubscriptionStore.pushSubscription (Sql.Begin db) now s)
    as [q' [e | s']]; cbn [fst] in *.
  - intros E. injection E as <- <-. auto.
  - rewrite commit_return_open by exact Hs. discriminate.
Qed.

Lemma UpdateSubscription_error_state
      (db : SubscriptionStore.DB) (now : time_Time)
      (s : models.Subscription.t) (err : Err)
      (tx : Sql.Tx SubscriptionStore.DB) :
  SubscriptionStore.UpdateSubscription db now s = (inl err, tx) ->
  Sql.persisted tx = db
  /\ (Sql.status tx = Sql.TxRolledBack \/ Sql.status tx = Sql.TxOpen).
Proof.
  rewrite UpdateSubscription_cases.
  destruct (snd (SubscriptionStore.fetchSubscriptionByIDAndOwner _ _ _))
    as [[] | old];
    try (intros E; injection E as <- <-; cbn; auto).
  destruct (negb _); [intros E; injection E as <- <-; cbn; auto |].
  pose proof (pushSubscription_frame
                (Sql.Begin db) now (models.Subscription.Apply old s) eq_refl)
    as [Hs Hp].
  destruct (SubscriptionStore.pushSubscription _ _ _) as [q' [e | s']];
    cbn [fst] in *.
  - intros E. injection E as <- <-. auto.
  - rewrite commit_return_open by exact Hs. discriminate.
Qed.

(** After a committed insert or update through pushSubscription, the
    rows of the index that carry the id of the subscription are those of
    its declared cells, exactly. *)
Lemma pushSubscription_commit_index
      (db : SubscriptionStore.DB) (now : time_Time)
      (s s' : models.Subscription.t) (tx : Sql.Tx SubscriptionStore.DB) :
  match SubscriptionStore.pushSubscription (Sql.Begin db) now s with
  | (tx, inl err) => (inl err, tx)
  | (tx, inr s') => Sql.commit_return tx s'
  end = (inr s', tx) ->
  Sql.status tx = Sql.TxCommitted
  /\ models.Subscription.ID s' = models.Subscription.ID s
  /\ models.Subscription.Cells s' = models.Subscription.Cells s
  /\ models.Subscription.UpdatedAt s' = Some now
  /\ In (pushed_row s now) (SubscriptionStore.subscriptions (Sql.persisted tx))
  /\ (forall r, In r (SubscriptionStore.subscriptions (Sql.persisted tx)) ->
                SubscriptionStore.id r = models.Subscription.ID s ->
                r = pushed_row s now)
  /\ forall c,
      In c (indexed_cells
              (models.Subscription.ID s')
              (SubscriptionStore.cells_subscriptions (Sql.persisted tx)))
      <-> In c (map int64 (SubscriptionStore.cells_of
                             (models.Subscription.Cells s'))).
Proof.
  destruct (SubscriptionStore.pushSubscription (Sql.Begin db) now s)
    as [q' [e | s1]] eqn:P; [discriminate |].
  apply pushSubscription_ok in P; [| reflexivity].
  destruct P as [Hs [Hp [Hs1 [Hsub Hidx]]]].
  rewrite commit_return_open by exact Hs.
  intros E. injection E as <- <-.
  cbn [Sql.status Sql.persisted]. subst s1.
  cbn [models.Subscription.ID models.Subscription.Cells
       models.Subscription.UpdatedAt SubscriptionStore.set_Cells
       SubscriptionStore.scan pushed_row SubscriptionStore.id
       SubscriptionStore.updated_at].
  repeat split.
  - rewrite Hsub. apply upsert_subscription_In.
  - intros r Hr Hid. rewrite Hsub in Hr.
    apply (upsert_subscription_unique _ _ _ Hr). exact Hid.
  - intros H. apply indexed_cells_spec, Hidx in H.
    destruct H as [[_ H] | [H _]]; [exact H | contradiction].
  - intros H. apply indexed_cells_spec, Hidx. left. auto.
Qed.

Lemma InsertSubscription_index
      (db : SubscriptionStore.DB) (now : time_Time)
      (s s' : models.Subscription.t) (tx : Sql.Tx SubscriptionStore.DB) :
  SubscriptionStore.InsertSubscription db now s = (inr s', tx) ->
  Sql.status tx = Sql.TxCommitted
  /\ forall c,
      In c (indexed_cells
              (models.Subscription.ID s')
              (SubscriptionStore.cells_subscriptions (Sql.persisted tx)))
      <-> In c (map int64 (SubscriptionStore.cells_of
                             (models.Subscription.Cells s'))).
Proof.
  rewrite InsertSubscription_cases.
  destruct (snd (SubscriptionStore.fetchSubscriptionByID _ _)) as [[] | old];
    try discriminate.
  intros H. apply pushSubscription_commit_index in H. tauto.
Qed.

Lemma UpdateSubscription_index
      (db : SubscriptionStore.DB) (now : time_Time)
      (s s' : models.Subscription.t) (tx : Sql.Tx SubscriptionStore.DB) :
  SubscriptionStore.UpdateSubscription db now s = (inr s', tx) ->
  Sql.status tx = Sql.TxCommitted
  /\ forall c,
      In c (indexed_cells
              (models.Subscription.ID s')
              (SubscriptionStore.cells_subscriptions (Sql.persisted tx)))
      <-> In c (map int64 (SubscriptionStore.cells_of
                             (models.Subscription.Cells s'))).
Proof.
  rewrite UpdateSubscription_cases.
  destruct (snd (SubscriptionStore.fetchSubscriptionByIDAndOwner _ _ _))
    as [[] | old]; try discriminate.
  destruct (negb _); [discriminate |].
  intros H. apply pushSubscription_commit_index in H. tauto.
Qed.

(** ** Optimistic concurrency *)

Lemma fetchSubscriptionByIDAndOwner_inr
      (db : SubscriptionStore.DB) (i : models.ID) (o : models.Owner)
      (old : models.Subscription.t) :
  snd (SubscriptionStore.fetchSubscriptionByIDAndOwner (Sql.Begin db) i o)
  = inr old ->
  exists r, In r (SubscriptionStore.subscriptions db)
            /\ SubscriptionStore.id r = i
            /\ SubscriptionStore.owner r = o
            /\ old = SubscriptionStore.scan r.
Proof.
  intros H. unfold SubscriptionStore.fetchSubscriptionByIDAndOwner in H.
  apply fetchSubscription_select_inr in H. destruct H as [r [Hin ->]].
  apply filter_In in Hin. destruct Hin as [Hin Hk].
  apply andb_true_iff in Hk. destruct Hk as [Hi Ho].
  apply String.eqb_eq in Hi, Ho. eauto.
Qed.




(** Scenario S3 on subscriptions: an update with the version of the
    insert succeeds; a second update with that same version is refused
    and changes nothing; an update with the version the first update
    returned succeeds. *)
Example optimistic_concurrency_scenario :
  let first := SubscriptionStore.UpdateSubscription
                 Scenario.db_sub_B (Scenario.T0 + Scenario.minute)
                 (Scenario.move_sub_B Scenario.T0) in
  let db1 := Sql.persisted (snd first) in
  let second := SubscriptionStore.UpdateSubscription
                  db1 (Scenario.T0 + 2 * Scenario.minute)
                  (Scenario.move_sub_B Scenario.T0) in
  let third := SubscriptionStore.UpdateSubscription
                 db1 (Scenario.T0 + 2 * Scenario.minute)
                 (Scenario.move_sub_B (Scenario.T0 + Scenario.minute)) in
  Sql.status (snd first) = Sql.TxCommitted
  /\ second = (inl (VersionMismatch "old version"),
               Sql.mkTx db1 db1 Sql.TxRolledBack)
  /\ Sql.status (snd third) = Sql.TxCommitted.
Proof. repeat split; vm_compute; reflexivity. Qed.

(** Scenario S6: through pushSubscription, the update from cells 42 and
    84 to cells 84 and 126 leaves the index on 84 and 126. *)
Example cell_sweep_scenario :
  indexed_cells
    Scenario.id_S_B
    (SubscriptionStore.cells_subscriptions
       (Sql.persisted
          (snd (SubscriptionStore.UpdateSubscription
                  Scenario.db_sub_B (Scenario.T0 + Scenario.minute)
                  (Scenario.move_sub_B Scenario.T0)))))
  = [84; 126].
Proof. vm_compute. reflexivity. Qed.

(** The row based update refuses the version of any other representable
    instant, after a rollback. *)
Lemma updateSubscription_old_version
      (db : RowStore.DB) (now t : time_Time)
      (subscription : dspb.Subscription.t) (cells : s2.CellUnion)
      (sr : RowStore.subscriptionsRow.t)
      (rest : list RowStore.subscriptionsRow.t) :
  RowStore.getQuery (dspb.Subscription.Id subscription) db = sr :: rest ->
  dspb.Subscription.Version subscription
  = Versions.timestampToVersionString t ->
  representable t ->
  representable (RowStore.subscriptionsRow.updatedAt sr) ->
  t <> RowStore.subscriptionsRow.updatedAt sr ->
  RowStore.updateSubscription db now subscription cells
  = (inl (ErrorString ("version mismatch for subscription "
                         ++ dspb.Subscription.Id subscription)),
     Sql.mkTx db db Sql.TxRolledBack).
Proof.
  intros Hq Hv Ht Hu Hne. unfold RowStore.updateSubscription.
  cbn [Sql.Query Sql.Begin Sql.status Sql.working]. rewrite Hq.
  cbn [RowStore.scan_row]. unfold RowStore.subscriptionsRow.versionOK.
  rewrite Hv.
  rewrite (proj2 (String.eqb_neq _ "") (timestampToVersionString_nonempty t)).
  assert (E : String.eqb
                (Versions.timestampToVersionString t)
                (Versions.timestampToVersionString
                   (RowStore.subscriptionsRow.updatedAt sr)) = false).
  { apply String.eqb_neq. intros E. apply Hne.
    now apply timestampToVersionString_inj. }
  rewrite E. reflexivity.
Qed.

(** ** The affected subscriptions of the models based store *)



(** ** More on the row based store *)

(** Whatever its id, its owner and its cells, a subscription whose expiry
    time is not passed satisfies the condition of
    getSubscriptionDetailsForAffectedCells: the last disjunct stands
    alone. *)
Lemma subscriptionDetailsCondition_unexpired
      (ids : list string) (owner : string) (now expires : time_Time)
      (r : RowStore.subscriptionsRow.t) :
  RowStore.subscriptionsRow.expiresAt r = Some expires ->
  now <= expires ->
  Sql.holds (RowStore.subscriptionDetailsCondition ids owner now r) = true.
Proof.
  intros He Hle. unfold RowStore.subscriptionDetailsCondition.
  rewrite He. cbn [Sql.le_col option_map].
  rewrite (proj2 (Z.leb_le now expires) Hle).
  match goal with
  | |- context [Sql.tor ?a (Some true)] => destruct a as [[|] |]
  end; reflexivity.
Qed.

(** Every error of DeleteIdentificationServiceArea comes after a
    rollback, also when the area is not found: the error of the DELETE is
    dropped after the rollback, and the next query fails on the finished
    transaction. *)
Lemma DeleteIdentificationServiceArea_error_rolls_back
      (db : RowStore.DB) (now : time_Time) (id owner : string) (err : Err)
      (tx : Sql.Tx RowStore.DB) :
  RowStore.DeleteIdentificationServiceArea db now id owner = (inl err, tx) ->
  tx = Sql.mkTx db db Sql.TxRolledBack.
Proof.
  unfold RowStore.DeleteIdentificationServiceArea.
  cbn [Sql.Query Sql.Begin Sql.status Sql.working].
  destruct (RowStore.scan_affected _ [] []) as [e | [cells subscriptions]];
    [cbn; intros E; now injection E as _ <- |].
  cbn [Sql.Exec Sql.Begin Sql.status Sql.working Sql.persisted
       RowStore.deleteIdentificationServiceAreaQuery].
  cbv zeta.
  match goal with
  | |- context [RowStore.scan_row ?l] => destruct l as [| isar deleted]
  end; cbn [RowStore.scan_row].
  - cbn. intros E. now injection E as _ <-.
  - cbn [Sql.Query Sql.status Sql.working].
    destruct (RowStore.identificationServiceAreaRow.toProtobuf isar)
      as [e | isa]; [cbn; intros E; now injection E as _ <- |].
    rewrite subscribers_toProtobuf_map. cbn. discriminate.
Qed.

(** The loop of updateSubscription over the cells only adds to the
    index. *)
Lemma row_upsert_cells_keeps (sid : string) (now : time_Time) :
  forall (cells : s2.CellUnion) (tx tx' : Sql.Tx RowStore.DB),
    Sql.status tx = Sql.TxOpen ->
    RowStore.upsert_cells tx cells sid now = (tx', None) ->
    Sql.status tx' = Sql.TxOpen
    /\ forall c e,
        indexed (RowStore.cells_subscriptions (Sql.working tx)) c e ->
        indexed (RowStore.cells_subscriptions (Sql.working tx')) c e.
Proof.
  induction cells as [| cell cells IH]; intros tx tx' Hopen Hrun.
  - cbn in Hrun. injection Hrun as <-. auto.
  - cbn [RowStore.upsert_cells] in Hrun.
    destruct (Schema.driver_ConvertValue cell) as [e | v]; [discriminate |].
    rewrite Exec_open in Hrun by exact Hopen.
    unfold RowStore.subscriptionCellQuery, Schema.upsert_cell in Hrun.
    destruct (Schema.check_cell_level _ && existsb _ _); [| discriminate].
    apply IH in Hrun; [| reflexivity].
    destruct Hrun as [Hs Hkeep]. split; [exact Hs |].
    intros c e H. apply Hkeep.
    cbn [Sql.working RowStore.cells_subscriptions].
    apply indexed_upsert. now left.
Qed.

(** A committed updateSubscription removes nothing from the index of the
    subscriptions: the cells an entity had before, it still has. *)
Lemma updateSubscription_keeps_index
      (db : RowStore.DB) (now : time_Time)
      (subscription : dspb.Subscription.t) (cells : s2.CellUnion)
      (pb : dspb.Subscription.t) (tx : Sql.Tx RowStore.DB) :
  RowStore.updateSubscription db now subscription cells = (inr pb, tx) ->
  forall c e,
    indexed (RowStore.cells_subscriptions db) c e ->
    indexed (RowStore.cells_subscriptions (Sql.persisted tx)) c e.
Proof.
  unfold RowStore.updateSubscription.
  cbn [Sql.Query Sql.Begin Sql.status Sql.working].
  destruct (RowStore.getQuery _ db) as [| sr rest]; [discriminate |].
  cbn [RowStore.scan_row].
  destruct (negb _); [discriminate |].
  cbn [Sql.Exec Sql.Begin Sql.status Sql.working Sql.persisted].
  unfold RowStore.updateQuery.
  destruct (Schema.check_time_order _ _); [| discriminate].
  cbn [RowStore.scan_row].
  destruct (RowStore.upsert_cells _ _ _ _) as [tx2 [e |]] eqn:L;
    [destruct tx2 as [p w []]; discriminate |].
  apply row_upsert_cells_keeps in L; [| reflexivity].
  destruct L as [Hs Hkeep].
  destruct (RowStore.subscriptionsRow.toProtobuf _); [discriminate |].
  rewrite commit_return_open by exact Hs.
  intros E. injection E as _ <-. exact Hkeep.
Qed.

(* ================================================================== *)
(** * Further properties of the code *)

(** ** Version strings: format and decoding *)

Lemma digit_at_lower_base32 (d : Z) :
  0 <= d < 32 -> lower_base32 (strconv.digit_at d) = true.
Proof.
  intros H.
  assert (Hd : d = Z.of_nat (Z.to_nat d)) by lia.
  rewrite Hd.
  assert (Hn : (Z.to_nat d < 32)%nat) by lia.
  generalize dependent (Z.to_nat d). intros n _ Hn.
  do 32 (destruct n as [| n]; [reflexivity |]).
  lia.
Qed.

Lemma formatBits_loop_lower (k : nat) :
  forall (u : Z) (a : string),
    0 <= u ->
    string_forall lower_base32 a = true ->
    string_forall lower_base32 (strconv.formatBits_loop k u 32 true a) = true.
Proof.
  induction k as [| k IH]; intros u a Hu Ha; [exact Ha |].
  cbn [strconv.formatBits_loop].
  destruct (Z.geb_spec u 32) as [Hge | Hlt].
  - change (Z.land (bits.TrailingZeros64 32) 7) with 5.
    change (32 - 1) with 31.
    rewrite shiftr_5, land_31 by lia.
    apply IH.
    + apply Z.div_pos; lia.
    + cbn [string_forall]. rewrite Ha, digit_at_lower_base32; [reflexivity |].
      apply Z.mod_pos_bound. lia.
  - cbn [string_forall]. rewrite Ha, digit_at_lower_base32; [reflexivity | lia].
Qed.

Lemma formatBits_loop_length (k : nat) :
  forall (j : nat) (u : Z) (a : string),
    (1 <= j)%nat -> 0 <= u < 32 ^ Z.of_nat j ->
    (String.length (strconv.formatBits_loop k u 32 true a)
     <= String.length a + j)%nat.
Proof.
  induction k as [| k IH]; intros j u a Hj Hu; [cbn; lia |].
  cbn [strconv.formatBits_loop].
  destruct (Z.geb_spec u 32) as [Hge | Hlt].
  - change (Z.land (bits.TrailingZeros64 32) 7) with 5.
    change (32 - 1) with 31.
    rewrite shiftr_5, land_31 by lia.
    destruct j as [| [| j]];
      [lia | change (32 ^ Z.of_nat 1) with 32 in Hu; lia |].
    specialize (IH (S j) (u / 32) (String (strconv.digit_at (u mod 32)) a)).
    cbn [String.length] in IH.
    assert (H32 : 0 <= u / 32 < 32 ^ Z.of_nat (S j)).
    { split; [apply Z.div_pos; lia |].
      apply Z.div_lt_upper_bound; [lia |].
      rewrite (Nat2Z.inj_succ (S j)), Z.pow_succ_r in Hu by lia. lia. }
    specialize (IH ltac:(lia) H32). lia.
  - cbn [String.length]. lia.
Qed.

(** X1: the version string of any timestamp is made of the characters
    0-9 and a-v only, and has between 1 and 13 of them. *)
Theorem timestampToVersionString_format (t : time_Time) :
  string_forall lower_base32 (Versions.timestampToVersionString t) = true
  /\ (1 <= String.length (Versions.timestampToVersionString t) <= 13)%nat.
Proof.
  unfold Versions.timestampToVersionString, strconv.FormatUint,
    strconv.formatBits.
  change (strconv.isPowerOfTwo Versions.versionBase) with true.
  unfold Versions.versionBase.
  pose proof (uint64_range (UnixNano t)) as Hr. unfold two64 in Hr.
  split; [| split].
  - apply formatBits_loop_lower; [lia | reflexivity].
  - pose proof (formatBits_loop_nonempty
                  65 (uint64 (UnixNano t)) 32 true "" ltac:(lia)) as Hne.
    destruct (strconv.formatBits_loop _ _ _ _ _);
      [congruence | cbn; lia].
  - pose proof (formatBits_loop_length
                  65 13 (uint64 (UnixNano t)) "" ltac:(lia)) as Hl.
    cbn [String.length] in Hl. apply Hl.
    assert (2 ^ 64 < 32 ^ Z.of_nat 13) by (vm_compute; reflexivity). lia.
Qed.

Lemma digit_val_nonneg (c : ascii) (d : Z) :
  strconv.digit_val c = Some d -> 0 <= d.
Proof.
  unfold strconv.digit_val.
  destruct ((48 <=? strconv.code c) && (strconv.code c <=? 57)) eqn:E1.
  - intros E. injection E as <-. apply andb_true_iff in E1. lia.
  - destruct ((97 <=? strconv.lower c) && (strconv.lower c <=? 122)) eqn:E2;
      [| discriminate].
    intros E. injection E as <-. apply andb_true_iff in E2. lia.
Qed.

(** What the parser accepts in base 32, and the number it returns. *)
Lemma ParseUint_loop_inr (s : string) :
  forall n v : Z,
    0 <= n < two64 ->
    strconv.ParseUint_loop s 32 (maxUint64 / 32 + 1) (2 ^ 64 - 1) n = inr v ->
    string_forall base32_digit s = true
    /\ v = base32_value s n
    /\ 0 <= v < two64.
Proof.
  induction s as [| c s IH]; intros n v Hn H.
  - cbn in H. injection H as <-. cbn. auto.
  - cbn [strconv.ParseUint_loop] in H.
    cbn [string_forall base32_value]. unfold base32_digit.
    destruct (strconv.digit_val c) as [d |] eqn:Ed; [| discriminate].
    pose proof (digit_val_nonneg _ _ Ed) as Hd.
    destruct (Z.geb_spec d 32) as [| Hlt]; [discriminate |].
    change (maxUint64 / 32 + 1) with (2 ^ 59) in *.
    destruct (Z.geb_spec n (2 ^ 59)) as [| Hcut]; [discriminate |].
    unfold two64 in *.
    rewrite (uint64_small (n * 32)) in H by (unfold two64; lia).
    rewrite (uint64_small (n * 32 + d)) in H by (unfold two64; lia).
    destruct ((n * 32 + d <? n * 32) || (n * 32 + d >? 2 ^ 64 - 1));
      [discriminate |].
    apply IH in H; [| lia].
    destruct H as [Hs [Hv Hr]].
    rewrite (proj2 (Z.ltb_lt d 32) Hlt). cbn [andb].
    replace (32 * n + d) with (n * 32 + d) by lia. auto.
Qed.

(** X2: when versionStringToTimestamp accepts a string, the string is
    not empty, each of its characters is a digit of base 32 (in either
    case), and the timestamp is the number the digits write, read as a
    signed 64-bit count of nanoseconds; it is representable. *)
Theorem versionStringToTimestamp_accepts (s : string) (t : time_Time) :
  Versions.versionStringToTimestamp s = inr t ->
  s <> ""
  /\ string_forall base32_digit s = true
  /\ t = int64 (base32_value s 0)
  /\ representable t.
Proof.
  unfold Versions.versionStringToTimestamp, strconv.ParseUint,
    Versions.versionBase.
  destruct s as [| c s]; [discriminate |].
  destruct (strconv.ParseUint_loop _ _ _ _ _) as [e | v] eqn:P;
    [discriminate |].
  intros E. injection E as <-.
  apply ParseUint_loop_inr in P; [| unfold two64; lia].
  destruct P as [Hs [Hv _]].
  split; [discriminate |]. split; [exact Hs |].
  split; [unfold time_Unix0; now rewrite Hv |].
  unfold time_Unix0, representable. apply int64_range.
Qed.

Lemma versionStringToTimestamp_accepts_witness :
  "1B9hrngcpo000" <> ""
  /\ string_forall base32_digit "1B9hrngcpo000" = true
  /\ 1560000000000000000 = int64 (base32_value "1B9hrngcpo000" 0)
  /\ representable 1560000000000000000.
Proof.
  apply (versionStringToTimestamp_accepts
           "1B9hrngcpo000" 1560000000000000000).
  vm_compute. reflexivity.
Defined.

(** X3: versionOK accepts the empty version and the version of the
    stored [updated_at], and refuses the version of every other
    representable instant. *)
Theorem versionOK_spec (sr : RowStore.subscriptionsRow.t) (t : time_Time) :
  representable t ->
  representable (RowStore.subscriptionsRow.updatedAt sr) ->
  RowStore.subscriptionsRow.versionOK sr "" = true
  /\ RowStore.subscriptionsRow.versionOK
       sr (Versions.timestampToVersionString
             (RowStore.subscriptionsRow.updatedAt sr)) = true
  /\ RowStore.subscriptionsRow.versionOK
       sr (Versions.timestampToVersionString t)
     = (t =? RowStore.subscriptionsRow.updatedAt sr).
Proof.
  intros Ht Hu.
  unfold RowStore.subscriptionsRow.versionOK. split; [reflexivity |].
  split; [now rewrite String.eqb_refl, orb_true_r |].
  rewrite (proj2 (String.eqb_neq _ "") (timestampToVersionString_nonempty t)).
  cbn [orb].
  destruct (Z.eqb_spec t (RowStore.subscriptionsRow.updatedAt sr))
    as [-> | Hne].
  - apply String.eqb_refl.
  - apply String.eqb_neq. intros E. apply Hne.
    now apply timestampToVersionString_inj.
Qed.

Lemma versionOK_spec_witness :
  RowStore.subscriptionsRow.versionOK Scenario.S_B "" = true
  /\ RowStore.subscriptionsRow.versionOK
       Scenario.S_B
       (Versions.timestampToVersionString
          (RowStore.subscriptionsRow.updatedAt Scenario.S_B)) = true
  /\ RowStore.subscriptionsRow.versionOK
       Scenario.S_B (Versions.timestampToVersionString Scenario.T0)
     = (Scenario.T0 =? RowStore.subscriptionsRow.updatedAt Scenario.S_B).
Proof.
  apply (versionOK_spec Scenario.S_B Scenario.T0).
  - unfold representable, minInt64, maxInt64, Scenario.T0. lia.
  - unfold representable, minInt64, maxInt64, Scenario.S_B, Scenario.T0,
      Scenario.minute.
    cbn [RowStore.subscriptionsRow.updatedAt]. lia.
Defined.

(** ** Apply: patches compose *)

(** X4: applying two overlays one after the other is applying their
    merge: Apply(Apply(e, o1), o2) = Apply(e, Apply(o1, o2)).  In
    particular applying the same overlay twice changes nothing more. *)
Theorem Apply_compose (e o1 o2 : models.IdentificationServiceArea.t) :
  models.IdentificationServiceArea.Apply
    (models.IdentificationServiceArea.Apply e o1) o2
  = models.IdentificationServiceArea.Apply
      e (models.IdentificationServiceArea.Apply o1 o2)
  /\ models.IdentificationServiceArea.Apply
       (models.IdentificationServiceArea.Apply e o1) o1
     = models.IdentificationServiceArea.Apply e o1.
Proof.
  destruct e as [ei eu eo ec es ee ea eh el].
  destruct o1 as [i1 u1 w1 c1 s1 e1 a1 h1 l1].
  destruct o2 as [i2 u2 w2 c2 s2 e2 a2 h2 l2].
  unfold models.IdentificationServiceArea.Apply,
    models.IdentificationServiceArea.overlay.
  cbn.
  split.
  - destruct (String.eqb u2 "") eqn:U2; destruct (String.eqb u1 "") eqn:U1;
      rewrite ?U1, ?U2;
      destruct c2, s2, e2, a2, h2, l2; reflexivity.
  - destruct (String.eqb u1 "") eqn:U1; rewrite ?U1;
      destruct c1, s1, e1, a1, h1, l1; reflexivity.
Qed.

(** X5: an overlay in which nothing is set leaves the entity as it is,
    whatever id and owner the overlay carries; and no overlay unsets a
    field: every field that is set in the entity is set in the result. *)
Theorem Apply_identity_and_never_clears
        (e o : models.IdentificationServiceArea.t)
        (i : models.ID) (w : models.Owner) :
  models.IdentificationServiceArea.Apply
    e (models.IdentificationServiceArea.mk i "" w None None None None
                                           None None)
  = e
  /\ all_implied (set_fields e)
                 (set_fields (models.IdentificationServiceArea.Apply e o))
     = true.
Proof.
  destruct e as [ei eu eo ec es ee ea eh el].
  destruct o as [i1 u1 w1 c1 s1 e1 a1 h1 l1].
  split; [reflexivity |].
  unfold set_fields, models.IdentificationServiceArea.Apply,
    models.IdentificationServiceArea.overlay.
  cbn.
  destruct (String.eqb u1 "") eqn:U1; rewrite ?U1;
    destruct (String.eqb eu ""), ec, es, ee, ea, eh, el,
      c1, s1, e1, a1, h1, l1; reflexivity.
Qed.

(** ** Rows and wire messages *)

Lemma Timestamp_of_TimestampProto (t : time_Time) (ts : ptypes.Timestamp) :
  ptypes.TimestampProto t = inr ts -> ptypes.Timestamp_ ts = inr t.
Proof.
  unfold ptypes.TimestampProto, ptypes.Timestamp_.
  destruct (ptypes.validateTimestamp _) eqn:V; [discriminate |].
  intros E. injection E as <-. rewrite V. cbn [ptypes.Seconds ptypes.Nanos].
  rewrite Z.mul_comm, <- Z.div_mod by discriminate. reflexivity.
Qed.

(** X6: reading back the wire message of a row into an empty row gives
    the id, the owner, the url and the time bounds of the row, without
    error; the notification index and [updated_at] are not read from the
    message. *)
Theorem applyProtobuf_of_toProtobuf
        (sr : RowStore.subscriptionsRow.t) (pb : dspb.Subscription.t) :
  RowStore.subscriptionsRow.toProtobuf sr = inr pb ->
  RowStore.subscriptionsRow.applyProtobuf RowStore.subscriptionsRow.zero pb
  = (RowStore.subscriptionsRow.mk
       (RowStore.subscriptionsRow.id sr)
       (RowStore.subscriptionsRow.owner sr)
       (RowStore.subscriptionsRow.url sr)
       None 0 None
       (RowStore.subscriptionsRow.beginsAt sr)
       (RowStore.subscriptionsRow.expiresAt sr)
       RowStore.time_zero,
     None).
Proof.
  destruct sr as [i o u tf ni lu b e ua].
  unfold RowStore.subscriptionsRow.toProtobuf,
    RowStore.subscriptionsRow.timestamp_field.
  cbn [RowStore.subscriptionsRow.beginsAt RowStore.subscriptionsRow.expiresAt
       RowStore.subscriptionsRow.id RowStore.subscriptionsRow.owner
       RowStore.subscriptionsRow.url RowStore.subscriptionsRow.updatedAt
       RowStore.subscriptionsRow.notificationIndex].
  assert (Hb : forall x y, ptypes.TimestampProto x = inr y ->
                           ptypes.Timestamp_ y = inr x)
    by apply Timestamp_of_TimestampProto.
  destruct b as [b |]; [destruct (ptypes.TimestampProto b) as [? | tb] eqn:Eb;
                        [discriminate |] |];
    (destruct e as [e |];
     [destruct (ptypes.TimestampProto e) as [? | te] eqn:Ee;
      [discriminate |] |]);
    intros E; injection E as <-;
    unfold RowStore.subscriptionsRow.applyProtobuf,
      RowStore.subscriptionsRow.zero;
    cbn [dspb.Subscription.Id dspb.Subscription.Owner
         dspb.Subscription.Callbacks dspb.Subscription.Begins
         dspb.Subscription.Expires
         dspb.SubscriptionCallbacks.GetIdentificationServiceAreaUrl
         dspb.SubscriptionCallbacks.IdentificationServiceAreaUrl];
    rewrite ?(Hb _ _ Eb), ?(Hb _ _ Ee);
    destruct (String.eqb_spec i ""), (String.eqb_spec o ""),
      (String.eqb_spec u ""); subst; reflexivity.
Qed.

Lemma applyProtobuf_of_toProtobuf_witness :
  exists pb,
    RowStore.subscriptionsRow.toProtobuf Scenario.S_A = inr pb
    /\ RowStore.subscriptionsRow.applyProtobuf
         RowStore.subscriptionsRow.zero pb
       = (RowStore.subscriptionsRow.mk
            Scenario.id_S_A "A" "https://a/isa" None 0 None None
            (Some (Scenario.T0 + 60 * Scenario.minute)) RowStore.time_zero,
          None).
Proof.
  eexists. split; [vm_compute; reflexivity |].
  apply (applyProtobuf_of_toProtobuf Scenario.S_A).
  vm_compute. reflexivity.
Defined.

(** X7: a nullTime gives back to the driver the value it scanned, nil or
    a time; scanning a value of another type is an error that leaves the
    receiver as it was; and scanning the value of a valid nullTime
    restores it. *)
Theorem nullTime_round_trip (nt : RowStore.nullTime.t) (t : time_Time)
        (n : string) :
  RowStore.nullTime.Value (fst (RowStore.nullTime.Scan nt RowStore.VNil))
  = RowStore.VNil
  /\ RowStore.nullTime.Value
       (fst (RowStore.nullTime.Scan nt (RowStore.VTime t)))
     = RowStore.VTime t
  /\ snd (RowStore.nullTime.Scan nt (RowStore.VTime t)) = None
  /\ fst (RowStore.nullTime.Scan nt (RowStore.VOther n)) = nt
  /\ is_set (snd (RowStore.nullTime.Scan nt (RowStore.VOther n))) = true
  /\ RowStore.nullTime.Scan
       (RowStore.nullTime.mk t false)
       (RowStore.nullTime.Value (RowStore.nullTime.mk t true))
     = (RowStore.nullTime.mk t true, None).
Proof. repeat split. Qed.

(** ** The row based store: insert and get *)

Lemma applyProtobuf_frame
      (sr : RowStore.subscriptionsRow.t) (subscription : dspb.Subscription.t) :
  let sr' := fst (RowStore.subscriptionsRow.applyProtobuf sr subscription) in
  RowStore.subscriptionsRow.typesFilter sr'
  = RowStore.subscriptionsRow.typesFilter sr
  /\ RowStore.subscriptionsRow.notificationIndex sr'
     = RowStore.subscriptionsRow.notificationIndex sr
  /\ RowStore.subscriptionsRow.lastUsedAt sr'
     = RowStore.subscriptionsRow.lastUsedAt sr
  /\ RowStore.subscriptionsRow.updatedAt sr'
     = RowStore.subscriptionsRow.updatedAt sr.
Proof.
  unfold RowStore.subscriptionsRow.applyProtobuf.
  destruct (String.eqb (dspb.Subscription.Id subscription) "");
    destruct (String.eqb (dspb.Subscription.Owner subscription) "");
    destruct (String.eqb
                (dspb.SubscriptionCallbacks.GetIdentificationServiceAreaUrl
                   (dspb.Subscription.Callbacks subscription)) "");
    destruct (dspb.Subscription.Begins subscription) as [tb |];
    try destruct (ptypes.Timestamp_ tb) as [? | ?];
    destruct (dspb.Subscription.Expires subscription) as [te |];
    try destruct (ptypes.Timestamp_ te) as [? | ?];
    cbn; repeat split.
Qed.

Lemma inserted_row_id (subscription : dspb.Subscription.t) (now : time_Time) :
  RowStore.subscriptionsRow.id (inserted_row subscription now)
  = dspb.Subscription.Id subscription.
Proof.
  unfold inserted_row.
  pose proof (applyProtobuf_id_owner_url
                RowStore.subscriptionsRow.zero subscription) as [H _].
  cbv zeta in H. unfold overlaid_string in H.
  cbn [RowStore.subscriptionsRow.id RowStore.subscriptionsRow.set_updatedAt].
  destruct (String.eqb_spec (dspb.Subscription.Id subscription) "") as [E | E];
    rewrite H; [now rewrite E | reflexivity].
Qed.

Lemma has_cell_key (t : list Schema.CellRow) (c l : Z) (e : string)
      (now : time_Time) :
  existsb (Schema.same_cell_key (Schema.mkCellRow c l e now)) t = true
  <-> indexed t c e.
Proof.
  unfold indexed. rewrite existsb_exists. split.
  - intros [x [Hx Hk]]. apply same_cell_key_spec in Hk. cbn in Hk.
    exists x. intuition congruence.
  - intros [x [Hx [Hc He]]]. exists x. split; [exact Hx |].
    apply same_cell_key_spec. cbn. intuition congruence.
Qed.

(** The loop of insertSubscription over the cells: when it ends without
    error, the cells are pairwise distinct, none of them was indexed for
    the subscription, and the index has been extended by one row per
    cell, in order. *)
Lemma insert_cells_spec (sid : string) (now : time_Time) :
  forall (cells : s2.CellUnion) (tx tx' : Sql.Tx RowStore.DB),
    Sql.status tx = Sql.TxOpen ->
    RowStore.insert_cells tx cells sid now = (tx', None) ->
    Sql.status tx' = Sql.TxOpen
    /\ Sql.persisted tx' = Sql.persisted tx
    /\ RowStore.subscriptions (Sql.working tx')
       = RowStore.subscriptions (Sql.working tx)
    /\ RowStore.identification_service_areas (Sql.working tx')
       = RowStore.identification_service_areas (Sql.working tx)
    /\ RowStore.cells_identification_service_areas (Sql.working tx')
       = RowStore.cells_identification_service_areas (Sql.working tx)
    /\ RowStore.cells_subscriptions (Sql.working tx')
       = RowStore.cells_subscriptions (Sql.working tx)
           ++ map (cell_row sid now) cells
    /\ NoDup cells
    /\ forall c, In c cells ->
                 ~ indexed (RowStore.cells_subscriptions (Sql.working tx))
                   c sid.
Proof.
  induction cells as [| cell cells IH]; intros tx tx' Hopen Hrun.
  - cbn in Hrun. injection Hrun as <-. cbn [map].
    rewrite app_nil_r. repeat split; auto using NoDup_nil.
  - cbn [RowStore.insert_cells] in Hrun.
    unfold Schema.driver_ConvertValue in Hrun.
    destruct (cell >=? 2 ^ 63); [discriminate |].
    rewrite Exec_open in Hrun by exact Hopen.
    unfold RowStore.insertCellQuery in Hrun.
    destruct (Schema.check_cell_level _ && existsb _ _) ; [| discriminate].
    cbn [andb] in Hrun.
    destruct (existsb _ (RowStore.cells_subscriptions (Sql.working tx)))
      eqn:Hkey; [discriminate |].
    cbn [negb] in Hrun.
    apply IH in Hrun; [| reflexivity].
    cbn [Sql.status Sql.persisted Sql.working RowStore.subscriptions
         RowStore.cells_subscriptions RowStore.identification_service_areas
         RowStore.cells_identification_service_areas] in Hrun.
    destruct Hrun as [Hs [Hp [Hsub [Hi [Hci [Hcells [Hnd Hfresh]]]]]]].
    assert (Hcell : ~ indexed (RowStore.cells_subscriptions (Sql.working tx))
                      cell sid).
    { intros H. apply (has_cell_key _ _ (s2.Level cell) _ now) in H.
      congruence. }
    split; [exact Hs |]. split; [exact Hp |]. split; [exact Hsub |].
    split; [exact Hi |]. split; [exact Hci |].
    split; [rewrite Hcells, <- app_assoc; reflexivity |].
    split.
    + constructor; [| exact Hnd].
      intros Hin. apply (Hfresh cell Hin).
      exists (Schema.mkCellRow cell (s2.Level cell) sid now).
      split; [apply in_or_app; right; now left | split; reflexivity].
    + intros c [<- | Hin]; [exact Hcell |].
      intros H. apply (Hfresh c Hin).
      destruct H as [x [Hx Hk]]. exists x.
      split; [apply in_or_app; now left | exact Hk].
Qed.

(** X8: what a successful insertSubscription has done.  It commits; the
    id of the message was not in the table; the row it adds is the
    message read into an empty row, stamped with the time of the
    transaction, with a notification index of 0 whatever the message
    says; the cells are pairwise distinct and the index gains one row per
    cell; the tables of the service areas are untouched; the result is
    the wire form of the new row. *)
Theorem insertSubscription_commit
        (db : RowStore.DB) (now : time_Time)
        (subscription : dspb.Subscription.t) (cells : s2.CellUnion)
        (pb : dspb.Subscription.t) (tx : Sql.Tx RowStore.DB) :
  RowStore.insertSubscription db now subscription cells = (inr pb, tx) ->
  Sql.status tx = Sql.TxCommitted
  /\ ~ In (dspb.Subscription.Id subscription)
          (map RowStore.subscriptionsRow.id (RowStore.subscriptions db))
  /\ RowStore.subscriptions (Sql.persisted tx)
     = RowStore.subscriptions db ++ [inserted_row subscription now]
  /\ RowStore.subscriptionsRow.notificationIndex
       (inserted_row subscription now) = 0
  /\ NoDup cells
  /\ RowStore.cells_subscriptions (Sql.persisted tx)
     = RowStore.cells_subscriptions db
         ++ map (cell_row (dspb.Subscription.Id subscription) now) cells
  /\ RowStore.identification_service_areas (Sql.persisted tx)
     = RowStore.identification_service_areas db
  /\ RowStore.cells_identification_service_areas (Sql.persisted tx)
     = RowStore.cells_identification_service_areas db
  /\ RowStore.subscriptionsRow.toProtobuf (inserted_row subscription now)
     = inr pb.
Proof.
  unfold RowStore.insertSubscription.
  rewrite Exec_open by reflexivity.
  unfold RowStore.insertQuery.
  fold (inserted_row subscription now).
  cbn [Sql.working Sql.Begin Sql.persisted].
  destruct (existsb _ (RowStore.subscriptions db)) eqn:Hex; [discriminate |].
  destruct (Schema.check_time_order _ _); [| discriminate].
  cbn [RowStore.scan_row].
  rewrite inserted_row_id.
  destruct (RowStore.insert_cells _ _ _ _) as [tx2 [e |]] eqn:L;
    [destruct tx2 as [p w []]; discriminate |].
  apply insert_cells_spec in L; [| reflexivity].
  cbn [Sql.status Sql.persisted Sql.working RowStore.subscriptions
       RowStore.cells_subscriptions RowStore.identification_service_areas
       RowStore.cells_identification_service_areas] in L.
  destruct L as [Hs [Hp [Hsub [Hi [Hci [Hcells [Hnd _]]]]]]].
  destruct (RowStore.subscriptionsRow.toProtobuf _) as [e | pb'] eqn:P;
    [discriminate |].
  rewrite commit_return_open by exact Hs.
  intros E. injection E as <- <-.
  cbn [Sql.status Sql.persisted].
  repeat split; auto.
  - intros Hin. apply in_map_iff in Hin. destruct Hin as [r [Hid Hr]].
    assert (existsb (RowStore.same_subscription
                       (inserted_row subscription now))
                    (RowStore.subscriptions db) = true).
    { apply existsb_exists. exists r. split; [exact Hr |].
      unfold RowStore.same_subscription.
      rewrite inserted_row_id, Hid. apply String.eqb_refl. }
    congruence.
  - unfold inserted_row.
    pose proof (applyProtobuf_frame
                  RowStore.subscriptionsRow.zero subscription) as [_ [H _]].
    cbv zeta in H. cbn [RowStore.subscriptionsRow.notificationIndex
                        RowStore.subscriptionsRow.set_updatedAt].
    rewrite H. reflexivity.
Qed.

Lemma insertSubscription_commit_witness :
  Sql.status
    (snd (RowStore.insertSubscription
            Scenario.row_empty_db Scenario.T0 Scenario.msg_B [42; 84]))
  = Sql.TxCommitted
  /\ RowStore.subscriptionsRow.notificationIndex
       (inserted_row Scenario.msg_B Scenario.T0) = 0.
Proof.
  pose proof (insertSubscription_commit
                Scenario.row_empty_db Scenario.T0 Scenario.msg_B [42; 84]
                _ _ eq_refl) as H.
  split; [exact (proj1 H) | exact (proj1 (proj2 (proj2 (proj2 H))))].
Defined.

(** X9: insertSubscription never replaces a subscription: when the id of
    the message is already in the table, it returns the violation of the
    primary key after a rollback and the persisted state is unchanged. *)
Theorem insertSubscription_existing_id
        (db : RowStore.DB) (now : time_Time)
        (subscription : dspb.Subscription.t) (cells : s2.CellUnion) :
  In (dspb.Subscription.Id subscription)
     (map RowStore.subscriptionsRow.id (RowStore.subscriptions db)) ->
  RowStore.insertSubscription db now subscription cells
  = (inl ErrConstraint, Sql.mkTx db db Sql.TxRolledBack).
Proof.
  intros Hin. unfold RowStore.insertSubscription.
  rewrite Exec_open by reflexivity.
  unfold RowStore.insertQuery. fold (inserted_row subscription now).
  cbn [Sql.working Sql.Begin].
  assert (Hex : existsb (RowStore.same_subscription
                           (inserted_row subscription now))
                        (RowStore.subscriptions db) = true).
  { apply in_map_iff in Hin. destruct Hin as [r [Hid Hr]].
    apply existsb_exists. exists r. split; [exact Hr |].
    unfold RowStore.same_subscription.
    rewrite inserted_row_id, Hid. apply String.eqb_refl. }
  rewrite Hex. reflexivity.
Qed.

Lemma insertSubscription_existing_id_witness :
  RowStore.insertSubscription
    Scenario.db_two_cells Scenario.T0 Scenario.msg_B [126]
  = (inl ErrConstraint,
     Sql.mkTx Scenario.db_two_cells Scenario.db_two_cells Sql.TxRolledBack).
Proof.
  apply (insertSubscription_existing_id
           Scenario.db_two_cells Scenario.T0 Scenario.msg_B [126]).
  simpl. left. reflexivity.
Defined.

Lemma applyProtobuf_bad_begin
      (sr : RowStore.subscriptionsRow.t) (subscription : dspb.Subscription.t)
      (ts : ptypes.Timestamp) (e : Err) :
  dspb.Subscription.Begins subscription = Some ts ->
  ptypes.Timestamp_ ts = inl e ->
  RowStore.subscriptionsRow.applyProtobuf sr subscription
  = (fst (RowStore.subscriptionsRow.applyProtobuf
            sr (without_times subscription)), Some e).
Proof.
  intros Hb He. unfold RowStore.subscriptionsRow.applyProtobuf, without_times.
  cbn [dspb.Subscription.Id dspb.Subscription.Owner dspb.Subscription.Callbacks
       dspb.Subscription.Begins dspb.Subscription.Expires].
  rewrite Hb, He. reflexivity.
Qed.

(** X10: the error of applyProtobuf is dropped by insertSubscription and
    by updateSubscription.  A message whose begin time is not a valid
    timestamp is handled, without any error of its own, exactly as the
    message without its time bounds: the end time is not read either. *)
Theorem invalid_begin_is_dropped
        (db : RowStore.DB) (now : time_Time)
        (subscription : dspb.Subscription.t) (cells : s2.CellUnion)
        (ts : ptypes.Timestamp) (e : Err) :
  dspb.Subscription.Begins subscription = Some ts ->
  ptypes.Timestamp_ ts = inl e ->
  RowStore.insertSubscription db now subscription cells
  = RowStore.insertSubscription db now (without_times subscription) cells
  /\ RowStore.updateSubscription db now subscription cells
     = RowStore.updateSubscription db now (without_times subscription) cells.
Proof.
  intros Hb He. split.
  - unfold RowStore.insertSubscription.
    rewrite (applyProtobuf_bad_begin _ _ _ _ Hb He). reflexivity.
  - unfold RowStore.updateSubscription.
    cbn [Sql.Query Sql.Begin Sql.status Sql.working].
    change (dspb.Subscription.Id (without_times subscription))
      with (dspb.Subscription.Id subscription).
    change (dspb.Subscription.Version (without_times subscription))
      with (dspb.Subscription.Version subscription).
    destruct (RowStore.scan_row _) as [err | sr]; [reflexivity |].
    rewrite (applyProtobuf_bad_begin _ _ _ _ Hb He). reflexivity.
Qed.

Lemma invalid_begin_is_dropped_witness :
  RowStore.insertSubscription
    Scenario.row_empty_db Scenario.T0 Scenario.msg_B_bad_begin [42]
  = RowStore.insertSubscription
      Scenario.row_empty_db Scenario.T0
      (without_times Scenario.msg_B_bad_begin) [42].
Proof.
  apply (invalid_begin_is_dropped
           Scenario.row_empty_db Scenario.T0 Scenario.msg_B_bad_begin [42]
           (ptypes.mkTimestamp (-62135596801) 0) ErrTimestamp).
  - reflexivity.
  - vm_compute. reflexivity.
Defined.

(** X11: a subscription that insertSubscription has committed is read
    back by GetSubscription as the same wire message, and the read
    commits without changing the tables. *)
Theorem GetSubscription_after_insert
        (db : RowStore.DB) (now : time_Time)
        (subscription : dspb.Subscription.t) (cells : s2.CellUnion)
        (pb : dspb.Subscription.t) (tx : Sql.Tx RowStore.DB) :
  RowStore.insertSubscription db now subscription cells = (inr pb, tx) ->
  RowStore.GetSubscription (Sql.persisted tx)
                           (dspb.Subscription.Id subscription)
  = (inr pb,
     Sql.mkTx (Sql.persisted tx) (Sql.persisted tx) Sql.TxCommitted).
Proof.
  intros H. apply insertSubscription_commit in H.
  destruct H as [_ [Hfresh [Hsub [_ [_ [_ [_ [_ Hpb]]]]]]]].
  unfold RowStore.GetSubscription.
  cbn [Sql.Query Sql.Begin Sql.status Sql.working].
  unfold RowStore.getQuery. rewrite Hsub, filter_app.
  assert (Hnone : filter (fun r => String.eqb (RowStore.subscriptionsRow.id r)
                                              (dspb.Subscription.Id
                                                 subscription))
                         (RowStore.subscriptions db) = []).
  { destruct (filter _ (RowStore.subscriptions db)) as [| r rs] eqn:F;
      [reflexivity |].
    exfalso. apply Hfresh.
    assert (Hr : In r (filter
                         (fun r => String.eqb (RowStore.subscriptionsRow.id r)
                                              (dspb.Subscription.Id
                                                 subscription))
                         (RowStore.subscriptions db)))
      by (rewrite F; now left).
    apply filter_In in Hr. destruct Hr as [Hr Hid].
    apply String.eqb_eq in Hid. rewrite <- Hid. now apply in_map. }
  rewrite Hnone. cbn [app filter].
  rewrite inserted_row_id, String.eqb_refl.
  cbn [RowStore.scan_row]. rewrite Hpb. reflexivity.
Qed.

Lemma GetSubscription_after_insert_witness :
  fst (RowStore.GetSubscription
         (Sql.persisted
            (snd (RowStore.insertSubscription
                    Scenario.row_empty_db Scenario.T0 Scenario.msg_B
                    [42; 84])))
         Scenario.id_S_B)
  = fst (RowStore.insertSubscription
           Scenario.row_empty_db Scenario.T0 Scenario.msg_B [42; 84]).
Proof.
  exact (f_equal fst
           (GetSubscription_after_insert
              Scenario.row_empty_db Scenario.T0 Scenario.msg_B [42; 84]
              _ _ eq_refl)).
Defined.

(** ** The row based store: delete of a subscription *)

Lemma filter_nil_iff {A : Type} (p : A -> bool) (l : list A) :
  filter p l = [] <-> forall x, In x l -> p x = false.
Proof.
  induction l as [| a l IH]; cbn.
  - split; [intros _ x [] | reflexivity].
  - destruct (p a) eqn:Pa.
    + split; [discriminate |]. intros H. specialize (H a (or_introl eq_refl)).
      congruence.
    + rewrite IH. split.
      * intros H x [<- | Hx]; auto.
      * intros H x Hx. apply H. now right.
Qed.

(** The DELETE with its cascade: when its condition only holds of rows
    with the given id, the subscriptions with another id and the index of
    the other entities are untouched, and if a row has been deleted the
    index relates no cell to the id any more. *)
Lemma deleteSubscriptionsWhere_spec
      (hit : RowStore.subscriptionsRow.t -> bool) (id : string)
      (db db' : RowStore.DB) (rows : list RowStore.subscriptionsRow.t) :
  (forall r, hit r = true -> RowStore.subscriptionsRow.id r = id) ->
  RowStore.deleteSubscriptionsWhere hit db = inr (db', rows) ->
  rows = filter hit (RowStore.subscriptions db)
  /\ RowStore.subscriptions db'
     = filter (fun r => negb (hit r)) (RowStore.subscriptions db)
  /\ RowStore.identification_service_areas db'
     = RowStore.identification_service_areas db
  /\ RowStore.cells_identification_service_areas db'
     = RowStore.cells_identification_service_areas db
  /\ (forall c e, e <> id ->
                  (indexed (RowStore.cells_subscriptions db') c e
                   <-> indexed (RowStore.cells_subscriptions db) c e))
  /\ (forall c e, indexed (RowStore.cells_subscriptions db') c e ->
                  indexed (RowStore.cells_subscriptions db) c e)
  /\ (rows <> [] ->
      forall c, ~ indexed (RowStore.cells_subscriptions db') c id).
Proof.
  intros Hhit E. unfold RowStore.deleteSubscriptionsWhere in E.
  injection E as <- <-.
  cbn [RowStore.subscriptions RowStore.cells_subscriptions
       RowStore.identification_service_areas
       RowStore.cells_identification_service_areas].
  unfold Sql.delete_where.
  assert (Hsub : forall c e,
             indexed (filter
                        (fun x =>
                           negb (existsb
                                   (fun r =>
                                      String.eqb
                                        (RowStore.subscriptionsRow.id r)
                                        (Schema.entity_id x))
                                   (filter hit (RowStore.subscriptions db))))
                        (RowStore.cells_subscriptions db)) c e ->
             indexed (RowStore.cells_subscriptions db) c e).
  { intros c e [x [Hx Hk]]. apply filter_In in Hx. exists x. tauto. }
  repeat split; auto.
  - intros [x [Hx [Hc He]]]. exists x. split; [| tauto].
    apply filter_In. split; [exact Hx |].
    apply negb_true_iff.
    destruct (existsb _ _) eqn:Ex; [| reflexivity].
    apply existsb_exists in Ex. destruct Ex as [r [Hr Heq]].
    apply filter_In in Hr. destruct Hr as [_ Hr].
    apply String.eqb_eq in Heq. apply Hhit in Hr. congruence.
  - intros Hne c [x [Hx [Hc He]]].
    apply filter_In in Hx. destruct Hx as [_ Hx].
    apply negb_true_iff in Hx.
    destruct (filter hit (RowStore.subscriptions db)) as [| r rs] eqn:F;
      [congruence |].
    assert (Hr : In r (filter hit (RowStore.subscriptions db)))
      by (rewrite F; now left).
    apply filter_In in Hr. destruct Hr as [_ Hr]. apply Hhit in Hr.
    cbn [existsb] in Hx. rewrite Hr, He, String.eqb_refl in Hx.
    discriminate.
Qed.

(** X12: what a successful DeleteSubscription of the row based store
    has done.  It commits and returns a subscription with the given id;
    the cascade has removed every cell row of that id; the index of the
    other entities, the subscriptions with another id and the tables of
    the service areas are as they were. *)
Theorem row_DeleteSubscription_commit
        (db : RowStore.DB) (id version : string)
        (pb : dspb.Subscription.t) (tx : Sql.Tx RowStore.DB) :
  RowStore.DeleteSubscription db id version = (inr pb, tx) ->
  Sql.status tx = Sql.TxCommitted
  /\ dspb.Subscription.Id pb = id
  /\ (forall c, ~ indexed (RowStore.cells_subscriptions (Sql.persisted tx))
                  c id)
  /\ (forall c e, e <> id ->
                  (indexed (RowStore.cells_subscriptions (Sql.persisted tx))
                           c e
                   <-> indexed (RowStore.cells_subscriptions db) c e))
  /\ (forall r, RowStore.subscriptionsRow.id r <> id ->
                (In r (RowStore.subscriptions (Sql.persisted tx))
                 <-> In r (RowStore.subscriptions db)))
  /\ RowStore.identification_service_areas (Sql.persisted tx)
     = RowStore.identification_service_areas db
  /\ RowStore.cells_identification_service_areas (Sql.persisted tx)
     = RowStore.cells_identification_service_areas db.
Proof.
  unfold RowStore.DeleteSubscription.
  assert (Hmain :
    forall hit : RowStore.subscriptionsRow.t -> bool,
      (forall r, hit r = true -> RowStore.subscriptionsRow.id r = id) ->
      match Sql.Exec (Sql.Begin db) (RowStore.deleteSubscriptionsWhere hit) with
      | (tx0, inl err) => Sql.fail_rollback tx0 err
      | (tx0, inr rows) =>
          match RowStore.scan_row rows with
          | inl err => Sql.fail_rollback tx0 err
          | inr sr =>
              match RowStore.subscriptionsRow.toProtobuf sr with
              | inl err => Sql.fail_rollback tx0 err
              | inr result => Sql.commit_return tx0 result
              end
          end
      end = (inr pb, tx) ->
      Sql.status tx = Sql.TxCommitted
      /\ dspb.Subscription.Id pb = id
      /\ (forall c,
             ~ indexed (RowStore.cells_subscriptions (Sql.persisted tx)) c id)
      /\ (forall c e, e <> id ->
                      (indexed (RowStore.cells_subscriptions (Sql.persisted tx))
                               c e
                       <-> indexed (RowStore.cells_subscriptions db) c e))
      /\ (forall r, RowStore.subscriptionsRow.id r <> id ->
                    (In r (RowStore.subscriptions (Sql.persisted tx))
                     <-> In r (RowStore.subscriptions db)))
      /\ RowStore.identification_service_areas (Sql.persisted tx)
         = RowStore.identification_service_areas db
      /\ RowStore.cells_identification_service_areas (Sql.persisted tx)
         = RowStore.cells_identification_service_areas db).
  { intros hit Hhit. rewrite Exec_open by reflexivity.
    cbn [Sql.working Sql.Begin Sql.persisted].
    destruct (RowStore.deleteSubscriptionsWhere hit db) as [e | [db' rows]]
      eqn:D; [discriminate |].
    apply (deleteSubscriptionsWhere_spec hit id) in D; [| exact Hhit].
    destruct D as [Hrows [Hsub [Hi [Hci [Hframe [_ Hgone]]]]]].
    destruct rows as [| sr rows]; [discriminate |].
    cbn [RowStore.scan_row].
    destruct (RowStore.subscriptionsRow.toProtobuf sr) as [e | pb'] eqn:P;
      [discriminate |].
    rewrite commit_return_open by reflexivity.
    intros E. injection E as <- <-.
    cbn [Sql.status Sql.persisted Sql.working].
    assert (Hsr : hit sr = true).
    { assert (In sr (filter hit (RowStore.subscriptions db)))
        by (rewrite <- Hrows; now left).
      now apply filter_In in H. }
    repeat split; auto.
    - unfold RowStore.subscriptionsRow.toProtobuf in P.
      destruct (RowStore.subscriptionsRow.timestamp_field _);
        [discriminate |].
      destruct (RowStore.subscriptionsRow.timestamp_field _);
        [discriminate |].
      injection P as <-. cbn. now apply Hhit.
    - apply Hgone. discriminate.
    - apply Hframe; assumption.
    - apply Hframe; assumption.
    - rewrite Hsub. intros Hr. now apply filter_In in Hr.
    - rewrite Hsub. intros Hr. apply filter_In. split; [exact Hr |].
      destruct (hit r) eqn:Hh; [| reflexivity].
      apply Hhit in Hh. contradiction. }
  destruct (String.eqb version "").
  - apply Hmain. intros r Hr. now apply String.eqb_eq in Hr.
  - destruct (Versions.versionStringToTimestamp version) as [e | updatedAt];
      [discriminate |].
    apply Hmain. intros r Hr. apply andb_true_iff in Hr.
    now apply String.eqb_eq.
Qed.

Lemma row_DeleteSubscription_commit_witness :
  Sql.status
    (snd (RowStore.DeleteSubscription Scenario.db_two_cells
                                      Scenario.id_S_B ""))
  = Sql.TxCommitted
  /\ RowStore.cells_identification_service_areas
       (Sql.persisted
          (snd (RowStore.DeleteSubscription Scenario.db_two_cells
                                            Scenario.id_S_B "")))
     = RowStore.cells_identification_service_areas Scenario.db_two_cells.
Proof.
  pose proof (row_DeleteSubscription_commit
                Scenario.db_two_cells Scenario.id_S_B "" _ _ eq_refl) as H.
  split; [exact (proj1 H) |].
  exact (proj2 (proj2 (proj2 (proj2 (proj2 (proj2 H)))))).
Defined.

(** X13: a DeleteSubscription of the row based store that carries the
    version of an instant at which no subscription of that id was last
    written returns sql.ErrNoRows after a rollback, as for a missing
    subscription, and the persisted state is unchanged. *)
Theorem row_DeleteSubscription_stale_version
        (db : RowStore.DB) (id : string) (t : time_Time) :
  representable t ->
  (forall r, In r (RowStore.subscriptions db) ->
             RowStore.subscriptionsRow.id r = id ->
             RowStore.subscriptionsRow.updatedAt r <> t) ->
  RowStore.DeleteSubscription db id (Versions.timestampToVersionString t)
  = (inl ErrNoRows, Sql.mkTx db db Sql.TxRolledBack).
Proof.
  intros Ht Hstale. unfold RowStore.DeleteSubscription.
  rewrite (proj2 (String.eqb_neq _ "") (timestampToVersionString_nonempty t)).
  rewrite versionStringToTimestamp_of_version.
  unfold UnixNano. rewrite int64_small by exact Ht.
  rewrite Exec_open by reflexivity.
  unfold RowStore.idempotentQuery, RowStore.deleteSubscriptionsWhere.
  cbn [Sql.working Sql.Begin Sql.persisted].
  assert (Hnone : filter (fun r => String.eqb (RowStore.subscriptionsRow.id r)
                                              id
                                   && (RowStore.subscriptionsRow.updatedAt r
                                       =? t))
                         (RowStore.subscriptions db) = []).
  { apply filter_nil_iff. intros r Hr.
    destruct (String.eqb_spec (RowStore.subscriptionsRow.id r) id) as [E |];
      [| reflexivity].
    cbn [andb]. apply Z.eqb_neq. now apply Hstale. }
  rewrite Hnone. reflexivity.
Qed.

Lemma row_DeleteSubscription_stale_version_witness :
  RowStore.DeleteSubscription
    Scenario.db_two_cells Scenario.id_S_B
    (Versions.timestampToVersionString Scenario.T0)
  = (inl ErrNoRows,
     Sql.mkTx Scenario.db_two_cells Scenario.db_two_cells Sql.TxRolledBack).
Proof.
  apply (row_DeleteSubscription_stale_version
           Scenario.db_two_cells Scenario.id_S_B Scenario.T0).
  - unfold representable, minInt64, maxInt64, Scenario.T0. lia.
  - intros r [<- | []] _. vm_compute. discriminate.
Defined.

(** ** The row based store: delete of a service area *)

Lemma distinct_sound {A : Type} (eqb : A -> A -> bool) (l : list A) (x : A) :
  In x (Sql.distinct eqb l) -> In x l.
Proof.
  induction l as [| y l IH]; cbn; [tauto |].
  destruct (existsb (eqb y) l); cbn; intuition.
Qed.

Lemma distinct_complete {A : Type} (eqb : A -> A -> bool) :
  (forall a b, eqb a b = true -> a = b) ->
  forall (l : list A) (x : A), In x l -> In x (Sql.distinct eqb l).
Proof.
  intros Heq. induction l as [| y l IH]; cbn; [tauto |].
  intros x [<- | Hx].
  - destruct (existsb (eqb y) l) eqn:Ex; [| now left].
    apply existsb_exists in Ex. destruct Ex as [z [Hz E]].
    apply Heq in E. subst z. now apply IH.
  - destruct (existsb (eqb y) l); [| right]; now apply IH.
Qed.

Lemma left_join_null {A B : Type} (on : A -> B -> bool)
      (l : list A) (r : list B) (a : A) :
  In (a, None) (Sql.left_join on l r) <-> In a l /\ filter (on a) r = [].
Proof.
  unfold Sql.left_join. rewrite in_flat_map. split.
  - intros [x [Hx Hin]].
    destruct (filter (on x) r) as [| m ms] eqn:F.
    + destruct Hin as [E | []]. injection E as ->. auto.
    + apply in_map_iff in Hin. destruct Hin as [b [E _]]. discriminate.
  - intros [Ha F]. exists a. split; [exact Ha |]. rewrite F. now left.
Qed.

Lemma scan_affected_null (c : Z) :
  forall (rows : list (Z * option string)) (cells : list Z)
         (subscriptions : list string),
    In (c, None) rows ->
    RowStore.scan_affected rows cells subscriptions = inl ErrScanNull.
Proof.
  induction rows as [| [c' [s |]] rows IH]; intros cells subscriptions Hin.
  - destruct Hin.
  - cbn [RowStore.scan_affected]. apply IH.
    destruct Hin as [E | Hin]; [discriminate | exact Hin].
  - reflexivity.
Qed.

Lemma scan_affected_some :
  forall (rows : list (Z * option string)) (cells : list Z)
         (subscriptions : list string),
    (forall c, ~ In (c, None) rows) ->
    exists cells' subscriptions',
      RowStore.scan_affected rows cells subscriptions
      = inr (cells', subscriptions').
Proof.
  induction rows as [| [c' [s |]] rows IH]; intros cells subscriptions Hno.
  - cbn. eauto.
  - cbn [RowStore.scan_affected]. apply IH.
    intros c Hc. apply (Hno c). now right.
  - exfalso. apply (Hno c'). now left.
Qed.

(** The rows of getAffectedCellsAndSubscriptions with a NULL are the
    cells of the area to which the index of the subscriptions relates no
    subscription. *)
Lemma getAffectedCellsAndSubscriptions_null
      (id : string) (db : RowStore.DB) (c : Z) :
  In (c, None) (RowStore.getAffectedCellsAndSubscriptions id db)
  <-> exists x, In x (RowStore.cells_identification_service_areas db)
                /\ Schema.entity_id x = id
                /\ Schema.cell_id x = c
                /\ forall e,
                    ~ indexed (RowStore.cells_subscriptions db) c e.
Proof.
  unfold RowStore.getAffectedCellsAndSubscriptions.
  rewrite in_map_iff. split.
  - intros [[x [a |]] [E Hin]]; cbn in E; [discriminate |].
    injection E as <-.
    apply filter_In in Hin. destruct Hin as [Hin Hid].
    cbn [fst] in Hid. apply String.eqb_eq in Hid.
    apply left_join_null in Hin. destruct Hin as [Hx F].
    exists x. repeat split; auto.
    intros e [row [Hrow [Hc He]]].
    rewrite filter_nil_iff in F.
    specialize (F (Schema.cell_id row, Schema.entity_id row)).
    cbn [fst] in F. rewrite Hc, Z.eqb_refl in F.
    assert (true = false); [| discriminate].
    apply F. apply distinct_complete.
    + intros [a1 a2] [b1 b2] H. cbn [fst snd] in H.
      apply andb_true_iff in H. destruct H as [H1 H2].
      apply Z.eqb_eq in H1. apply String.eqb_eq in H2. congruence.
    + apply in_map_iff. exists row. split; [congruence | exact Hrow].
  - intros [x [Hx [Hid [Hc Hnone]]]].
    exists (x, None). cbn [fst snd option_map]. split; [now rewrite Hc |].
    apply filter_In. cbn [fst]. split; [| now apply String.eqb_eq].
    apply left_join_null. split; [exact Hx |].
    apply filter_nil_iff. intros [c' e'] Hin. cbn [fst].
    apply distinct_sound in Hin. apply in_map_iff in Hin.
    destruct Hin as [row [E Hrow]]. injection E as <- <-.
    apply Z.eqb_neq. intros Heq.
    apply (Hnone (Schema.entity_id row)).
    exists row. repeat split; [exact Hrow | congruence].
Qed.

(** X14: DeleteIdentificationServiceArea fails when the area covers a
    cell in which nobody has a subscription.  The left join gives that
    cell a NULL subscription id, the scan of a NULL into a Go string is an
    error, and the function returns it after a rollback: the area is not
    deleted. *)
Theorem DeleteIdentificationServiceArea_unsubscribed_cell
        (db : RowStore.DB) (now : time_Time) (id owner : string)
        (x : Schema.CellRow) :
  In x (RowStore.cells_identification_service_areas db) ->
  Schema.entity_id x = id ->
  (forall e, ~ indexed (RowStore.cells_subscriptions db)
               (Schema.cell_id x) e) ->
  RowStore.DeleteIdentificationServiceArea db now id owner
  = (inl ErrScanNull, Sql.mkTx db db Sql.TxRolledBack).
Proof.
  intros Hx Hid Hnone. unfold RowStore.DeleteIdentificationServiceArea.
  cbn [Sql.Query Sql.Begin Sql.status Sql.working].
  rewrite (scan_affected_null (Schema.cell_id x)); [reflexivity |].
  apply getAffectedCellsAndSubscriptions_null. exists x. auto.
Qed.

Lemma DeleteIdentificationServiceArea_unsubscribed_cell_witness :
  RowStore.DeleteIdentificationServiceArea
    Scenario.db_unsubscribed_cell Scenario.T0 Scenario.id_I_A "A"
  = (inl ErrScanNull,
     Sql.mkTx Scenario.db_unsubscribed_cell Scenario.db_unsubscribed_cell
              Sql.TxRolledBack).
Proof.
  apply (DeleteIdentificationServiceArea_unsubscribed_cell
           Scenario.db_unsubscribed_cell Scenario.T0 Scenario.id_I_A "A"
           (Schema.mkCellRow 84 29 Scenario.id_I_A
                             (Scenario.T0 - Scenario.minute))).
  - right. left. reflexivity.
  - reflexivity.
  - intros e [row [[<- | []] [Hc _]]]. vm_compute in Hc. discriminate.
Defined.

(** X15: when every cell of the area carries a subscription and no
    stored area has the id and the owner given (the area is missing, or is
    owned by someone else), DeleteIdentificationServiceArea rolls back
    after the DELETE, drops that error and goes on: the error returned is
    the one of the next query on the finished transaction, combined with
    the one of the second rollback, and nothing is changed. *)
Theorem DeleteIdentificationServiceArea_not_owner
        (db : RowStore.DB) (now : time_Time) (id owner : string) :
  (forall x, In x (RowStore.cells_identification_service_areas db) ->
             Schema.entity_id x = id ->
             exists e, indexed (RowStore.cells_subscriptions db)
                               (Schema.cell_id x) e) ->
  (forall r, In r (RowStore.identification_service_areas db) ->
             RowStore.identificationServiceAreaRow.id r = id ->
             RowStore.identificationServiceAreaRow.owner r <> owner) ->
  RowStore.DeleteIdentificationServiceArea db now id owner
  = (inl (Combined ErrTxDone ErrTxDone), Sql.mkTx db db Sql.TxRolledBack).
Proof.
  intros Hsub Hown. unfold RowStore.DeleteIdentificationServiceArea.
  cbn [Sql.Query Sql.Begin Sql.status Sql.working].
  destruct (scan_affected_some
              (RowStore.getAffectedCellsAndSubscriptions id db) [] [])
    as [cells [subscriptions ->]].
  { intros c Hc. apply getAffectedCellsAndSubscriptions_null in Hc.
    destruct Hc as [x [Hx [Hid [Hcell Hnone]]]].
    destruct (Hsub x Hx Hid) as [e He]. apply (Hnone e). now rewrite <- Hcell. }
  cbn [Sql.Exec Sql.Begin Sql.status Sql.working Sql.persisted
       RowStore.deleteIdentificationServiceAreaQuery].
  cbv zeta.
  assert (Hnone : filter
                    (fun r =>
                       String.eqb (RowStore.identificationServiceAreaRow.id r)
                                  id
                       && String.eqb
                            (RowStore.identificationServiceAreaRow.owner r)
                            owner)
                    (RowStore.identification_service_areas db) = []).
  { apply filter_nil_iff. intros r Hr.
    destruct (String.eqb_spec (RowStore.identificationServiceAreaRow.id r) id)
      as [E |]; [| reflexivity].
    cbn [andb]. apply String.eqb_neq. now apply Hown. }
  rewrite Hnone. reflexivity.
Qed.

Lemma DeleteIdentificationServiceArea_not_owner_witness :
  RowStore.DeleteIdentificationServiceArea
    Scenario.db_cross_owner Scenario.T0 Scenario.id_I_A "B"
  = (inl (Combined ErrTxDone ErrTxDone),
     Sql.mkTx Scenario.db_cross_owner Scenario.db_cross_owner
              Sql.TxRolledBack).
Proof.
  apply (DeleteIdentificationServiceArea_not_owner
           Scenario.db_cross_owner Scenario.T0 Scenario.id_I_A "B").
  - intros x [<- | []] _. exists Scenario.id_S_B.
    eexists. split; [left; reflexivity |]. split; reflexivity.
  - intros r [<- | []] _. vm_compute. discriminate.
Defined.

Lemma indexed_somewhere (t : list Schema.CellRow) (c : Z) :
  (exists e, indexed t c e) \/ (forall e, ~ indexed t c e).
Proof.
  destruct (existsb (fun row => Schema.cell_id row =? c) t) eqn:Ex.
  - left. apply existsb_exists in Ex. destruct Ex as [row [Hrow Hc]].
    apply Z.eqb_eq in Hc. exists (Schema.entity_id row), row. auto.
  - right. intros e [row [Hrow [Hc _]]].
    assert (existsb (fun row => Schema.cell_id row =? c) t = true);
      [| congruence].
    apply existsb_exists. exists row. split; [exact Hrow |].
    now apply Z.eqb_eq.
Qed.

(** X16: what a successful DeleteIdentificationServiceArea has done.  It
    commits and returns an area with the id and the owner given; the
    stored areas are those of before without the ones of that id and
    owner; the cascade has removed every cell row of the id and no cell
    row of another area; and every cell of the deleted area carried a
    subscription, since the function fails otherwise. *)
Theorem DeleteIdentificationServiceArea_commit
        (db : RowStore.DB) (now : time_Time) (id owner : string)
        (isa : dspb.IdentificationServiceArea.t)
        (subscribers : list dspb.SubscriberToNotify.t)
        (tx : Sql.Tx RowStore.DB) :
  RowStore.DeleteIdentificationServiceArea db now id owner
  = (inr (isa, subscribers), tx) ->
  Sql.status tx = Sql.TxCommitted
  /\ dspb.IdentificationServiceArea.Id isa = id
  /\ dspb.IdentificationServiceArea.Owner isa = owner
  /\ (forall r,
         In r (RowStore.identification_service_areas (Sql.persisted tx))
         <-> In r (RowStore.identification_service_areas db)
             /\ ~ (RowStore.identificationServiceAreaRow.id r = id
                   /\ RowStore.identificationServiceAreaRow.owner r = owner))
  /\ (forall c,
         ~ indexed (RowStore.cells_identification_service_areas
                      (Sql.persisted tx)) c id)
  /\ (forall c e, e <> id ->
                  (indexed (RowStore.cells_identification_service_areas
                              (Sql.persisted tx)) c e
                   <-> indexed (RowStore.cells_identification_service_areas db)
                               c e))
  /\ (forall c,
         indexed (RowStore.cells_identification_service_areas db) c id ->
         exists e, indexed (RowStore.cells_subscriptions db) c e).
Proof.
  unfold RowStore.DeleteIdentificationServiceArea.
  cbn [Sql.Query Sql.Begin Sql.status Sql.working].
  destruct (RowStore.scan_affected _ [] []) as [e | [cells subscriptions]]
    eqn:Scan; [cbn; discriminate |].
  cbn [Sql.Exec Sql.Begin Sql.status Sql.working Sql.persisted
       RowStore.deleteIdentificationServiceAreaQuery].
  cbv zeta.
  set (hit := fun r =>
                String.eqb (RowStore.identificationServiceAreaRow.id r) id
                && String.eqb (RowStore.identificationServiceAreaRow.owner r)
                              owner).
  assert (Hhit : forall r, hit r = true
                           <-> RowStore.identificationServiceAreaRow.id r = id
                               /\ RowStore.identificationServiceAreaRow.owner r
                                  = owner).
  { intros r. unfold hit. rewrite andb_true_iff, !String.eqb_eq. tauto. }
  destruct (filter hit (RowStore.identification_service_areas db))
    as [| isar deleted] eqn:F; cbn [RowStore.scan_row].
  - cbn. discriminate.
  - cbn [Sql.Query Sql.status Sql.working].
    destruct (RowStore.identificationServiceAreaRow.toProtobuf isar)
      as [e | isa'] eqn:P; [cbn; discriminate |].
    rewrite subscribers_toProtobuf_map.
    rewrite commit_return_open by reflexivity.
    intros E. injection E as <- _ <-.
    cbn [Sql.status Sql.persisted Sql.working
         RowStore.identification_service_areas
         RowStore.cells_identification_service_areas].
    assert (Hisar : hit isar = true).
    { assert (H : In isar (filter hit (RowStore.identification_service_areas
                                         db)))
        by (rewrite F; now left).
      now apply filter_In in H. }
    apply Hhit in Hisar. destruct Hisar as [Hid Hown].
    assert (Hdel : forall r, In r (isar :: deleted) ->
                             RowStore.identificationServiceAreaRow.id r = id).
    { intros r Hr. rewrite <- F in Hr. apply filter_In in Hr.
      destruct Hr as [_ Hr]. now apply Hhit in Hr. }
    unfold RowStore.identificationServiceAreaRow.toProtobuf in P.
    destruct (ptypes.TimestampProto _); [discriminate |].
    destruct (ptypes.TimestampProto _); [discriminate |].
    injection P as <-.
    cbn [dspb.IdentificationServiceArea.Id
         dspb.IdentificationServiceArea.Owner].
    split; [reflexivity |]. split; [exact Hid |]. split; [exact Hown |].
    split; [| split; [| split]].
    + intros r. unfold Sql.delete_where. rewrite filter_In.
      rewrite negb_true_iff, <- not_true_iff_false, Hhit. tauto.
    + intros c [x [Hx [_ He]]]. unfold Sql.delete_where in Hx.
      apply filter_In in Hx. destruct Hx as [_ Hx].
      apply negb_true_iff in Hx. cbn [existsb] in Hx.
      rewrite Hid, He, String.eqb_refl in Hx. discriminate.
    + intros c e Hne. unfold Sql.delete_where. split.
      * intros [x [Hx Hk]]. apply filter_In in Hx. exists x. tauto.
      * intros [x [Hx [Hc He]]]. exists x. split; [| tauto].
        apply filter_In. split; [exact Hx |].
        apply negb_true_iff.
        apply not_true_iff_false. intros Ex.
        apply orb_true_iff in Ex. destruct Ex as [Heq | Ex].
        { apply String.eqb_eq in Heq. congruence. }
        apply existsb_exists in Ex. destruct Ex as [r [Hr Heq]].
        apply String.eqb_eq in Heq.
        assert (RowStore.identificationServiceAreaRow.id r = id)
          by (apply Hdel; now right).
        congruence.
    + intros c [x [Hx [Hc He]]].
      destruct (indexed_somewhere (RowStore.cells_subscriptions db) c)
        as [Hsome | Hnone]; [exact Hsome |].
      rewrite (scan_affected_null c) in Scan; [discriminate |].
      apply getAffectedCellsAndSubscriptions_null. exists x. auto.
Qed.

Lemma DeleteIdentificationServiceArea_commit_witness :
  Sql.status
    (snd (RowStore.DeleteIdentificationServiceArea
            Scenario.db_cross_owner Scenario.T0 Scenario.id_I_A "A"))
  = Sql.TxCommitted
  /\ exists e, indexed (RowStore.cells_subscriptions Scenario.db_cross_owner)
                       42 e.
Proof.
  pose proof (DeleteIdentificationServiceArea_commit
                Scenario.db_cross_owner Scenario.T0 Scenario.id_I_A "A"
                _ _ _ eq_refl) as H.
  split; [exact (proj1 H) |].
  apply (proj2 (proj2 (proj2 (proj2 (proj2 (proj2 H)))))).
  eexists. split; [left; reflexivity |]. split; reflexivity.
Defined.

(** ** The row based store: what a committed update has written *)

Lemma row_upsert_subscription (r x : RowStore.subscriptionsRow.t)
      (t : list RowStore.subscriptionsRow.t) :
  (In x (Sql.upsert RowStore.same_subscription r t) ->
   RowStore.subscriptionsRow.id x = RowStore.subscriptionsRow.id r -> x = r)
  /\ (RowStore.subscriptionsRow.id x <> RowStore.subscriptionsRow.id r ->
      (In x (Sql.upsert RowStore.same_subscription r t) <-> In x t)).
Proof.
  unfold Sql.upsert, RowStore.same_subscription.
  destruct (existsb _ t) eqn:Ex.
  - split.
    + intros Hin Hid. apply in_map_iff in Hin. destruct Hin as [y [E Hy]].
      destruct (String.eqb_spec (RowStore.subscriptionsRow.id r)
                                (RowStore.subscriptionsRow.id y));
        congruence.
    + intros Hne. rewrite in_map_iff. split.
      * intros [y [E Hy]].
        destruct (String.eqb_spec (RowStore.subscriptionsRow.id r)
                                  (RowStore.subscriptionsRow.id y));
          congruence.
      * intros Hx. exists x. split; [| exact Hx].
        destruct (String.eqb_spec (RowStore.subscriptionsRow.id r)
                                  (RowStore.subscriptionsRow.id x));
          congruence.
  - assert (Hno : forall y, In y t ->
                            RowStore.subscriptionsRow.id y
                            <> RowStore.subscriptionsRow.id r).
    { intros y Hy E. apply not_true_iff_false in Ex. apply Ex.
      apply existsb_exists. exists y. split; [exact Hy |].
      now apply String.eqb_eq. }
    split.
    + intros Hin Hid. apply in_app_iff in Hin.
      destruct Hin as [Hin | [<- | []]]; [| reflexivity].
      now apply Hno in Hin.
    + intros Hne. rewrite in_app_iff. split; [| tauto].
      intros [Hx | [<- | []]]; [exact Hx | congruence].
Qed.

(** The loop of updateSubscription over the cells: when it ends without
    an error it has related each cell to the subscription and changed
    nothing else. *)
Lemma row_upsert_cells_spec (sid : string) (now : time_Time) :
  forall (cells : s2.CellUnion) (tx tx' : Sql.Tx RowStore.DB),
    Sql.status tx = Sql.TxOpen ->
    RowStore.upsert_cells tx cells sid now = (tx', None) ->
    Sql.status tx' = Sql.TxOpen
    /\ Sql.persisted tx' = Sql.persisted tx
    /\ RowStore.subscriptions (Sql.working tx')
       = RowStore.subscriptions (Sql.working tx)
    /\ RowStore.identification_service_areas (Sql.working tx')
       = RowStore.identification_service_areas (Sql.working tx)
    /\ RowStore.cells_identification_service_areas (Sql.working tx')
       = RowStore.cells_identification_service_areas (Sql.working tx)
    /\ forall c e,
        indexed (RowStore.cells_subscriptions (Sql.working tx')) c e
        <-> indexed (RowStore.cells_subscriptions (Sql.working tx)) c e
            \/ (e = sid /\ In c cells).
Proof.
  induction cells as [| cell cells IH]; intros tx tx' Hopen Hrun.
  - cbn in Hrun. injection Hrun as <-. repeat split; auto.
    intros [H | [_ []]]. exact H.
  - cbn [RowStore.upsert_cells] in Hrun.
    unfold Schema.driver_ConvertValue in Hrun.
    destruct (cell >=? 2 ^ 63); [discriminate |].
    rewrite Exec_open in Hrun by exact Hopen.
    unfold RowStore.subscriptionCellQuery, Schema.upsert_cell in Hrun.
    destruct (Schema.check_cell_level _ && existsb _ _); [| discriminate].
    apply IH in Hrun; [| reflexivity].
    destruct Hrun as [Hs [Hp [H1 [H2 [H3 Hidx]]]]].
    cbn [Sql.working Sql.persisted RowStore.subscriptions
         RowStore.cells_subscriptions RowStore.identification_service_areas
         RowStore.cells_identification_service_areas] in *.
    repeat split; auto.
    + intros H. apply Hidx in H. rewrite indexed_upsert in H.
      cbn [Schema.cell_id Schema.entity_id] in H.
      destruct H as [[H | [-> ->]] | [-> H]];
        [ now left
        | right; split; [reflexivity | now left]
        | right; split; [reflexivity | now right] ].
    + intros H. apply Hidx. rewrite indexed_upsert.
      cbn [Schema.cell_id Schema.entity_id].
      destruct H as [H | [He [Hc | Hc]]];
        [ left; now left
        | left; right; split; [symmetry; exact Hc | exact He]
        | right; auto ].
Qed.

(** X17: what a committed updateSubscription has written.  Some stored
    row had the id of the message and passed the version check; the owner
    of that row is compared with nothing: the owner of the message, when it
    is not empty, replaces it.  The stored rows of the id carry that owner
    and the time of the transaction, which is the version returned; the
    rows of the other ids are as before; and the index of the subscriptions
    is the one of before with each of the cells related to the id: nothing
    is removed from it. *)
Theorem updateSubscription_commit
        (db : RowStore.DB) (now : time_Time)
        (subscription : dspb.Subscription.t) (cells : s2.CellUnion)
        (pb : dspb.Subscription.t) (tx : Sql.Tx RowStore.DB) :
  RowStore.updateSubscription db now subscription cells = (inr pb, tx) ->
  Sql.status tx = Sql.TxCommitted
  /\ dspb.Subscription.Id pb = dspb.Subscription.Id subscription
  /\ dspb.Subscription.Version pb = Versions.timestampToVersionString now
  /\ (exists sr,
         In sr (RowStore.subscriptions db)
         /\ RowStore.subscriptionsRow.id sr = dspb.Subscription.Id subscription
         /\ RowStore.subscriptionsRow.versionOK
              sr (dspb.Subscription.Version subscription) = true
         /\ overlaid_string (dspb.Subscription.Owner subscription)
                            (RowStore.subscriptionsRow.owner sr)
                            (dspb.Subscription.Owner pb)
         /\ dspb.Subscription.NotificationIndex pb
            = RowStore.subscriptionsRow.notificationIndex sr)
  /\ (forall r, In r (RowStore.subscriptions (Sql.persisted tx)) ->
                RowStore.subscriptionsRow.id r
                = dspb.Subscription.Id subscription ->
                RowStore.subscriptionsRow.owner r = dspb.Subscription.Owner pb
                /\ RowStore.subscriptionsRow.updatedAt r = now)
  /\ (forall r, RowStore.subscriptionsRow.id r
                <> dspb.Subscription.Id subscription ->
                (In r (RowStore.subscriptions (Sql.persisted tx))
                 <-> In r (RowStore.subscriptions db)))
  /\ (forall c e,
         indexed (RowStore.cells_subscriptions (Sql.persisted tx)) c e
         <-> indexed (RowStore.cells_subscriptions db) c e
             \/ (e = dspb.Subscription.Id subscription /\ In c cells)).
Proof.
  unfold RowStore.updateSubscription.
  cbn [Sql.Query Sql.Begin Sql.status Sql.working].
  destruct (RowStore.getQuery _ db) as [| sr rest] eqn:G; [discriminate |].
  cbn [RowStore.scan_row].
  assert (Hsr : In sr (RowStore.subscriptions db)
                /\ RowStore.subscriptionsRow.id sr
                   = dspb.Subscription.Id subscription).
  { assert (H : In sr (RowStore.getQuery (dspb.Subscription.Id subscription)
                                         db))
      by (rewrite G; now left).
    unfold RowStore.getQuery in H. apply filter_In in H.
    now rewrite String.eqb_eq in H. }
  destruct Hsr as [Hin Hid].
  destruct (RowStore.subscriptionsRow.versionOK sr _) eqn:V;
    [| discriminate].
  cbn [negb].
  cbn [Sql.Exec Sql.Begin Sql.status Sql.working Sql.persisted].
  unfold RowStore.updateQuery.
  destruct (Schema.check_time_order _ _); [| discriminate].
  cbn [RowStore.scan_row].
  pose proof (applyProtobuf_id_owner_url sr subscription) as Hov.
  pose proof (applyProtobuf_frame sr subscription) as Hfr.
  cbv zeta in Hov, Hfr.
  set (sr' := fst (RowStore.subscriptionsRow.applyProtobuf sr subscription))
    in *.
  destruct Hov as [Hoid [Hoown _]]. destruct Hfr as [_ [Hni _]].
  assert (Hid' : RowStore.subscriptionsRow.id sr'
                 = dspb.Subscription.Id subscription).
  { unfold overlaid_string in Hoid.
    destruct (String.eqb _ ""); congruence. }
  destruct (RowStore.upsert_cells _ _ _ _) as [tx2 [e |]] eqn:L;
    [destruct tx2 as [p w []]; discriminate |].
  apply row_upsert_cells_spec in L; [| reflexivity].
  destruct L as [Hs [Hp [H1 [H2 [H3 Hidx]]]]].
  cbn [Sql.working Sql.persisted RowStore.subscriptions
       RowStore.cells_subscriptions RowStore.subscriptionsRow.id
       RowStore.subscriptionsRow.set_updatedAt] in H1, Hidx.
  destruct (RowStore.subscriptionsRow.toProtobuf _) as [e | pb'] eqn:P;
    [discriminate |].
  rewrite commit_return_open by exact Hs.
  intros E. injection E as <- <-.
  cbn [Sql.status Sql.persisted].
  unfold RowStore.subscriptionsRow.toProtobuf in P.
  destruct (RowStore.subscriptionsRow.timestamp_field _); [discriminate |].
  destruct (RowStore.subscriptionsRow.timestamp_field _); [discriminate |].
  injection P as <-.
  cbn [dspb.Subscription.Id dspb.Subscription.Owner
       dspb.Subscription.Version dspb.Subscription.NotificationIndex
       RowStore.subscriptionsRow.id RowStore.subscriptionsRow.owner
       RowStore.subscriptionsRow.updatedAt
       RowStore.subscriptionsRow.notificationIndex
       RowStore.subscriptionsRow.set_updatedAt].
  split; [reflexivity |]. split; [exact Hid' |]. split; [reflexivity |].
  split; [exists sr; auto |].
  rewrite H1. rewrite Hid' in Hidx.
  split; [| split; [| exact Hidx]].
  - intros r Hr Hrid.
    apply (proj1 (row_upsert_subscription _ r _)) in Hr;
      [| cbn [RowStore.subscriptionsRow.id
              RowStore.subscriptionsRow.set_updatedAt]; congruence].
    subst r. split; reflexivity.
  - intros r Hne.
    apply (proj2 (row_upsert_subscription _ r _)).
    cbn [RowStore.subscriptionsRow.id
         RowStore.subscriptionsRow.set_updatedAt]. congruence.
Qed.

Lemma updateSubscription_commit_witness :
  exists pb tx,
    RowStore.updateSubscription Scenario.db_two_cells Scenario.T0
                                Scenario.takeover_patch [126]
    = (inr pb, tx)
    /\ Sql.status tx = Sql.TxCommitted
    /\ overlaid_string "X" "B" (dspb.Subscription.Owner pb).
Proof.
  eexists. eexists. split; [vm_compute; reflexivity |].
  pose proof (updateSubscription_commit
                Scenario.db_two_cells Scenario.T0 Scenario.takeover_patch
                [126] _ _ eq_refl) as H.
  split; [exact (proj1 H) |].
  destruct H as [_ [_ [_ [[sr [[<- | []] [_ [_ [Hov _]]]]] _]]]].
  exact Hov.
Defined.

(** ** The store of the models: insert, get, update, delete and search *)

(** The result of a fetch of one subscription by a SELECT: no row is
    sql.ErrNoRows, more than one is an error. *)
Lemma fetchSubscription_select_result
      (db : SubscriptionStore.DB)
      (f : SubscriptionStore.DB -> list SubscriptionStore.subscriptions_row) :
  snd (SubscriptionStore.fetchSubscription
         (Sql.Begin db) (SubscriptionStore.select f))
  = match f db with
    | [] => inl ErrNoRows
    | [r] => inr (SubscriptionStore.scan r)
    | l => inl (ErrManyRows (List.length l))
    end.
Proof.
  unfold SubscriptionStore.fetchSubscription,
    SubscriptionStore.fetchSubscriptions, SubscriptionStore.select.
  cbn [Sql.Exec Sql.Begin Sql.status Sql.working Sql.persisted].
  destruct (f db) as [| r [| r' l]]; [reflexivity | reflexivity |].
  cbn [map List.length Nat.ltb Nat.leb snd]. now rewrite length_map.
Qed.

(** Under the primary key, the rows with the id of a stored row are that
    row alone. *)
Lemma filter_unique_id (l : list SubscriptionStore.subscriptions_row)
      (r : SubscriptionStore.subscriptions_row) :
  NoDup (map SubscriptionStore.id l) ->
  In r l ->
  filter (fun x => String.eqb (SubscriptionStore.id x)
                              (SubscriptionStore.id r)) l = [r].
Proof.
  induction l as [| a l IH]; intros Hnd Hin; [destruct Hin |].
  cbn [map] in Hnd. inversion Hnd as [| ? ? Hnotin Hnd']; subst.
  cbn [filter]. destruct Hin as [-> | Hin].
  - rewrite String.eqb_refl. f_equal.
    apply filter_nil_iff. intros x Hx. apply String.eqb_neq. intros E.
    apply Hnotin. rewrite <- E. now apply in_map.
  - destruct (String.eqb_spec (SubscriptionStore.id a)
                              (SubscriptionStore.id r)) as [E |].
    + exfalso. apply Hnotin. rewrite E. now apply in_map.
    + now apply IH.
Qed.

(** X18: what a successful InsertSubscription has done.  It commits; no
    stored subscription had the id; the row written, stamped with the time
    of the transaction, is added to the stored ones; the index relates the
    id to the declared cells exactly and is unchanged for the other ids;
    and GetSubscription of the id now returns the subscription that the
    insert returned, without its cells. *)
Theorem InsertSubscription_commit_and_get
        (db : SubscriptionStore.DB) (now : time_Time)
        (s s' : models.Subscription.t) (tx : Sql.Tx SubscriptionStore.DB) :
  SubscriptionStore.InsertSubscription db now s = (inr s', tx) ->
  Sql.status tx = Sql.TxCommitted
  /\ s' = SubscriptionStore.set_Cells
            (SubscriptionStore.scan (pushed_row s now))
            (models.Subscription.Cells s)
  /\ (forall r, In r (SubscriptionStore.subscriptions db) ->
                SubscriptionStore.id r <> models.Subscription.ID s)
  /\ SubscriptionStore.subscriptions (Sql.persisted tx)
     = SubscriptionStore.subscriptions db ++ [pushed_row s now]
  /\ (forall c e,
         indexed (SubscriptionStore.cells_subscriptions (Sql.persisted tx)) c e
         <-> (e = models.Subscription.ID s
              /\ In c (map int64 (SubscriptionStore.cells_of
                                    (models.Subscription.Cells s))))
             \/ (e <> models.Subscription.ID s
                 /\ indexed (SubscriptionStore.cells_subscriptions db) c e))
  /\ SubscriptionStore.GetSubscription (Sql.persisted tx)
                                       (models.Subscription.ID s)
     = inr (SubscriptionStore.set_Cells s' None).
Proof.
  rewrite InsertSubscription_cases.
  unfold SubscriptionStore.GetSubscription,
    SubscriptionStore.fetchSubscriptionByID.
  rewrite !fetchSubscription_select_result.
  destruct (filter _ (SubscriptionStore.subscriptions db))
    as [| r0 [| r1 l]] eqn:F; try discriminate.
  rewrite filter_nil_iff in F.
  assert (Hnone : forall r, In r (SubscriptionStore.subscriptions db) ->
                            SubscriptionStore.id r
                            <> models.Subscription.ID s).
  { intros r Hr. apply String.eqb_neq. now apply F. }
  destruct (SubscriptionStore.pushSubscription (Sql.Begin db) now s)
    as [q' [e | s1]] eqn:P; [discriminate |].
  apply pushSubscription_ok in P; [| reflexivity].
  destruct P as [Hs [Hp [Hs1 [Hsub Hidx]]]].
  rewrite commit_return_open by exact Hs.
  intros E. injection E as <- <-.
  cbn [Sql.status Sql.persisted].
  assert (Hadd : SubscriptionStore.subscriptions (Sql.working q')
                 = SubscriptionStore.subscriptions db ++ [pushed_row s now]).
  { rewrite Hsub. cbn [Sql.working Sql.Begin]. unfold Sql.upsert.
    destruct (existsb _ _) eqn:Ex; [| reflexivity].
    apply existsb_exists in Ex. destruct Ex as [r [Hr E]].
    unfold SubscriptionStore.same_subscription in E.
    apply String.eqb_eq in E. cbn in E. symmetry in E.
    now apply Hnone in Hr. }
  split; [reflexivity |]. split; [exact Hs1 |]. split; [exact Hnone |].
  split; [exact Hadd |]. split; [exact Hidx |].
  rewrite Hadd, filter_app.
  rewrite (proj2 (filter_nil_iff _ _) F).
  cbn [filter app pushed_row SubscriptionStore.id].
  rewrite String.eqb_refl. subst s1. reflexivity.
Qed.

Lemma InsertSubscription_commit_and_get_witness :
  Sql.status
    (snd (SubscriptionStore.InsertSubscription
            Scenario.empty_db Scenario.T0 Scenario.sub_B))
  = Sql.TxCommitted
  /\ SubscriptionStore.GetSubscription Scenario.db_sub_B Scenario.id_S_B
     = inr (models.Subscription.mk Scenario.id_S_B "https://b/isa" 0 "B" None
                                   None None (Some Scenario.T0)).
Proof.
  pose proof (InsertSubscription_commit_and_get
                Scenario.empty_db Scenario.T0 Scenario.sub_B _ _ eq_refl)
    as H.
  split; [exact (proj1 H) |].
  exact (proj2 (proj2 (proj2 (proj2 (proj2 H))))).
Defined.

(** X19: with ids that are unique, as the primary key makes them, an
    InsertSubscription of a subscription whose id is stored returns
    AlreadyExists with that id after a rollback: nothing is written,
    whoever the owner of the stored subscription is. *)
Theorem InsertSubscription_already_exists
        (db : SubscriptionStore.DB) (now : time_Time)
        (s : models.Subscription.t)
        (r : SubscriptionStore.subscriptions_row) :
  NoDup (map SubscriptionStore.id (SubscriptionStore.subscriptions db)) ->
  In r (SubscriptionStore.subscriptions db) ->
  SubscriptionStore.id r = models.Subscription.ID s ->
  SubscriptionStore.InsertSubscription db now s
  = (inl (AlreadyExists (models.Subscription.ID s)),
     Sql.mkTx db db Sql.TxRolledBack).
Proof.
  intros Hnd Hin Hid. rewrite InsertSubscription_cases.
  unfold SubscriptionStore.fetchSubscriptionByID.
  rewrite fetchSubscription_select_result, <- Hid.
  now rewrite (filter_unique_id _ r Hnd Hin).
Qed.

Lemma InsertSubscription_already_exists_witness :
  SubscriptionStore.InsertSubscription
    Scenario.db_sub_B (Scenario.T0 + Scenario.minute) Scenario.sub_B
  = (inl (AlreadyExists Scenario.id_S_B),
     Sql.mkTx Scenario.db_sub_B Scenario.db_sub_B Sql.TxRolledBack).
Proof.
  apply (InsertSubscription_already_exists
           Scenario.db_sub_B (Scenario.T0 + Scenario.minute) Scenario.sub_B
           (pushed_row Scenario.sub_B Scenario.T0)).
  - vm_compute. repeat constructor. intros [].
  - vm_compute. left. reflexivity.
  - reflexivity.
Defined.

(** X20: when no stored subscription has both the id and the owner
    given (the id is unknown, or the subscription belongs to another
    owner), UpdateSubscription returns NotFound and DeleteSubscription
    returns sql.ErrNoRows, each after a rollback, whatever version is
    presented: the two cases cannot be told apart. *)
Theorem unknown_id_or_owner
        (db : SubscriptionStore.DB) (now : time_Time)
        (s : models.Subscription.t) (version : models.Version) :
  (forall r, In r (SubscriptionStore.subscriptions db) ->
             SubscriptionStore.id r = models.Subscription.ID s ->
             SubscriptionStore.owner r <> models.Subscription.Owner s) ->
  SubscriptionStore.UpdateSubscription db now s
  = (inl (NotFound "not found"), Sql.mkTx db db Sql.TxRolledBack)
  /\ SubscriptionStore.DeleteSubscription
       db (models.Subscription.ID s) (models.Subscription.Owner s) version
     = (inl ErrNoRows, Sql.mkTx db db Sql.TxRolledBack).
Proof.
  intros Hno.
  assert (F : filter (fun r =>
                        String.eqb (SubscriptionStore.id r)
                                   (models.Subscription.ID s)
                        && String.eqb (SubscriptionStore.owner r)
                                      (models.Subscription.Owner s))
                     (SubscriptionStore.subscriptions db) = []).
  { apply filter_nil_iff. intros r Hr.
    destruct (String.eqb_spec (SubscriptionStore.id r)
                              (models.Subscription.ID s)) as [E |];
      [| reflexivity].
    cbn [andb]. apply String.eqb_neq. now apply Hno. }
  split.
  - rewrite UpdateSubscription_cases.
    unfold SubscriptionStore.fetchSubscriptionByIDAndOwner.
    now rewrite fetchSubscription_select_result, F.
  - unfold SubscriptionStore.DeleteSubscription.
    pose proof (fetchSubscription_select
                  db (fun db =>
                        filter (fun r =>
                                  String.eqb (SubscriptionStore.id r)
                                             (models.Subscription.ID s)
                                  && String.eqb (SubscriptionStore.owner r)
                                                (models.Subscription.Owner s))
                               (SubscriptionStore.subscriptions db)))
      as Hfst.
    pose proof (fetchSubscription_select_result
                  db (fun db =>
                        filter (fun r =>
                                  String.eqb (SubscriptionStore.id r)
                                             (models.Subscription.ID s)
                                  && String.eqb (SubscriptionStore.owner r)
                                                (models.Subscription.Owner s))
                               (SubscriptionStore.subscriptions db)))
      as Hsnd.
    cbv beta in Hsnd. rewrite F in Hsnd.
    fold (SubscriptionStore.fetchSubscriptionByIDAndOwner
            (Sql.Begin db) (models.Subscription.ID s)
            (models.Subscription.Owner s)) in Hfst, Hsnd.
    destruct (SubscriptionStore.fetchSubscriptionByIDAndOwner _ _ _)
      as [tx0 res].
    cbn [fst snd] in Hfst, Hsnd. subst tx0 res. reflexivity.
Qed.

Lemma unknown_id_or_owner_witness :
  SubscriptionStore.UpdateSubscription
    Scenario.db_sub_B (Scenario.T0 + Scenario.minute)
    (models.Subscription.mk Scenario.id_S_B "" 0 "A" None None None
                            (Some Scenario.T0))
  = (inl (NotFound "not found"),
     Sql.mkTx Scenario.db_sub_B Scenario.db_sub_B Sql.TxRolledBack)
  /\ SubscriptionStore.DeleteSubscription
       Scenario.db_sub_B Scenario.id_S_B "A"
       (models.VersionFromTimestamp (Some Scenario.T0))
     = (inl ErrNoRows,
        Sql.mkTx Scenario.db_sub_B Scenario.db_sub_B Sql.TxRolledBack).
Proof.
  apply (unknown_id_or_owner
           Scenario.db_sub_B (Scenario.T0 + Scenario.minute)
           (models.Subscription.mk Scenario.id_S_B "" 0 "A" None None None
                                   (Some Scenario.T0))
           (models.VersionFromTimestamp (Some Scenario.T0))).
  intros r Hr _. vm_compute in Hr. destruct Hr as [<- | []].
  vm_compute. discriminate.
Defined.

(** X21: what a successful DeleteSubscription has done.  It commits and
    returns a stored subscription with the id and the owner given, whose
    version is the one presented; the stored subscriptions are those of
    before without the ones of that id and owner; the cascade has removed
    every cell row of the id and no cell row of another id. *)
Theorem DeleteSubscription_commit
        (db : SubscriptionStore.DB) (i : models.ID) (o : models.Owner)
        (version : models.Version) (old : models.Subscription.t)
        (tx : Sql.Tx SubscriptionStore.DB) :
  SubscriptionStore.DeleteSubscription db i o version = (inr old, tx) ->
  Sql.status tx = Sql.TxCommitted
  /\ (exists r, In r (SubscriptionStore.subscriptions db)
                /\ SubscriptionStore.id r = i
                /\ SubscriptionStore.owner r = o
                /\ old = SubscriptionStore.scan r)
  /\ version = models.Subscription.Version old
  /\ (forall r,
         In r (SubscriptionStore.subscriptions (Sql.persisted tx))
         <-> In r (SubscriptionStore.subscriptions db)
             /\ ~ (SubscriptionStore.id r = i /\ SubscriptionStore.owner r = o))
  /\ (forall c,
         ~ indexed (SubscriptionStore.cells_subscriptions (Sql.persisted tx))
           c i)
  /\ (forall c e, e <> i ->
                  (indexed (SubscriptionStore.cells_subscriptions
                              (Sql.persisted tx)) c e
                   <-> indexed (SubscriptionStore.cells_subscriptions db) c e)).
Proof.
  unfold SubscriptionStore.DeleteSubscription.
  pose proof (fetchSubscription_select
                db (fun db =>
                      filter (fun r =>
                                String.eqb (SubscriptionStore.id r) i
                                && String.eqb (SubscriptionStore.owner r) o)
                             (SubscriptionStore.subscriptions db)))
    as Hfst.
  fold (SubscriptionStore.fetchSubscriptionByIDAndOwner (Sql.Begin db) i o)
    in Hfst.
  pose proof (fetchSubscriptionByIDAndOwner_inr db i o) as Hsnd.
  destruct (SubscriptionStore.fetchSubscriptionByIDAndOwner _ _ _)
    as [tx0 [e | old0]].
  { cbn [fst] in Hfst. subst tx0. cbn. discriminate. }
  cbn [fst snd] in Hfst, Hsnd. subst tx0.
  destruct (Hsnd old0 eq_refl) as [r0 [Hin0 [Hid0 [Hown0 Hold0]]]].
  destruct (String.eqb_spec version (models.Subscription.Version old0))
    as [Hv |]; cbn [negb]; [| cbn; discriminate].
  cbn [Sql.Exec Sql.Begin Sql.status Sql.working Sql.persisted
       SubscriptionStore.deleteQuery].
  cbv zeta.
  rewrite commit_return_open by reflexivity.
  intros E. injection E as <- <-.
  cbn [Sql.status Sql.persisted Sql.working
       SubscriptionStore.subscriptions SubscriptionStore.cells_subscriptions].
  set (hit := fun r => String.eqb (SubscriptionStore.id r) i
                       && String.eqb (SubscriptionStore.owner r) o).
  assert (Hhit : forall r, hit r = true
                           <-> SubscriptionStore.id r = i
                               /\ SubscriptionStore.owner r = o).
  { intros r. unfold hit. rewrite andb_true_iff, !String.eqb_eq. tauto. }
  assert (Hdel : In r0 (filter hit (SubscriptionStore.subscriptions db))).
  { apply filter_In. split; [exact Hin0 |]. apply Hhit. auto. }
  split; [reflexivity |]. split; [exists r0; auto |]. split; [exact Hv |].
  split; [| split].
  - intros r. unfold Sql.delete_where. rewrite filter_In.
    rewrite negb_true_iff, <- not_true_iff_false, Hhit. tauto.
  - intros c [x [Hx [_ He]]]. unfold Sql.delete_where in Hx.
    apply filter_In in Hx. destruct Hx as [_ Hx].
    apply negb_true_iff, not_true_iff_false in Hx. apply Hx.
    apply existsb_exists. exists r0. split; [exact Hdel |].
    apply String.eqb_eq. congruence.
  - intros c e Hne. unfold Sql.delete_where. split.
    + intros [x [Hx Hk]]. apply filter_In in Hx. exists x. tauto.
    + intros [x [Hx [Hc He]]]. exists x. split; [| tauto].
      apply filter_In. split; [exact Hx |].
      apply negb_true_iff, not_true_iff_false. intros Ex.
      apply existsb_exists in Ex. destruct Ex as [r [Hr Heq]].
      apply String.eqb_eq in Heq. apply filter_In in Hr.
      destruct Hr as [_ Hr]. apply Hhit in Hr. destruct Hr as [Hr _].
      congruence.
Qed.

Lemma DeleteSubscription_commit_witness :
  Sql.status
    (snd (SubscriptionStore.DeleteSubscription
            Scenario.db_sub_B Scenario.id_S_B "B"
            (models.VersionFromTimestamp (Some Scenario.T0))))
  = Sql.TxCommitted
  /\ SubscriptionStore.subscriptions
       (Sql.persisted
          (snd (SubscriptionStore.DeleteSubscription
                  Scenario.db_sub_B Scenario.id_S_B "B"
                  (models.VersionFromTimestamp (Some Scenario.T0)))))
     = [].
Proof.
  pose proof (DeleteSubscription_commit
                Scenario.db_sub_B Scenario.id_S_B "B"
                (models.VersionFromTimestamp (Some Scenario.T0))
                _ _ eq_refl) as H.
  split; [exact (proj1 H) |]. vm_compute. reflexivity.
Defined.

Lemma driver_ConvertArray_small (cells : list Z) :
  Forall (fun c => c < 2 ^ 63) cells ->
  Schema.driver_ConvertArray cells = inr cells.
Proof.
  induction 1 as [| c cells Hc _ IH]; [reflexivity |].
  cbn [Schema.driver_ConvertArray]. unfold Schema.driver_ConvertValue.
  destruct (Z.geb_spec c (2 ^ 63)); [lia |]. now rewrite IH.
Qed.

(** X22: SearchSubscriptions on at least one cell, all of them below
    2^63 so that the driver can send them, commits without a change and
    returns, up to their order, one subscription for each stored
    subscription of the owner, with the fields of the row and without
    cells: the cells asked for do not restrict the result. *)
Theorem SearchSubscriptions_result
        (db : SubscriptionStore.DB) (cell : s2.CellID) (cells : s2.CellUnion)
        (o : models.Owner) :
  Forall (fun c => c < 2 ^ 63) (cell :: cells) ->
  exists result,
    SubscriptionStore.SearchSubscriptions db (cell :: cells) o
    = (inr result, Sql.mkTx db db Sql.TxCommitted)
    /\ Permutation
         result
         (map SubscriptionStore.scan
              (filter (fun r => String.eqb (SubscriptionStore.owner r) o)
                      (SubscriptionStore.subscriptions db))).
Proof.
  intros Hsmall. unfold SubscriptionStore.SearchSubscriptions.
  rewrite (driver_ConvertArray_small _ Hsmall).
  unfold SubscriptionStore.fetchSubscriptions, SubscriptionStore.select.
  cbn [Sql.Exec Sql.Begin Sql.status Sql.working Sql.persisted].
  rewrite commit_return_open by reflexivity.
  rewrite searchQuery_all_of_owner.
  eexists. split; [reflexivity | apply Permutation_refl].
Qed.

(** Owner B searches on cell 210, where it has no subscription, and gets
    its subscription of cells 42 and 84. *)
Lemma SearchSubscriptions_result_witness :
  exists result,
    SubscriptionStore.SearchSubscriptions Scenario.db_sub_B [210] "B"
    = (inr result,
       Sql.mkTx Scenario.db_sub_B Scenario.db_sub_B Sql.TxCommitted)
    /\ Permutation
         result
         [ models.Subscription.mk Scenario.id_S_B "https://b/isa" 0 "B" None
                                  None None (Some Scenario.T0) ].
Proof.
  assert (Hsmall : Forall (fun c => c < 2 ^ 63) [210])
    by (repeat constructor).
  destruct (SearchSubscriptions_result Scenario.db_sub_B 210 [] "B" Hsmall)
    as [result [Hrun Hperm]].
  exists result. split; [exact Hrun | exact Hperm].
Defined.

(** X23: SearchSubscriptions never changes the store, whatever its
    outcome, and never leaves its transaction open: without cells it
    returns BadRequest before a transaction is begun, and a cell id with
    the high bit set, which the driver does not send, is an error after a
    rollback. *)
Theorem SearchSubscriptions_read_only
        (db : SubscriptionStore.DB) (cells : s2.CellUnion) (o : models.Owner) :
  Sql.persisted (snd (SubscriptionStore.SearchSubscriptions db cells o)) = db
  /\ Sql.status (snd (SubscriptionStore.SearchSubscriptions db cells o))
     <> Sql.TxOpen
  /\ (cells = [] <->
      SubscriptionStore.SearchSubscriptions db cells o
      = (inl (BadRequest "no location provided"),
         Sql.mkTx db db Sql.TxNotBegun))
  /\ (Exists (fun c => 2 ^ 63 <= c) cells <->
      exists msg,
        SubscriptionStore.SearchSubscriptions db cells o
        = (inl (ErrorString msg), Sql.mkTx db db Sql.TxRolledBack)).
Proof.
  assert (Hconv : forall l,
             (Exists (fun c => 2 ^ 63 <= c) l
              /\ Schema.driver_ConvertArray l
                 = inl (ErrorString
                          ("sql: converting argument $1 type: "
                             ++ "uint64 values with high bit set "
                             ++ "are not supported")))
             \/ (~ Exists (fun c => 2 ^ 63 <= c) l
                 /\ Schema.driver_ConvertArray l = inr l)).
  { induction l as [| c l IH].
    - right. split; [intros H; inversion H | reflexivity].
    - cbn [Schema.driver_ConvertArray]. unfold Schema.driver_ConvertValue.
      destruct (Z.geb_spec c (2 ^ 63)) as [Hc | Hc].
      + left. split; [now left | reflexivity].
      + destruct IH as [[Hex ->] | [Hno ->]].
        * left. split; [now right | reflexivity].
        * right. split; [| reflexivity].
          intros H. inversion H; subst; [lia | contradiction]. }
  unfold SubscriptionStore.SearchSubscriptions.
  destruct cells as [| cell cells].
  - cbn. repeat split; try discriminate.
    + intros H. inversion H.
    + intros [msg H]. discriminate.
  - destruct (Hconv (cell :: cells)) as [[Hex ->] | [Hno ->]].
    + cbn. repeat split; try discriminate; eauto.
    + unfold SubscriptionStore.fetchSubscriptions, SubscriptionStore.select.
      cbn [Sql.Exec Sql.Begin Sql.status Sql.working Sql.persisted].
      rewrite commit_return_open by reflexivity.
      cbn. repeat split; try discriminate.
      * contradiction.
      * intros [msg H]. discriminate.
Qed.

(** ** Area strings *)

Lemma string_app_assoc (a b c : string) :
  ((a ++ b) ++ c = a ++ b ++ c)%string.
Proof. induction a as [| x a IH]; cbn; [reflexivity | now rewrite IH]. Qed.

Lemma string_app_nil_r (a : string) : (a ++ "")%string = a.
Proof. induction a as [| x a IH]; cbn; [reflexivity | now rewrite IH]. Qed.

(** The first comma splits the data into a token without a comma and the
    rest. *)
Lemma IndexByte_comma_Some :
  forall (data : string) (i : nat),
    geo.IndexByte_comma data = Some i ->
    geo.Count_comma data = 1 + geo.Count_comma (geo.slice_from (S i) data)
    /\ (String.length (geo.slice_from (S i) data) < String.length data)%nat
    /\ geo.open_tail data = geo.open_tail (geo.slice_from (S i) data)
    /\ geo.Count_comma (geo.slice_to i data) = 0
    /\ (geo.slice_to i data ++ "," ++ geo.slice_from (S i) data)%string
       = data
    /\ (String.length (geo.slice_to i data) <= String.length data)%nat.
Proof.
  induction data as [| c d IH]; intros i H; [discriminate |].
  cbn [geo.IndexByte_comma] in H.
  destruct (Ascii.eqb_spec c ","%char) as [-> | Hc].
  - injection H as <-.
    cbn [geo.slice_from geo.slice_to geo.Count_comma String.length].
    rewrite Ascii.eqb_refl. cbn [geo.open_tail].
    repeat split; try lia. destruct d; reflexivity.
  - destruct (geo.IndexByte_comma d) as [i' |] eqn:I; [| discriminate].
    injection H as <-.
    destruct (IH i' eq_refl) as [H1 [H2 [H3 [H4 [H5 H6]]]]].
    change (geo.slice_from (S (S i')) (String c d))
      with (geo.slice_from (S i') d).
    change (geo.slice_to (S i') (String c d))
      with (String c (geo.slice_to i' d)).
    cbn [geo.Count_comma String.length].
    rewrite (proj2 (Ascii.eqb_neq c ","%char) Hc).
    repeat split; try lia.
    + rewrite <- H3. destruct d; [discriminate | reflexivity].
    + cbn [String.append]. cbn [String.append] in H5. now rewrite H5.
Qed.

Lemma IndexByte_comma_None :
  forall data : string,
    geo.IndexByte_comma data = None ->
    geo.Count_comma data = 0
    /\ (data <> "" -> geo.open_tail data = true)
    /\ geo.slice_from (String.length data) data = "".
Proof.
  induction data as [| c d IH]; intros H.
  - repeat split. congruence.
  - cbn [geo.IndexByte_comma] in H.
    destruct (Ascii.eqb_spec c ","%char) as [-> | Hc]; [discriminate |].
    destruct (geo.IndexByte_comma d) as [i' |] eqn:I; [discriminate |].
    destruct (IH eq_refl) as [H1 [H2 H3]].
    cbn [geo.slice_from geo.Count_comma String.length geo.open_tail].
    rewrite (proj2 (Ascii.eqb_neq c ","%char) Hc).
    repeat split; try lia; [| exact H3].
    intros _. destruct d; [reflexivity |]. apply H2. discriminate.
Qed.

Lemma scan_tokens_loop_empty (rounds : nat) :
  geo.scan_tokens_loop rounds "" = [].
Proof. destruct rounds; reflexivity. Qed.

Lemma scan_tokens_loop_spec :
  forall (rounds : nat) (data : string),
    (String.length data < rounds)%nat ->
    Z.of_nat (String.length data) < geo.MaxScanTokenSize ->
    Forall (fun token => geo.Count_comma token = 0)
           (geo.scan_tokens_loop rounds data)
    /\ comma_terminated (geo.scan_tokens_loop rounds data)
       = (data ++ (if geo.open_tail data then "," else ""))%string
    /\ Z.of_nat (List.length (geo.scan_tokens_loop rounds data))
       = geo.Count_comma data + (if geo.open_tail data then 1 else 0).
Proof.
  induction rounds as [| rounds IH]; intros data Hlen Hmax; [lia |].
  cbn [geo.scan_tokens_loop]. unfold geo.splitAtComma. cbn [andb].
  destruct data as [| c d]; [cbn; auto |].
  set (data := String c d) in *.
  change (String.length data =? 0)%nat with false. cbv iota.
  destruct (geo.IndexByte_comma data) as [i |] eqn:I.
  - destruct (IndexByte_comma_Some data i I) as [H1 [H2 [H3 [H4 [H5 H6]]]]].
    destruct (Z.leb_spec geo.MaxScanTokenSize
                         (Z.of_nat (String.length (geo.slice_to i data))));
      [lia |].
    destruct (IH (geo.slice_from (S i) data)) as [F [J N]]; [lia | lia |].
    rewrite <- H3 in J, N.
    cbn [comma_terminated List.length]. rewrite J.
    split; [now constructor |]. split; [| lia].
    generalize (if geo.open_tail data then "," else "")%string as tail.
    intros tail. rewrite <- H5 at 3. now rewrite !string_app_assoc.
  - destruct (IndexByte_comma_None data I) as [H1 [H2 H3]].
    destruct (Z.leb_spec geo.MaxScanTokenSize (Z.of_nat (String.length data)));
      [lia |].
    rewrite H3, scan_tokens_loop_empty, H2 by discriminate.
    cbn [comma_terminated List.length].
    split; [now repeat constructor |]. split; [reflexivity | lia].
Qed.

(** X24: the tokens that the scanner of AreaToCellIDs yields with
    splitAtComma, for an area string below the maximal token size of the
    scanner.  No token holds a comma; the tokens, each followed by a comma,
    give the string back, with one more comma when the string is not empty
    and does not end with one; so there is a token for every comma, and one
    more only in that case: nothing follows a comma at the end. *)
Theorem scan_tokens_spec (area : string) :
  Z.of_nat (String.length area) < geo.MaxScanTokenSize ->
  Forall (fun token => geo.Count_comma token = 0) (geo.scan_tokens area)
  /\ comma_terminated (geo.scan_tokens area)
     = (area ++ (if geo.open_tail area then "," else ""))%string
  /\ Z.of_nat (List.length (geo.scan_tokens area))
     = geo.Count_comma area + (if geo.open_tail area then 1 else 0).
Proof.
  intros Hmax. unfold geo.scan_tokens.
  apply scan_tokens_loop_spec; [lia | exact Hmax].
Qed.

Lemma scan_tokens_spec_witness :
  comma_terminated (geo.scan_tokens "51.5, -0.1,,7,")
  = "51.5, -0.1,,7,"
  /\ Z.of_nat (List.length (geo.scan_tokens "51.5, -0.1,,7,")) = 4.
Proof.
  assert (H : Z.of_nat (String.length "51.5, -0.1,,7,")
              < geo.MaxScanTokenSize) by (vm_compute; reflexivity).
  split.
  - exact (eq_trans (proj1 (proj2 (scan_tokens_spec "51.5, -0.1,,7," H)))
                    eq_refl).
  - exact (eq_trans (proj2 (proj2 (scan_tokens_spec "51.5, -0.1,,7," H)))
                    eq_refl).
Defined.

Section AreaToCellIDsFacts.
Variable Point : Type.
Variable Loop : Type.
Variable ParseFloat : string -> Err + float.
Variable TrimSpace : string -> string.
Variable PointFromDegrees : float -> float -> Point.
Variable LoopFromPoints : list Point -> Loop.
Variable Area : Loop -> float.
Variable RegionCoverer_Covering : Loop -> s2.CellUnion.

(** The loop of AreaToCellIDs appends a point at every second token. *)
Lemma scan_points_spec :
  forall (tokens : list string) (counter : Z) (lat lng : float)
         (points points' : list Point),
    0 <= counter ->
    geo.scan_points Point ParseFloat TrimSpace PointFromDegrees
                    tokens counter lat lng points = inr points' ->
    Z.of_nat (List.length points')
    = Z.of_nat (List.length points)
      + (Z.of_nat (List.length tokens) + counter mod 2) / 2
    /\ Forall (fun token => exists f, ParseFloat (TrimSpace token) = inr f)
              tokens.
Proof.
  induction tokens as [| token rest IH];
    intros counter lat lng points points' Hc H.
  - cbn in H. injection H as <-. split; [| constructor].
    cbn [List.length]. Z.to_euclidean_division_equations. lia.
  - cbn [geo.scan_points] in H.
    destruct (ParseFloat (TrimSpace token)) as [e | f] eqn:P;
      [destruct (counter mod 2 =? 0); discriminate |].
    destruct (Z.eqb_spec (counter mod 2) 0) as [Hm | Hm].
    + apply IH in H; [| lia]. destruct H as [Hn HF].
      split; [| constructor; eauto].
      cbn [List.length]. Z.to_euclidean_division_equations. lia.
    + apply IH in H; [| lia]. destruct H as [Hn HF].
      split; [| constructor; eauto].
      rewrite length_app in Hn. cbn [List.length] in *.
      Z.to_euclidean_division_equations. lia.
Qed.

(** X25: what an area string that AreaToCellIDs accepts looks like, below
    the maximal token size of the scanner.  The number of its commas is odd
    and at least five; every token between the commas, trimmed, is parsed
    as a float; the area of the loop of the points is positive and not
    above maxLoopArea, and the result is the covering of that loop.  The
    loop has half as many points as the string has commas plus one, unless
    the string ends with a comma: the latitude before that comma is then
    dropped and the loop has one point less than the check on the number of
    points has counted. *)
Theorem AreaToCellIDs_accepts (area : string) (cells : s2.CellUnion) :
  Z.of_nat (String.length area) < geo.MaxScanTokenSize ->
  geo.AreaToCellIDs Point Loop ParseFloat TrimSpace PointFromDegrees
                    LoopFromPoints Area RegionCoverer_Covering area
  = inr cells ->
  (geo.Count_comma area) mod 2 = 1
  /\ 5 <= geo.Count_comma area
  /\ Forall (fun token => exists f, ParseFloat (TrimSpace token) = inr f)
            (geo.scan_tokens area)
  /\ exists points,
      geo.scan_points Point ParseFloat TrimSpace PointFromDegrees
                      (geo.scan_tokens area) 0 0%float 0%float [] = inr points
      /\ Z.of_nat (List.length points)
         = (geo.Count_comma area + 1) / 2
           - (if geo.open_tail area then 0 else 1)
      /\ PrimFloat.leb (Area (LoopFromPoints points)) 0 = false
      /\ PrimFloat.ltb geo.maxLoopArea (Area (LoopFromPoints points)) = false
      /\ cells = RegionCoverer_Covering (LoopFromPoints points).
Proof.
  intros Hmax. unfold geo.AreaToCellIDs. cbv zeta.
  destruct (Z.eqb_spec ((geo.Count_comma area + 1) mod 2) 1) as [| Hodd];
    [discriminate |].
  destruct (Z.ltb_spec ((geo.Count_comma area + 1) / 2) 3) as [| Hmin];
    [discriminate |].
  destruct (geo.scan_points _ _ _ _ _ _ _ _ _) as [e | points] eqn:S;
    [discriminate |].
  unfold geo.Covering.
  destruct (PrimFloat.leb (Area (LoopFromPoints points)) 0) eqn:A0;
    [discriminate |].
  destruct (PrimFloat.ltb geo.maxLoopArea (Area (LoopFromPoints points)))
    eqn:A1; [discriminate |].
  intros E. injection E as <-.
  apply scan_points_spec in S; [| lia]. destruct S as [Hn HF].
  destruct (scan_tokens_spec area Hmax) as [_ [_ Hcount]].
  split; [Z.to_euclidean_division_equations; lia |].
  split; [Z.to_euclidean_division_equations; lia |].
  split; [exact HF |].
  exists points. split; [reflexivity |]. split; [| auto].
  rewrite Hn, Hcount. cbn [List.length].
  destruct (geo.open_tail area); Z.to_euclidean_division_equations; lia.
Qed.
End AreaToCellIDsFacts.

Lemma AreaToCellIDs_accepts_witness :
  geo.AreaToCellIDs (float * float) (list (float * float))
                    Scenario.digit_ParseFloat (fun s => s) pair (fun l => l)
                    Scenario.points_Area Scenario.points_cover
                    Scenario.area_open_latitude
  = inr [42]
  /\ geo.Count_comma Scenario.area_open_latitude = 7
  /\ exists points,
      geo.scan_points (float * float) Scenario.digit_ParseFloat (fun s => s)
                      pair (geo.scan_tokens Scenario.area_open_latitude)
                      0 0%float 0%float [] = inr points
      /\ Z.of_nat (List.length points) = 3.
Proof.
  assert (Hmax : Z.of_nat (String.length Scenario.area_open_latitude)
                 < geo.MaxScanTokenSize) by (vm_compute; reflexivity).
  assert (Hrun : geo.AreaToCellIDs
                   (float * float) (list (float * float))
                   Scenario.digit_ParseFloat (fun s => s) pair (fun l => l)
                   Scenario.points_Area Scenario.points_cover
                   Scenario.area_open_latitude
                 = inr [42]) by (vm_compute; reflexivity).
  split; [exact Hrun |]. split; [reflexivity |].
  destruct (AreaToCellIDs_accepts
              (float * float) (list (float * float))
              Scenario.digit_ParseFloat (fun s => s) pair (fun l => l)
              Scenario.points_Area Scenario.points_cover
              Scenario.area_open_latitude [42] Hmax Hrun)
    as [_ [_ [_ [points [Hs [Hn _]]]]]].
  exists points. split; [exact Hs |]. rewrite Hn. reflexivity.
Defined.

(** ** Errors never commit *)

Lemma all_or_nothing_fail {DB A : Type} (db : DB) (tx : Sql.Tx DB)
      (err : Err) :
  Sql.status tx = Sql.TxOpen ->
  Sql.persisted tx = db ->
  all_or_nothing db (@Sql.fail_rollback DB A tx err).
Proof.
  intros Hs Hp. unfold all_or_nothing, Sql.fail_rollback, Sql.Rollback.
  rewrite Hs. cbn. split; [exact Hp | discriminate].
Qed.

Lemma all_or_nothing_commit {DB A : Type} (db : DB) (tx : Sql.Tx DB) (a : A) :
  Sql.status tx = Sql.TxOpen ->
  all_or_nothing db (Sql.commit_return tx a).
Proof.
  intros Hs. rewrite commit_return_open by exact Hs. reflexivity.
Qed.

Lemma all_or_nothing_open {DB A : Type} (db : DB) (tx : Sql.Tx DB)
      (err : Err) :
  Sql.status tx = Sql.TxOpen ->
  Sql.persisted tx = db ->
  all_or_nothing db (@inl Err A err, tx).
Proof.
  intros Hs Hp. unfold all_or_nothing. cbn [fst snd].
  split; [exact Hp |]. rewrite Hs. discriminate.
Qed.

Lemma insert_cells_frame (sid : string) (now : time_Time) :
  forall (cells : s2.CellUnion) (tx : Sql.Tx RowStore.DB),
    Sql.status tx = Sql.TxOpen ->
    Sql.status (fst (RowStore.insert_cells tx cells sid now)) = Sql.TxOpen
    /\ Sql.persisted (fst (RowStore.insert_cells tx cells sid now))
       = Sql.persisted tx.
Proof.
  induction cells as [| cell cells IH]; intros tx Hopen; [cbn; auto |].
  cbn [RowStore.insert_cells].
  destruct (Schema.driver_ConvertValue cell) as [e | v]; [cbn; auto |].
  rewrite Exec_open by exact Hopen.
  destruct (RowStore.insertCellQuery _ _ _ _ _) as [e | [db' u]];
    [cbn; auto |].
  apply (IH (Sql.mkTx (Sql.persisted tx) db' Sql.TxOpen)). reflexivity.
Qed.

Lemma row_upsert_cells_frame (sid : string) (now : time_Time) :
  forall (cells : s2.CellUnion) (tx : Sql.Tx RowStore.DB),
    Sql.status tx = Sql.TxOpen ->
    Sql.status (fst (RowStore.upsert_cells tx cells sid now)) = Sql.TxOpen
    /\ Sql.persisted (fst (RowStore.upsert_cells tx cells sid now))
       = Sql.persisted tx.
Proof.
  induction cells as [| cell cells IH]; intros tx Hopen; [cbn; auto |].
  cbn [RowStore.upsert_cells].
  destruct (Schema.driver_ConvertValue cell) as [e | v]; [cbn; auto |].
  rewrite Exec_open by exact Hopen.
  destruct (RowStore.subscriptionCellQuery _ _ _ _ _) as [e | [db' u]];
    [cbn; auto |].
  apply (IH (Sql.mkTx (Sql.persisted tx) db' Sql.TxOpen)). reflexivity.
Qed.

(** The end of the operations that read one row back. *)
Lemma all_or_nothing_row (db : RowStore.DB) (tx : Sql.Tx RowStore.DB)
      (rows : list RowStore.subscriptionsRow.t) :
  Sql.status tx = Sql.TxOpen ->
  Sql.persisted tx = db ->
  all_or_nothing
    db
    match RowStore.scan_row rows with
    | inl err => Sql.fail_rollback tx err
    | inr sr =>
        match RowStore.subscriptionsRow.toProtobuf sr with
        | inl err => Sql.fail_rollback tx err
        | inr result => Sql.commit_return tx result
        end
    end.
Proof.
  intros Hs Hp.
  destruct (RowStore.scan_row rows) as [e | sr];
    [now apply all_or_nothing_fail |].
  destruct (RowStore.subscriptionsRow.toProtobuf sr) as [e | pb];
    [now apply all_or_nothing_fail | now apply all_or_nothing_commit].
Qed.

(** X26: the operations of the row based store on subscriptions are all
    or nothing.  Whatever the state and the arguments, an error of
    insertSubscription, updateSubscription, GetSubscription,
    DeleteSubscription or SearchSubscriptions leaves what is persisted as it
    was, also on the two paths that return without a rollback, and a result
    is returned only after the commit. *)
Theorem row_store_all_or_nothing
        (db : RowStore.DB) (now : time_Time)
        (subscription : dspb.Subscription.t) (cells : s2.CellUnion)
        (id version owner : string) :
  all_or_nothing db (RowStore.insertSubscription db now subscription cells)
  /\ all_or_nothing db (RowStore.updateSubscription db now subscription cells)
  /\ all_or_nothing db (RowStore.GetSubscription db id)
  /\ all_or_nothing db (RowStore.DeleteSubscription db id version)
  /\ all_or_nothing db (RowStore.SearchSubscriptions db cells owner).
Proof.
  split; [| split; [| split; [| split]]].
  - unfold RowStore.insertSubscription.
    rewrite Exec_open by reflexivity.
    destruct (RowStore.insertQuery _ _ _) as [e | [db' rows]];
      [now apply all_or_nothing_fail |].
    destruct (RowStore.scan_row rows) as [e | sr];
      [now apply all_or_nothing_fail |].
    pose proof (insert_cells_frame
                  (RowStore.subscriptionsRow.id sr) now cells
                  (Sql.mkTx (Sql.persisted (Sql.Begin db)) db' Sql.TxOpen)
                  eq_refl) as [Hs Hp].
    destruct (RowStore.insert_cells _ _ _ _) as [tx2 [e |]];
      cbn [fst] in Hs, Hp; [now apply all_or_nothing_fail |].
    destruct (RowStore.subscriptionsRow.toProtobuf sr) as [e | pb];
      [now apply all_or_nothing_open | now apply all_or_nothing_commit].
  - unfold RowStore.updateSubscription.
    cbn [Sql.Query Sql.Begin Sql.status Sql.working].
    destruct (RowStore.scan_row _) as [e | sr];
      [now apply all_or_nothing_fail |].
    destruct (negb _); [now apply all_or_nothing_fail |].
    rewrite Exec_open by reflexivity.
    destruct (RowStore.updateQuery _ _ _) as [e | [db' rows]];
      [now apply all_or_nothing_fail |].
    destruct (RowStore.scan_row rows) as [e | sr'];
      [now apply all_or_nothing_fail |].
    pose proof (row_upsert_cells_frame
                  (RowStore.subscriptionsRow.id sr') now cells
                  (Sql.mkTx (Sql.persisted (Sql.Begin db)) db' Sql.TxOpen)
                  eq_refl) as [Hs Hp].
    destruct (RowStore.upsert_cells _ _ _ _) as [tx2 [e |]];
      cbn [fst] in Hs, Hp; [now apply all_or_nothing_fail |].
    destruct (RowStore.subscriptionsRow.toProtobuf sr') as [e | pb];
      [now apply all_or_nothing_open | now apply all_or_nothing_commit].
  - unfold RowStore.GetSubscription.
    cbn [Sql.Query Sql.Begin Sql.status Sql.working].
    now apply all_or_nothing_row.
  - unfold RowStore.DeleteSubscription.
    destruct (String.eqb version "").
    + rewrite Exec_open by reflexivity.
      unfold RowStore.blindQuery, RowStore.deleteSubscriptionsWhere.
      now apply all_or_nothing_row.
    + destruct (Versions.versionStringToTimestamp version) as [e | t];
        [now apply all_or_nothing_fail |].
      rewrite Exec_open by reflexivity.
      unfold RowStore.idempotentQuery, RowStore.deleteSubscriptionsWhere.
      now apply all_or_nothing_row.
  - unfold RowStore.SearchSubscriptions.
    destruct cells as [| cell cells];
      [unfold all_or_nothing; cbn; split; [reflexivity | discriminate] |].
    destruct (Schema.driver_ConvertArray _) as [e | cs];
      [now apply all_or_nothing_fail |].
    cbn [Sql.Query Sql.Begin Sql.status Sql.working].
    destruct (RowStore.rows_toProtobuf _) as [e | pbs];
      [now apply all_or_nothing_fail | now apply all_or_nothing_commit].
Qed.

(** X27: the operations of the store of the models on subscriptions are
    all or nothing as well: an error of InsertSubscription,
    UpdateSubscription, DeleteSubscription or SearchSubscriptions leaves
    what is persisted as it was, also when pushSubscription fails and the
    transaction is left open, and a result is returned only after the
    commit. *)
Theorem models_store_all_or_nothing
        (db : SubscriptionStore.DB) (now : time_Time)
        (s : models.Subscription.t) (i : models.ID) (o : models.Owner)
        (version : models.Version) (cells : s2.CellUnion) :
  all_or_nothing db (SubscriptionStore.InsertSubscription db now s)
  /\ all_or_nothing db (SubscriptionStore.UpdateSubscription db now s)
  /\ all_or_nothing db (SubscriptionStore.DeleteSubscription db i o version)
  /\ all_or_nothing db (SubscriptionStore.SearchSubscriptions db cells o).
Proof.
  assert (Hpush : forall s0,
             all_or_nothing
               db
               match SubscriptionStore.pushSubscription (Sql.Begin db) now s0
               with
               | (tx, inl err) => (inl err, tx)
               | (tx, inr s') => Sql.commit_return tx s'
               end).
  { intros s0.
    pose proof (pushSubscription_frame (Sql.Begin db) now s0 eq_refl)
      as [Hs Hp].
    destruct (SubscriptionStore.pushSubscription _ _ _) as [tx [e | s']];
      cbn [fst] in Hs, Hp;
      [now apply all_or_nothing_open | now apply all_or_nothing_commit]. }
  assert (Hdone : forall (A : Type) (err : Err),
             all_or_nothing
               db (@inl Err A err, Sql.mkTx db db Sql.TxRolledBack)).
  { intros A err. unfold all_or_nothing. cbn.
    split; [reflexivity | discriminate]. }
  split; [| split; [| split]].
  - rewrite InsertSubscription_cases.
    destruct (snd (SubscriptionStore.fetchSubscriptionByID _ _))
      as [[] | old]; auto.
  - rewrite UpdateSubscription_cases.
    destruct (snd (SubscriptionStore.fetchSubscriptionByIDAndOwner _ _ _))
      as [[] | old]; auto.
    destruct (negb _); auto.
  - unfold SubscriptionStore.DeleteSubscription.
    pose proof (fetchSubscription_select
                  db (fun db =>
                        filter (fun r =>
                                  String.eqb (SubscriptionStore.id r) i
                                  && String.eqb (SubscriptionStore.owner r) o)
                               (SubscriptionStore.subscriptions db)))
      as Hfst.
    fold (SubscriptionStore.fetchSubscriptionByIDAndOwner (Sql.Begin db) i o)
      in Hfst.
    destruct (SubscriptionStore.fetchSubscriptionByIDAndOwner _ _ _)
      as [tx0 [e | old]]; cbn [fst] in Hfst; subst tx0;
      [now apply all_or_nothing_fail |].
    destruct (negb _); [now apply all_or_nothing_fail |].
    rewrite Exec_open by reflexivity.
    unfold SubscriptionStore.deleteQuery.
    now apply all_or_nothing_commit.
  - unfold SubscriptionStore.SearchSubscriptions.
    destruct cells as [| cell cells];
      [unfold all_or_nothing; cbn; split; [reflexivity | discriminate] |].
    destruct (Schema.driver_ConvertArray _) as [e | cs];
      [now apply all_or_nothing_fail |].
    unfold SubscriptionStore.fetchSubscriptions, SubscriptionStore.select.
    cbn [Sql.Exec Sql.Begin Sql.status Sql.working Sql.persisted].
    now apply all_or_nothing_commit.
Qed.

(** ** The mutations of service areas only read the subscriptions *)






